(** * AQI_Predict: the ETL scripts [scripts/etl.py] and
      [scripts/historical_backfill.py]

    A shallow embedding of the two scripts: the parsed JSON payloads and the
    Python operations the scripts apply to them, the two merge functions
    ([transform_data], [transform_historical_data]), the store behind the
    SQL statements of [load_data], and the two run loops.

    Conventions of the embedding.
    - A Python value is a [value]: an int is a [Z], a float is the rational
      it is worth ([Q]), and [VNaN] is the float NaN that pandas uses as its
      missing-value marker.  The scripts do arithmetic in one place, the
      daily averages, and there every operation rounds as float64 does
      ([round64]); infinities and the sign of zero are left out.
    - A Python call either returns or raises: [result A].  Code that also
      touches the database, the heap of dictionaries or the network runs in
      [M A := world -> result A * world].
    - Everything outside the scripts (environment variables, the HTTP
      services, the clock, what the store accepts) is the [environ].
    - What the scripts print is left out; a subscript that a print
      evaluates ([reading_data['reading_date']]) is kept. *)

From Stdlib Require Import QArith.
From stdpp Require Import base option list gmap strings fin_maps.

Set Default Proof Using "Type".
Local Open Scope Z_scope.
Local Open Scope string_scope.
Local Open Scope list_scope.

(** ** Python values *)

#[warnings="-register-all"]
Inductive value : Type :=
| VNone
| VBool (b : bool)
| VInt (z : Z)
| VFloat (q : Q)
| VNaN
| VStr (s : string)
| VDate (d : Z)                       (* datetime.date, as a day number *)
| VList (l : list value)
| VDict (kvs : list (string * value)). (* a parsed JSON object *)

(** The exceptions the scripts can meet. *)
Inductive exn : Type :=
| KeyError
| IndexError
| TypeError
| AttributeError
| ValueError
| MultipleResultsFound   (* sqlalchemy.exc, from scalar_one_or_none *)
| StatementError         (* sqlalchemy.exc: a bind parameter is missing *)
| DBAPIError.            (* sqlalchemy.exc: the driver or the server refused *)

Inductive result (A : Type) : Type :=
| Ret (a : A)
| Raise (e : exn).
Arguments Ret {A} a.
Arguments Raise {A} e.

#[global] Instance result_ret : MRet result := fun A a => Ret a.
#[global] Instance result_bind : MBind result := fun A B f r =>
  match r with
  | Ret a => f a
  | Raise e => Raise e
  end.

(** [try: body except (caught): handler] *)
Definition try_except {A} (caught : exn -> bool) (body : result A)
    (handler : result A) : result A :=
  match body with
  | Ret a => Ret a
  | Raise e => if caught e then handler else Raise e
  end.

(** [except (KeyError, IndexError, TypeError)] of etl.py *)
Definition except_Key_Index_Type (e : exn) : bool :=
  match e with
  | KeyError | IndexError | TypeError => true
  | _ => false
  end.

(** [except Exception] of historical_backfill.py *)
Definition except_Exception (e : exn) : bool := true.

(** Truth value of an object, as [if x] and [not x] test it. *)
Definition truthy (v : value) : bool :=
  match v with
  | VNone => false
  | VBool b => b
  | VInt z => negb (Z.eqb z 0)
  | VFloat q => negb (Qeq_bool q 0)
  | VNaN => true
  | VStr s => negb (String.eqb s "")
  | VDate _ => true
  | VList l => match l with [] => false | _ => true end
  | VDict kvs => match kvs with [] => false | _ => true end
  end.

(** Lookup in a parsed JSON object. *)
Fixpoint dict_get (k : string) (kvs : list (string * value)) : option value :=
  match kvs with
  | [] => None
  | (k', v) :: rest => if String.eqb k k' then Some v else dict_get k rest
  end.

(** [v.get(k, dflt)]: only a dict has the method. *)
Definition py_get (v : value) (k : string) (dflt : value) : result value :=
  match v with
  | VDict kvs => Ret (default dflt (dict_get k kvs))
  | _ => Raise AttributeError
  end.

(** [v[0]] *)
Definition py_index0 (v : value) : result value :=
  match v with
  | VList [] => Raise IndexError
  | VList (x :: _) => Ret x
  | VStr EmptyString => Raise IndexError
  | VStr (String c _) => Ret (VStr (String c EmptyString))
  | VDict _ => Raise KeyError          (* the keys of a JSON object are strings *)
  | _ => Raise TypeError               (* not subscriptable *)
  end.

Fixpoint chars (s : string) : list value :=
  match s with
  | EmptyString => []
  | String c rest => VStr (String c EmptyString) :: chars rest
  end.

(** The items [for x in v] runs over. *)
Definition py_iter (v : value) : result (list value) :=
  match v with
  | VList l => Ret l
  | VStr s => Ret (chars s)
  | VDict kvs => Ret (map (fun kv => VStr kv.1) kvs)
  | _ => Raise TypeError               (* not iterable *)
  end.

(** [v == s] for a string literal [s] *)
Definition py_eq_str (v : value) (s : string) : bool :=
  match v with
  | VStr s' => String.eqb s' s
  | _ => false
  end.

(** Whether [v] can be a dict key. *)
Definition hashable (v : value) : bool :=
  match v with
  | VList _ | VDict _ => false
  | _ => true
  end.

(** [isinstance(v, list)] *)
Definition is_list (v : value) : bool :=
  match v with
  | VList _ => true
  | _ => false
  end.

(** A dictionary built by the scripts themselves (the reading). *)
Abbreviation pydict := (gmap string value).

(** [datetime.datetime]: a day number and the time within the day. *)
Record datetime : Type := { dt_day : Z; dt_seconds : Q }.

(** [dt.date()] *)
Definition date_of (dt : datetime) : value := VDate (dt_day dt).

(** [dt - timedelta(days=i)] *)
Definition minus_days (dt : datetime) (i : Z) : datetime :=
  {| dt_day := dt_day dt - i; dt_seconds := dt_seconds dt |}.

(** ** float64 arithmetic *)

(** [n / d / 2 ^ e] as a fraction of two integers. *)
Definition scale (n d e : Z) : Z * Z :=
  if (0 <=? e)%Z then (n, d * 2 ^ e) else (n * 2 ^ (- e), d).

(** The integer nearest to [n / d], the even one of two that are equally
    near. *)
Definition round_half_even (n d : Z) : Z :=
  let f := n / d in
  match 2 * (n mod d) ?= d with
  | Lt => f
  | Gt => f + 1
  | Eq => if Z.even f then f else f + 1
  end.

(** The exponent of the last place of the float64 that [n / d] rounds to:
    53 significant bits, and no exponent below that of the subnormals. *)
Definition exponent (n d : Z) : Z :=
  let k := Z.log2 n - Z.log2 d in
  let '(n', d') := scale n d k in
  Z.max ((if (n' <? d')%Z then k - 1 else k) - 52) (-1074).

(** The float64 nearest to [q] (round to nearest, ties to even), in lowest
    terms.  There is no overflow: a number beyond the largest float64 is
    rounded as if the exponent went on. *)
Definition round64 (q : Q) : Q :=
  let n := Z.abs (Qnum (Qred q)) in
  let d := Zpos (Qden (Qred q)) in
  if (n =? 0)%Z then 0%Q
  else
    let e := exponent n d in
    let '(n', d') := scale n d e in
    let m := Z.sgn (Qnum (Qred q)) * round_half_even n' d' in
    Qred (if (0 <=? e)%Z then inject_Z (m * 2 ^ e)
          else Qmake m (Z.to_pos (2 ^ (- e)))).

(** [a + b] and [a / b] on floats. *)
Definition float_add (a b : Q) : Q := round64 (a + b).
Definition float_div (a b : Q) : Q := round64 (a / b).

(** *** The sum of numpy

    [ndarray.sum] on a float64 column is numpy's pairwise summation: fewer
    than eight values are added one after the other; up to 128 values are
    added into eight accumulators, which are then added as a tree, the
    values left over being added last; a longer column is cut in two. *)

(** [for (i = 0; i < n; i++) res += a[i]] *)
Definition add_all (res : Q) (a : list Q) : Q := fold_left float_add a res.

(** [r[j] += a[i + j]] for every whole block of eight of [a]; what is left
    of [a] comes back with the accumulators. *)
Fixpoint accumulate (r a : list Q) : list Q * list Q :=
  match a with
  | a0 :: a1 :: a2 :: a3 :: a4 :: a5 :: a6 :: a7 :: rest =>
      accumulate (zip_with float_add r [a0; a1; a2; a3; a4; a5; a6; a7]) rest
  | _ => (r, a)
  end.

(** [((r[0] + r[1]) + (r[2] + r[3])) + ((r[4] + r[5]) + (r[6] + r[7]))] *)
Definition sum_of_eight (r : list Q) : Q :=
  match r with
  | [r0; r1; r2; r3; r4; r5; r6; r7] =>
      float_add (float_add (float_add r0 r1) (float_add r2 r3))
                (float_add (float_add r4 r5) (float_add r6 r7))
  | _ => 0%Q
  end.

(** The two branches for at most 128 values. *)
Definition block_sum (a : list Q) : Q :=
  match a with
  | a0 :: a1 :: a2 :: a3 :: a4 :: a5 :: a6 :: a7 :: rest =>
      let '(r, tail) := accumulate [a0; a1; a2; a3; a4; a5; a6; a7] rest in
      add_all (sum_of_eight r) tail
  | _ => add_all 0%Q a
  end.

(** The recursion on the halves, [depth] bounding its depth. *)
Fixpoint pairwise_sum (depth : nat) (a : list Q) : Q :=
  match depth with
  | O => block_sum a
  | S depth =>
      if (length a <=? 128)%nat then block_sum a
      else
        let n2 := (length a / 2 - (length a / 2) mod 8)%nat in
        float_add (pairwise_sum depth (take n2 a))
                  (pairwise_sum depth (drop n2 a))
  end.

Definition np_sum (a : list Q) : Q := pairwise_sum (length a) a.

(** ** The pieces both merge functions share *)

(** [daily_weather.get(series, [None])[0]] *)
Definition first_of_series (daily_weather : value) (series : string)
    : result value :=
  l ← py_get daily_weather series (VList [VNone]);
  py_index0 l.

(** [{p.get('code'): p.get('concentration', {}).get('value') for p in ps}],
    as the list of its insertions, oldest first. *)
Fixpoint pollutant_items (ps : list value) : result (list (value * value)) :=
  match ps with
  | [] => Ret []
  | p :: rest =>
      code ← py_get p "code" VNone;
      conc ← py_get p "concentration" (VDict []);
      v ← py_get conc "value" VNone;
      if hashable code
      then (items ← pollutant_items rest; Ret ((code, v) :: items))
      else Raise TypeError
  end.

(** The value the dict built from [items] holds under the string [code]:
    a later insertion under an equal key replaces an earlier one. *)
Fixpoint items_find (code : string) (items : list (value * value))
    : option value :=
  match items with
  | [] => None
  | (k, v) :: rest =>
      match items_find code rest with
      | Some later => Some later
      | None => if py_eq_str k code then Some v else None
      end
  end.

(** [d.get(code)] on that dict. *)
Definition items_get (code : string) (items : list (value * value)) : value :=
  default VNone (items_find code items).

(** The reading both merge functions return. *)
Definition make_reading (reading_date aqi pm10 pm25 o3 no2 co so2
    temp precip wind : value) : pydict :=
  <["reading_date" := reading_date]> (
  <["aqi" := aqi]> (
  <["pm10" := pm10]> (
  <["pm25" := pm25]> (
  <["o3" := o3]> (
  <["no2" := no2]> (
  <["co" := co]> (
  <["so2" := so2]> (
  <["temperature_celsius" := temp]> (
  <["precipitation_mm" := precip]> (
  <["wind_speed_kmh" := wind]> ∅)))))))))).

(** ** The store behind the SQL statements *)

(** A location as the scripts write it: the dict literals of LOCATIONS. *)
Record Location : Type :=
  { city : string; country : string; latitude : Q; longitude : Q }.

Module store.

Record location_row : Type :=
  { id : Z; row_city : string; row_country : string;
    row_latitude : Q; row_longitude : Q }.

Record reading_row : Type :=
  { location_id : Z; reading_date : Z;
    aqi : value; pm10 : value; pm25 : value; o3 : value; no2 : value;
    co : value; so2 : value;
    temperature_celsius : value; precipitation_mm : value;
    wind_speed_kmh : value }.

Record database : Type :=
  { locations : list location_row; daily_readings : list reading_row }.

Definition empty : database := {| locations := []; daily_readings := [] |}.

(** The columns [WHERE city = :city AND country = :country] compares. *)
Definition place (r : location_row) : string * string :=
  (row_city r, row_country r).

(** [SELECT id FROM locations WHERE city = :city AND country = :country] *)
Definition select_ids (c k : string) (d : database) : list Z :=
  map id (filter (fun r => place r = (c, k)) (locations d)).

(** [INSERT INTO locations (city, country, latitude, longitude) VALUES ...
    RETURNING id], the id being the value [new_id] the sequence gave. *)
Definition insert_location (new_id : Z) (l : Location) (d : database)
    : database :=
  {| locations := locations d ++
       [{| id := new_id; row_city := city l; row_country := country l;
           row_latitude := latitude l; row_longitude := longitude l |}];
     daily_readings := daily_readings d |}.

(** The conflict target of the insert: (location_id, reading_date). *)
Definition key (r : reading_row) : Z * Z := (location_id r, reading_date r).

Definition same_key (a b : reading_row) : bool := bool_decide (key a = key b).

(** [DO UPDATE SET aqi = EXCLUDED.aqi, ...]: the ten listed columns are taken
    from the row proposed for insertion. *)
Definition do_update (old excluded : reading_row) : reading_row :=
  {| location_id := location_id old; reading_date := reading_date old;
     aqi := aqi excluded; pm10 := pm10 excluded; pm25 := pm25 excluded;
     o3 := o3 excluded; no2 := no2 excluded; co := co excluded;
     so2 := so2 excluded;
     temperature_celsius := temperature_celsius excluded;
     precipitation_mm := precipitation_mm excluded;
     wind_speed_kmh := wind_speed_kmh excluded |}.

(** [INSERT INTO daily_readings (...) VALUES (...) ON CONFLICT
    (location_id, reading_date) DO UPDATE SET ...] *)
Definition insert_reading (r : reading_row) (d : database) : database :=
  {| locations := locations d;
     daily_readings :=
       if existsb (same_key r) (daily_readings d)
       then map (fun old => if same_key r old then do_update old r else old)
                (daily_readings d)
       else daily_readings d ++ [r] |}.

(** The rows stored under a key. *)
Definition readings_at (loc day : Z) (d : database) : list reading_row :=
  filter (fun r => key r = (loc, day)) (daily_readings d).

(** The rows of a (city, country). *)
Definition locations_of (c k : string) (d : database) : list location_row :=
  filter (fun r => place r = (c, k)) (locations d).

End store.

(** ** The world the scripts run in *)

(** What is outside the scripts.  A service answers a request with the
    parsed body, or not at all when the request fails (transport error or
    error status, a RequestException): [None].
    [store_accepts] is the store's verdict on a row proposed to
    daily_readings (column types and constraints of a schema that is not
    part of the scripts); a refused row is a persistence error. *)
Record environ : Type :=
  { GOOGLE_API_KEY : option string;
    db_reachable : bool;
    now : datetime;
    aqi_current : Q -> Q -> option value;
    aqi_history : Q -> Q -> Z -> option value;
    weather_forecast : Q -> Q -> option value;
    weather_archive : Q -> Q -> Z -> option value;
    store_accepts : store.reading_row -> bool }.

(** What a run does to the outside, besides the store. *)
Inductive event : Type :=
| AqiRequest (lat lon : Q) (day : option Z)      (* requests.post *)
| WeatherRequest (lat lon : Q) (day : option Z)  (* requests.get *)
| Sleep.                                          (* time_sleep.sleep(1) *)

(** [db] is the committed content of the store; [conn] the content seen by
    the open connection, if any: statements act on it and [commit] publishes
    it; a connection closed without commit loses it.  The id sequence of
    locations is never rolled back.  [heap] holds the dictionaries the
    script built; [trace] the events so far, oldest first. *)
Record world : Type :=
  { db : store.database;
    conn : option store.database;
    locations_id_seq : Z;
    heap : gmap nat pydict;
    trace : list event }.

Definition with_db (d : store.database) (w : world) : world :=
  {| db := d; conn := conn w; locations_id_seq := locations_id_seq w;
     heap := heap w; trace := trace w |}.
Definition with_conn (c : option store.database) (w : world) : world :=
  {| db := db w; conn := c; locations_id_seq := locations_id_seq w;
     heap := heap w; trace := trace w |}.
Definition with_seq (n : Z) (w : world) : world :=
  {| db := db w; conn := conn w; locations_id_seq := n;
     heap := heap w; trace := trace w |}.
Definition with_heap (h : gmap nat pydict) (w : world) : world :=
  {| db := db w; conn := conn w; locations_id_seq := locations_id_seq w;
     heap := h; trace := trace w |}.
Definition with_trace (t : list event) (w : world) : world :=
  {| db := db w; conn := conn w; locations_id_seq := locations_id_seq w;
     heap := heap w; trace := t |}.

(** A fresh store: nothing stored, the sequence at its first value. *)
Definition initial_world : world :=
  {| db := store.empty; conn := None; locations_id_seq := 1;
     heap := ∅; trace := [] |}.

(** Code with effects: it returns or raises, and leaves a world. *)
Definition M (A : Type) : Type := world -> result A * world.

#[global] Instance M_ret : MRet M := fun A a w => (Ret a, w).
#[global] Instance M_bind : MBind M := fun A B f m w =>
  match m w with
  | (Ret a, w') => f a w'
  | (Raise e, w') => (Raise e, w')
  end.

Definition lift {A} (r : result A) : M A := fun w => (r, w).
Definition raise {A} (e : exn) : M A := fun w => (Raise e, w).
Definition emit (ev : event) : M unit :=
  fun w => (Ret tt, with_trace (trace w ++ [ev]) w).

(** A new dictionary object. *)
Definition alloc (d : pydict) : M nat :=
  fun w => let r := fresh (dom (heap w)) in
           (Ret r, with_heap (<[r := d]> (heap w)) w).

Definition deref (r : nat) : M pydict :=
  fun w => (Ret (default ∅ (heap w !! r)), w).

(** [d[k]] *)
Definition getitem (r : nat) (k : string) : M value :=
  fun w => match default ∅ (heap w !! r) !! k with
           | Some v => (Ret v, w)
           | None => (Raise KeyError, w)
           end.

(** [d[k] = v] *)
Definition setitem (r : nat) (k : string) (v : value) : M unit :=
  fun w => (Ret tt,
            with_heap (<[r := <[k := v]> (default ∅ (heap w !! r))]> (heap w)) w).

(** [with engine.connect() as connection: body]: the connection starts
    from the committed content and is closed when the block is left, by
    return or by exception; what it had not committed is lost.  The store
    is taken to be reachable here, as it was for [get_db_engine]. *)
Definition with_connection {A} (body : M A) : M A :=
  fun w => let '(r, w') := body (with_conn (Some (db w)) w) in
           (r, with_conn None w').

(** The content the open connection sees. *)
Definition current (w : world) : store.database := default (db w) (conn w).

(** A statement that changes what the open connection sees. *)
Definition execute (f : store.database -> store.database) : M unit :=
  fun w => (Ret tt, with_conn (Some (f (current w))) w).

(** [connection.execute(existing_id_sql, location_info).scalar_one_or_none()] *)
Definition select_location_id (location_info : Location) : M (option Z) :=
  fun w => match store.select_ids (city location_info) (country location_info)
                   (current w) with
           | [] => (Ret None, w)
           | [i] => (Ret (Some i), w)
           | _ => (Raise MultipleResultsFound, w)
           end.

(** [connection.execute(insert_location_sql, location_info).scalar_one()] *)
Definition nextval : M Z :=
  fun w => (Ret (locations_id_seq w), with_seq (locations_id_seq w + 1) w).

Definition insert_location (location_info : Location) : M Z :=
  new_id ← nextval;
  execute (store.insert_location new_id location_info);;
  mret new_id.

(** The row the bind parameters of the reading insert make. *)
Definition param (params : pydict) (k : string) : result value :=
  match params !! k with
  | Some v => Ret v
  | None => Raise StatementError
  end.

Definition bind_reading (params : pydict) : result store.reading_row :=
  location_id ← param params "location_id";
  reading_date ← param params "reading_date";
  aqi ← param params "aqi";
  pm10 ← param params "pm10";
  pm25 ← param params "pm25";
  o3 ← param params "o3";
  no2 ← param params "no2";
  co ← param params "co";
  so2 ← param params "so2";
  temperature_celsius ← param params "temperature_celsius";
  precipitation_mm ← param params "precipitation_mm";
  wind_speed_kmh ← param params "wind_speed_kmh";
  match location_id, reading_date with
  | VInt l, VDate d =>
      Ret {| store.location_id := l; store.reading_date := d;
             store.aqi := aqi; store.pm10 := pm10; store.pm25 := pm25;
             store.o3 := o3; store.no2 := no2; store.co := co;
             store.so2 := so2;
             store.temperature_celsius := temperature_celsius;
             store.precipitation_mm := precipitation_mm;
             store.wind_speed_kmh := wind_speed_kmh |}
  | _, _ => Raise DBAPIError       (* not an id, or not a calendar date *)
  end.

(** [connection.execute(insert_sql, reading_data)] *)
Definition insert_reading (env : environ) (reading_data : nat) : M unit :=
  params ← deref reading_data;
  r ← lift (bind_reading params);
  if store_accepts env r
  then execute (store.insert_reading r)
  else raise DBAPIError.

(** [connection.commit()] *)
Definition commit : M unit :=
  fun w => (Ret tt, with_db (current w) w).

(** [for x in l: body] *)
Fixpoint for_each {A} (l : list A) (body : A -> M unit) : M unit :=
  match l with
  | [] => mret tt
  | x :: rest => body x;; for_each rest body
  end.

(** What [create_engine] returns. *)
Inductive Engine : Type := engine_of_url.

(** [get_db_engine()]: None when the trial connection fails. *)
Definition get_db_engine (env : environ) : M (option Engine) :=
  mret (if db_reachable env then Some engine_of_url else None).

(** [not api_key] *)
Definition no_key (k : option string) : bool :=
  match k with
  | None => true
  | Some s => String.eqb s ""
  end.

Definition LOCATIONS : list Location :=
  [ {| city := "Savannah"; country := "USA";
       latitude := 320809 # 10000; longitude := - (810912 # 10000) |};
    {| city := "Port Wentworth"; country := "USA";
       latitude := 3217 # 100; longitude := - (8117 # 100) |};
    {| city := "Pooler"; country := "USA";
       latitude := 3211 # 100; longitude := - (8125 # 100) |} ].

(** ** scripts/etl.py *)

Module etl.

(** [next((item for item in items if item.get('code') == 'uaqi'), {})]:
    the generator is consumed up to its first match only. *)
Fixpoint next_uaqi (items : list value) : result value :=
  match items with
  | [] => Ret (VDict [])
  | item :: rest =>
      code ← py_get item "code" VNone;
      if py_eq_str code "uaqi" then Ret item else next_uaqi rest
  end.

(** [transform_data(aqi_data, weather_data)]; [now] is what
    [datetime.now()] reads when the reading is built. *)
Definition transform_data (now : datetime) (aqi_data weather_data : value)
    : result (option pydict) :=
  if negb (truthy aqi_data) || negb (truthy weather_data) then Ret None
  else
    try_except except_Key_Index_Type
      (daily_weather ← py_get weather_data "daily" (VDict []);
       temp ← first_of_series daily_weather "temperature_2m_mean";
       precip ← first_of_series daily_weather "precipitation_sum";
       wind ← first_of_series daily_weather "wind_speed_10m_max";
       indexes ← py_get aqi_data "indexes" (VList []);
       index_items ← py_iter indexes;
       aqi_index ← next_uaqi index_items;
       aqi ← py_get aqi_index "aqi" VNone;
       ps ← py_get aqi_data "pollutants" (VList []);
       p_items ← py_iter ps;
       pollutants ← pollutant_items p_items;
       let pm10 := items_get "pm10" pollutants in
       let pm25 := items_get "pm25" pollutants in
       let o3 := items_get "o3" pollutants in
       let no2 := items_get "no2" pollutants in
       let co := items_get "co" pollutants in
       let so2 := items_get "so2" pollutants in
       Ret (Some (make_reading (date_of now) aqi pm10 pm25 o3 no2 co so2
                               temp precip wind)))
      (Ret None).

Definition fetch_air_quality_data (env : environ) (latitude longitude : Q)
    : M value :=
  if no_key (GOOGLE_API_KEY env) then mret VNone
  else
    emit (AqiRequest latitude longitude None);;
    mret (default VNone (aqi_current env latitude longitude)).

Definition fetch_weather_data (env : environ) (latitude longitude : Q)
    : M value :=
  emit (WeatherRequest latitude longitude None);;
  mret (default VNone (weather_forecast env latitude longitude)).

Definition load_data (env : environ) (engine : Engine)
    (location_info : Location) (reading_data : nat) : M unit :=
  d ← deref reading_data;
  if Nat.eqb (size d) 0 then mret tt           (* if not reading_data: return *)
  else
    with_connection (
      existing_id ← select_location_id location_info;
      location_id ←
        match existing_id with
        | Some i => if negb (Z.eqb i 0) then mret i     (* if existing_id: *)
                    else insert_location location_info
        | None => insert_location location_info
        end;
      setitem reading_data "location_id" (VInt location_id);;
      insert_reading env reading_data;;
      commit;;
      getitem reading_data "reading_date";;    (* formatted by the last print *)
      mret tt).

(** The body of the loop of the script. *)
Definition process_location (env : environ) (engine : Engine)
    (location : Location) : M unit :=
  aqi_data ← fetch_air_quality_data env (latitude location) (longitude location);
  weather_data ← fetch_weather_data env (latitude location) (longitude location);
  transformed_reading ← lift (transform_data (now env) aqi_data weather_data);
  match transformed_reading with
  | Some d =>
      if Nat.eqb (size d) 0 then mret tt       (* if transformed_reading: *)
      else (reading ← alloc d; load_data env engine location reading)
  | None => mret tt
  end.

Definition run (env : environ) (engine : Engine) (locations : list Location)
    : M unit :=
  for_each locations (process_location env engine).

(** The script itself. *)
Definition main (env : environ) : M unit :=
  engine ← get_db_engine env;
  match engine with
  | None => mret tt
  | Some engine => run env engine LOCATIONS
  end.

End etl.

(** ** scripts/historical_backfill.py *)

Module historical_backfill.

(** A row of the frame: the cells it has a named column for. *)
Abbreviation row := (list (string * value)).

Fixpoint rows_of_dicts (data : list value) : result (list row) :=
  match data with
  | [] => Ret []
  | VDict kvs :: rest => rows ← rows_of_dicts rest; Ret (kvs :: rows)
  | _ :: _ => Raise AttributeError     (* x.keys() on something else *)
  end.

(** [pd.DataFrame(data)].  pandas looks at the first element of a list: a
    dict makes every element a row of named cells (and every element must
    then be a dict); anything else gives positional columns only, none of
    which has a name.  A scalar or a string is refused.  A JSON object is
    read column by column: this is not modelled further and is refused here
    too, so every statement below about the averages takes a JSON array at
    'hoursInfo'. *)
Definition DataFrame (data : value) : result (list row) :=
  match data with
  | VList (VDict kvs :: rest) => rows_of_dicts (VDict kvs :: rest)
  | VList l => Ret (map (fun _ => []) l)
  | _ => Raise ValueError
  end.

(** [df[col]]: KeyError when no row has the column; a row without the key
    holds NaN there. *)
Definition df_column (df : list row) (col : string) : result (list value) :=
  if existsb (fun r => bool_decide (is_Some (dict_get col r))) df
  then Ret (map (fun r => default VNaN (dict_get col r)) df)
  else Raise KeyError.

(** [next((idx.get('aqi') for idx in indexes if idx.get('code') == 'uaqi'),
    None)] *)
Fixpoint next_uaqi_aqi (indexes : list value) : result value :=
  match indexes with
  | [] => Ret VNone
  | idx :: rest =>
      code ← py_get idx "code" VNone;
      if py_eq_str code "uaqi" then py_get idx "aqi" VNone
      else next_uaqi_aqi rest
  end.

Definition get_aqi (indexes : value) : result value :=
  match indexes with
  | VList l => next_uaqi_aqi l
  | _ => Ret VNone                     (* not isinstance(indexes, list) *)
  end.

Definition get_pollutant_value (pollutants : value) (code : string)
    : result value :=
  match pollutants with
  | VList l => p_dict ← pollutant_items l; Ret (items_get code p_dict)
  | _ => Ret VNone                     (* not isinstance(pollutants, list) *)
  end.

(** [series.apply(f)] *)
Fixpoint apply (f : value -> result value) (cells : list value)
    : result (list value) :=
  match cells with
  | [] => Ret []
  | c :: rest => y ← f c; ys ← apply f rest; Ret (y :: ys)
  end.

(** What a cell is in the float64 column that a numeric reduction works
    on: missing (None or NaN), or the float64 of its number (a bool is 0 or
    1); any other object makes the reduction raise.  A column in which
    bools stand beside numbers is kept by pandas as a column of objects,
    which it adds one after the other; it is taken for a float64 column
    here, which is the same for fewer than eight cells. *)
Definition cell_number (v : value) : result (option Q) :=
  match v with
  | VNone | VNaN => Ret None
  | VBool b => Ret (Some (if b then 1 else 0)%Q)
  | VInt z => Ret (Some (round64 (inject_Z z)))
  | VFloat q => Ret (Some (round64 q))
  | _ => Raise TypeError
  end.

(** The column with 0 in the place of every missing cell, and the count of
    the cells that are not missing (skipna). *)
Fixpoint fill_missing (cells : list value) : result (list Q * nat) :=
  match cells with
  | [] => Ret ([], O)
  | c :: rest =>
      n ← cell_number c;
      '(values, count) ← fill_missing rest;
      Ret (match n with
           | None => (0%Q :: values, count)
           | Some q => (q :: values, S count)
           end)
  end.

(** [column.mean()]: the sum of the filled column by the count, NaN when
    every cell is missing. *)
Definition mean (cells : list value) : result value :=
  '(values, count) ← fill_missing cells;
  Ret (if Nat.eqb count 0 then VNaN
       else VFloat (float_div (np_sum values) (inject_Z (Z.of_nat count)))).

(** [for p_code in codes: df[p_code] = df['pollutants'].apply(...)], as the
    new columns with their names. *)
Fixpoint pollutant_columns (df : list row) (codes : list string)
    : result (list (string * list value)) :=
  match codes with
  | [] => Ret []
  | p_code :: rest =>
      pollutants ← df_column df "pollutants";
      col ← apply (fun x => get_pollutant_value x p_code) pollutants;
      cols ← pollutant_columns df rest;
      Ret ((p_code, col) :: cols)
  end.

(** [df[names].mean().to_dict()] *)
Fixpoint means (cols : list (string * list value)) : result pydict :=
  match cols with
  | [] => Ret ∅
  | (name, cells) :: rest =>
      m ← mean cells;
      ms ← means rest;
      Ret (<[name := m]> ms)
  end.

(** [d.get(k)] on a dictionary of the script's own. *)
Definition get (d : pydict) (k : string) : value := default VNone (d !! k).

Definition transform_historical_data (date_to_fetch : datetime)
    (aqi_history_data weather_data : value) : result (option pydict) :=
  if negb (truthy aqi_history_data) || negb (truthy weather_data) then Ret None
  else
    try_except except_Exception
      (daily_weather ← py_get weather_data "daily" (VDict []);
       temp ← first_of_series daily_weather "temperature_2m_mean";
       precip ← first_of_series daily_weather "precipitation_sum";
       wind ← first_of_series daily_weather "wind_speed_10m_max";
       hourly_readings ← py_get aqi_history_data "hoursInfo" (VList []);
       if negb (truthy hourly_readings) then Ret None
       else
         df ← DataFrame hourly_readings;
         indexes ← df_column df "indexes";
         aqi_col ← apply get_aqi indexes;
         p_cols ← pollutant_columns df ["pm10"; "pm25"; "o3"; "no2"; "co"; "so2"];
         daily_averages ← means (("aqi", aqi_col) :: p_cols);
         Ret (Some (make_reading (date_of date_to_fetch)
                      (get daily_averages "aqi") (get daily_averages "pm10")
                      (get daily_averages "pm25") (get daily_averages "o3")
                      (get daily_averages "no2") (get daily_averages "co")
                      (get daily_averages "so2") temp precip wind)))
      (Ret None).

Definition DAYS_OF_HISTORY : Z := 28.

Definition fetch_historical_aqi_data (env : environ) (latitude longitude : Q)
    (date_to_fetch : datetime) : M value :=
  if no_key (GOOGLE_API_KEY env) then mret VNone
  else
    emit (AqiRequest latitude longitude (Some (dt_day date_to_fetch)));;
    mret (default VNone (aqi_history env latitude longitude (dt_day date_to_fetch))).

(** [date_str] is the day of [date_to_fetch], formatted. *)
Definition fetch_weather_data (env : environ) (latitude longitude : Q)
    (date_str : Z) : M value :=
  emit (WeatherRequest latitude longitude (Some date_str));;
  mret (default VNone (weather_archive env latitude longitude date_str)).

Definition load_data (env : environ) (engine : Engine)
    (location_info : Location) (reading_data : nat) : M unit :=
  getitem reading_data "reading_date";;        (* formatted by the first print *)
  d ← deref reading_data;
  if Nat.eqb (size d) 0 then mret tt           (* if not reading_data: return *)
  else
    with_connection (
      existing_id ← select_location_id location_info;
      location_id ←
        match existing_id with
        | Some i => if negb (Z.eqb i 0) then mret i     (* if existing_id: *)
                    else insert_location location_info
        | None => insert_location location_info
        end;
      setitem reading_data "location_id" (VInt location_id);;
      insert_reading env reading_data;;
      commit).

(** The body of the inner loop of the script. *)
Definition process_location (env : environ) (engine : Engine)
    (date_to_fetch : datetime) (location : Location) : M unit :=
  let date_str := dt_day date_to_fetch in
  aqi_data ← fetch_historical_aqi_data env (latitude location)
               (longitude location) date_to_fetch;
  weather_data ← fetch_weather_data env (latitude location)
                   (longitude location) date_str;
  transformed_reading ←
    lift (transform_historical_data date_to_fetch aqi_data weather_data);
  match transformed_reading with
  | Some d =>
      if Nat.eqb (size d) 0 then mret tt       (* if transformed_reading: *)
      else (reading ← alloc d; load_data env engine location reading)
  | None => mret tt
  end;;
  emit Sleep.

(** [range(n, 0, -1)] *)
Fixpoint range_down (n : nat) : list Z :=
  match n with
  | O => []
  | S k => Z.of_nat (S k) :: range_down k
  end.

Definition run (env : environ) (engine : Engine) (days : nat)
    (locations : list Location) : M unit :=
  let today := now env in
  for_each (range_down days) (fun i =>
    let date_to_fetch := minus_days today i in
    for_each locations (process_location env engine date_to_fetch)).

(** The script itself. *)
Definition main (env : environ) : M unit :=
  engine ← get_db_engine env;
  match engine with
  | None => mret tt
  | Some engine => run env engine (Z.to_nat DAYS_OF_HISTORY) LOCATIONS
  end.

End historical_backfill.

(** * Definitions used in the statements *)

(** Day 7, at midnight. *)
Definition today7 : datetime := {| dt_day := 7; dt_seconds := 0 |}.

(** The answers of the two services in the end-to-end scenario of the
    documentation: uaqi 42, pm25 8.1, mean temperature 21.5. *)
Definition savannah_aqi : value :=
  VDict [("indexes", VList [VDict [("code", VStr "uaqi"); ("aqi", VInt 42)]]);
         ("pollutants",
          VList [VDict [("code", VStr "pm25");
                        ("concentration", VDict [("value", VFloat (81 # 10))])]])].

Definition savannah_weather : value :=
  VDict [("daily", VDict [("temperature_2m_mean", VList [VFloat (215 # 10)])])].

(** An hourly entry of the history service with the given pm25, if any. *)
Definition hour_pm25 (v : option Q) : value :=
  VDict [("indexes", VList [VDict [("code", VStr "uaqi"); ("aqi", VInt 40)]]);
         ("pollutants",
          VList (match v with
                 | Some q => [VDict [("code", VStr "pm25");
                                     ("concentration", VDict [("value", VFloat q)])]]
                 | None => []
                 end))].

(** A day of four hours whose pm25 is 10, 20, not reported, 30. *)
Definition history_10_20_null_30 : value :=
  VDict [("hoursInfo", VList [hour_pm25 (Some 10%Q); hour_pm25 (Some 20%Q);
                              hour_pm25 None; hour_pm25 (Some 30%Q)])].

(** The three weather fields as both merges read them from the answer. *)
Definition weather_fields (w temp precip wind : value) : Prop :=
  exists daily_weather,
    py_get w "daily" (VDict []) = Ret daily_weather
    /\ first_of_series daily_weather "temperature_2m_mean" = Ret temp
    /\ first_of_series daily_weather "precipitation_sum" = Ret precip
    /\ first_of_series daily_weather "wind_speed_10m_max" = Ret wind.

(** The keys of a reading. *)
Definition READING_KEYS : list string :=
  ["reading_date"; "aqi"; "pm10"; "pm25"; "o3"; "no2"; "co"; "so2";
   "temperature_celsius"; "precipitation_mm"; "wind_speed_kmh"].

(** A reading that has all of them. *)
Definition complete (r : pydict) : Prop :=
  Forall (fun k => is_Some (r !! k)) READING_KEYS.

(** The values that are reported, among the hourly ones. *)
Definition reported (xs : list (option Q)) : list Q := omap id xs.

Definition Qsum (qs : list Q) : Q := foldr Qplus 0%Q qs.

(** The arithmetic mean, as the documentation has it: the sum over the
    count. *)
Definition arithmetic_mean (qs : list Q) : Q :=
  (Qsum qs / inject_Z (Z.of_nat (length qs)))%Q.

(** The daily value of a field as the documentation has it, from what each
    hour reports for it: the arithmetic mean of the reported values, null
    when there is none. *)
Definition documented_daily_value (xs : list (option Q)) (v : value) : Prop :=
  match reported xs with
  | [] => v = VNone
  | qs => exists q, v = VFloat q /\ (q == arithmetic_mean qs)%Q
  end.

(** The mean in float64: the float sum of the reported values, the hours
    that report none counting for 0 in it, by the number of the reported
    values; NaN when there is none. *)
Definition float_mean (xs : list (option Q)) : value :=
  match reported xs with
  | [] => VNaN
  | qs => VFloat (float_div (np_sum (map (default 0%Q) xs))
                            (inject_Z (Z.of_nat (length qs))))
  end.

Definition Zsum (zs : list Z) : Z := foldr Z.add 0 zs.

(** The sum of the absolute values. *)
Definition Zabsum (zs : list Z) : Z := foldr (fun z s => Z.abs z + s) 0 zs.

(** The pollutant entry [p] carries the code [c]. *)
Definition has_code (c : string) (p : value) : bool :=
  match p with
  | VDict kvs => py_eq_str (default VNone (dict_get "code" kvs)) c
  | _ => false
  end.

(** The value under 'concentration' of a pollutant entry, null when the
    entry has no concentration or the concentration has no value. *)
Definition concentration_value (p : value) : value :=
  match p with
  | VDict kvs =>
      match default (VDict []) (dict_get "concentration" kvs) with
      | VDict ckvs => default VNone (dict_get "value" ckvs)
      | _ => VNone
      end
  | _ => VNone
  end.

(** The entries of the member [name] of an hourly entry, when the member
    is a list. *)
Definition entries (name : string) (hour : value) : list value :=
  match hour with
  | VDict kvs =>
      match dict_get name kvs with
      | Some (VList l) => l
      | _ => []
      end
  | _ => []
  end.

(** What an hourly entry has for a field, by the layout of the answer:
    for aqi, the 'aqi' of the entry of 'indexes' whose code is 'uaqi' (the
    first, should there be more); for a pollutant, the concentration value
    of the entry of 'pollutants' with its code (the last, should there be
    more); null without such an entry. *)
Definition reported_value (field : string) (hour : value) : value :=
  if String.eqb field "aqi"
  then match List.filter (has_code "uaqi") (entries "indexes" hour) with
       | VDict kvs :: _ => default VNone (dict_get "aqi" kvs)
       | _ => VNone
       end
  else match last (List.filter (has_code field) (entries "pollutants" hour)) with
       | Some p => concentration_value p
       | None => VNone
       end.

(** The float64 of a value that is a number; a null is not one. *)
Definition float_of (v : value) : option Q :=
  match v with
  | VInt z => Some (round64 (inject_Z z))
  | VFloat q => Some (round64 q)
  | VBool b => Some (if b then 1 else 0)%Q
  | _ => None
  end.

(** What the hour reports for the field: a number, or nothing. *)
Definition hour_value (field : string) (hour : value) : option Q :=
  float_of (reported_value field hour).

(** A JSON number, or null. *)
Definition number_or_null (v : value) : bool :=
  match v with
  | VNone | VInt _ | VFloat _ => true
  | _ => false
  end.

(** An entry of 'indexes' as documented: an object whose 'aqi', if any, is a
    number. *)
Definition index_entry (i : value) : bool :=
  match i with
  | VDict kvs => number_or_null (default VNone (dict_get "aqi" kvs))
  | _ => false
  end.

(** An entry of 'pollutants' as documented: an object with a string for its
    code whose concentration, if any, is an object with a number for its
    value, if any. *)
Definition pollutant_entry (p : value) : bool :=
  match p with
  | VDict kvs =>
      match dict_get "code" kvs with
      | Some (VStr _) => true
      | _ => false
      end
      && match default (VDict []) (dict_get "concentration" kvs) with
         | VDict ckvs => number_or_null (default VNone (dict_get "value" ckvs))
         | _ => false
         end
  | _ => false
  end.

(** An hourly entry as documented: an object whose 'indexes' and
    'pollutants', where it has them, are lists of such entries. *)
Definition hourly_entry (h : value) : bool :=
  match h with
  | VDict kvs =>
      match dict_get "indexes" kvs with
      | Some (VList l) => forallb index_entry l
      | Some _ => false
      | None => true
      end
      && match dict_get "pollutants" kvs with
         | Some (VList l) => forallb pollutant_entry l
         | Some _ => false
         | None => true
         end
  | _ => false
  end.

(** The hourly entry has the member [name]. *)
Definition has_member (name : string) (h : value) : bool :=
  match h with
  | VDict kvs => bool_decide (is_Some (dict_get name kvs))
  | _ => false
  end.

(** An hourly entry with the given pm25 and nothing else. *)
Definition hour_of_pm25 (v : value) : value :=
  VDict [("indexes", VList []);
         ("pollutants",
          VList [VDict [("code", VStr "pm25");
                        ("concentration", VDict [("value", v)])]])].

(** A day of two hours whose pm25 is 0.1 and 0.2. *)
Definition history_01_02 : value :=
  VDict [("hoursInfo", VList [hour_of_pm25 (VFloat (1 # 10));
                              hour_of_pm25 (VFloat (2 # 10))])].

(** The days of the weather requests among the events. *)
Definition weather_days (events : list event) : list Z :=
  omap (fun e => match e with
                 | WeatherRequest _ _ (Some d) => Some d
                 | _ => None
                 end) events.

(** The fields that are averaged over the hours. *)
Definition AVERAGED : list string :=
  ["aqi"; "pm10"; "pm25"; "o3"; "no2"; "co"; "so2"].

(** The find-or-create of a location on the content [d], the sequence
    being at [seq]: the id, the content and the sequence afterwards. *)
Definition resolve_location (location_info : Location) (d : store.database)
    (seq : Z) : result (Z * store.database * Z) :=
  match store.select_ids (city location_info) (country location_info) d with
  | [] => Ret (seq, store.insert_location seq location_info d, seq + 1)
  | [i] => if negb (Z.eqb i 0) then Ret (i, d, seq)
           else Ret (seq, store.insert_location seq location_info d, seq + 1)
  | _ => Raise MultipleResultsFound
  end.

(** What the [with] block of [load_data] does to the world. *)
Definition load_outcome (env : environ) (location_info : Location)
    (reading_data : nat) (w : world) : result unit * world :=
  let d := default ∅ (heap w !! reading_data) in
  match resolve_location location_info (db w) (locations_id_seq w) with
  | Raise e => (Raise e, with_conn None w)
  | Ret (i, d', seq') =>
      let params := <["location_id" := VInt i]> d in
      let w1 := with_heap (<[reading_data := params]> (heap w))
                  (with_seq seq' (with_conn None w)) in
      match bind_reading params with
      | Raise e => (Raise e, w1)
      | Ret r =>
          if store_accepts env r
          then (Ret tt, with_db (store.insert_reading r d') w1)
          else (Raise DBAPIError, w1)
      end
  end.

(** The state of the store that the scripts maintain: ids come from the
    sequence (so they are positive and below its next value), a (city,
    country) has one row, a (location_id, reading_date) has one row, and a
    reading points at a location that is there. *)
Record wf_db (d : store.database) (seq : Z) : Prop :=
  { wf_seq : 0 < seq;
    wf_ids : Forall (fun r => 0 < store.id r < seq) (store.locations d);
    wf_ids_unique : NoDup (map store.id (store.locations d));
    wf_places : NoDup (map store.place (store.locations d));
    wf_keys : NoDup (map store.key (store.daily_readings d));
    wf_refs : Forall (fun r => store.location_id r ∈ map store.id (store.locations d))
                (store.daily_readings d) }.

(** A world whose committed store is in that state. *)
Definition wf (w : world) : Prop := wf_db (db w) (locations_id_seq w).

(** The two scripts have the same [load_data], up to what they print. *)
Inductive script : Type := Current | Backfill.

(** The [load_data] of a script. *)
Definition load_data_of (s : script) : environ -> Engine -> Location -> nat -> M unit :=
  match s with
  | Current => etl.load_data
  | Backfill => historical_backfill.load_data
  end.

(** The dictionary behind a reference. *)
Definition dict_at (w : world) (r : nat) : pydict := default ∅ (heap w !! r).

(** No reading without its location. *)
Definition no_dangling (d : store.database) : Prop :=
  Forall (fun r => store.location_id r ∈ map store.id (store.locations d))
    (store.daily_readings d).

(** The services answer as in the documentation and the store accepts
    every row. *)
Definition env_accepting : environ :=
  {| GOOGLE_API_KEY := Some "key"; db_reachable := true; now := today7;
     aqi_current := fun _ _ => Some savannah_aqi;
     aqi_history := fun _ _ _ => Some history_10_20_null_30;
     weather_forecast := fun _ _ => Some savannah_weather;
     weather_archive := fun _ _ _ => Some savannah_weather;
     store_accepts := fun _ => true |}.

(** The first of LOCATIONS. *)
Definition savannah : Location :=
  {| city := "Savannah"; country := "USA";
     latitude := 320809 # 10000; longitude := - (810912 # 10000) |}.

(** A reading of day 7 with the given aqi and nothing else measured. *)
Definition reading_aqi (aqi : value) : pydict :=
  make_reading (VDate 7) aqi VNone VNone VNone VNone VNone VNone VNone VNone VNone.

(** A fresh store and two readings of the same day: aqi 5, aqi null. *)
Definition two_readings : world :=
  with_heap (<[0%nat := reading_aqi (VInt 5)]> (<[1%nat := reading_aqi VNone]> ∅))
    initial_world.

(** The world after loading the reading [r] for Savannah. *)
Abbreviation then_load s r w :=
  (load_data_of s env_accepting engine_of_url savannah r w).2.

(** What may happen between two calls of [load_data] in a sequential run:
    another call of [load_data], of either script, returning or raising; or
    anything that leaves the store and its sequence alone (fetching,
    merging, building a dictionary, pausing). *)
Inductive step (env : environ) : world -> world -> Prop :=
| step_load s engine location_info reading_data w :
    step env w (load_data_of s env engine location_info reading_data w).2
| step_other w w' :
    db w' = db w -> locations_id_seq w' = locations_id_seq w -> step env w w'.

(** The part of a unit of work that comes before [load_data]: the two
    fetches and the merge; it gives the reading to load, if any. *)
Definition etl_merge (env : environ) (location : Location) : M (option nat) :=
  aqi_data ← etl.fetch_air_quality_data env (latitude location) (longitude location);
  weather_data ← etl.fetch_weather_data env (latitude location) (longitude location);
  transformed_reading ← lift (etl.transform_data (now env) aqi_data weather_data);
  match transformed_reading with
  | Some d => if Nat.eqb (size d) 0 then mret None
              else (reading ← alloc d; mret (Some reading))
  | None => mret None
  end.

(** The same part of a unit of work of the backfill. *)
Definition backfill_merge (env : environ) (date_to_fetch : datetime)
    (location : Location) : M (option nat) :=
  aqi_data ← historical_backfill.fetch_historical_aqi_data env
               (latitude location) (longitude location) date_to_fetch;
  weather_data ← historical_backfill.fetch_weather_data env
                   (latitude location) (longitude location) (dt_day date_to_fetch);
  transformed_reading ←
    lift (historical_backfill.transform_historical_data date_to_fetch
            aqi_data weather_data);
  match transformed_reading with
  | Some d => if Nat.eqb (size d) 0 then mret None
              else (reading ← alloc d; mret (Some reading))
  | None => mret None
  end.

(** What the driver can adapt to a column: anything but a dict. *)
Definition adaptable (v : value) : bool :=
  match v with
  | VDict _ => false
  | _ => true
  end.

(** A store that refuses a row with a column the driver cannot adapt. *)
Definition accepts_adaptable (r : store.reading_row) : bool :=
  forallb adaptable
    [store.aqi r; store.pm10 r; store.pm25 r; store.o3 r; store.no2 r;
     store.co r; store.so2 r; store.temperature_celsius r;
     store.precipitation_mm r; store.wind_speed_kmh r].

(** A weather answer whose temperature is an object, not a number. *)
Definition nested_weather : value :=
  VDict [("daily",
          VDict [("temperature_2m_mean", VList [VDict [("value", VFloat (215 # 10))]])])].

(** The second and the third of LOCATIONS. *)
Definition port_wentworth : Location :=
  {| city := "Port Wentworth"; country := "USA";
     latitude := 3217 # 100; longitude := - (8117 # 100) |}.

Definition pooler : Location :=
  {| city := "Pooler"; country := "USA";
     latitude := 3211 # 100; longitude := - (8125 # 100) |}.

(** The services answer as documented, except that the weather of Port
    Wentworth comes with the nested temperature. *)
Definition env_nested : environ :=
  {| GOOGLE_API_KEY := Some "key"; db_reachable := true; now := today7;
     aqi_current := fun _ _ => Some savannah_aqi;
     aqi_history := fun _ _ _ => Some history_10_20_null_30;
     weather_forecast := fun lat _ =>
       if Qeq_bool lat (3217 # 100) then Some nested_weather
       else Some savannah_weather;
     weather_archive := fun lat _ _ =>
       if Qeq_bool lat (3217 # 100) then Some nested_weather
       else Some savannah_weather;
     store_accepts := accepts_adaptable |}.

(** The world after the unit of Savannah, and after the fetches and the
    merge of Port Wentworth. *)
Abbreviation after_savannah :=
  (etl.run env_nested engine_of_url [savannah] initial_world).2.

Abbreviation merged_port_wentworth :=
  (etl_merge env_nested port_wentworth after_savannah).2.

(** As [env_accepting], without GOOGLE_API_KEY. *)
Definition env_no_key : environ :=
  {| GOOGLE_API_KEY := None; db_reachable := true; now := today7;
     aqi_current := fun _ _ => Some savannah_aqi;
     aqi_history := fun _ _ _ => Some history_10_20_null_30;
     weather_forecast := fun _ _ => Some savannah_weather;
     weather_archive := fun _ _ _ => Some savannah_weather;
     store_accepts := fun _ => true |}.

(** The events of a unit of work when the key is missing: the weather
    request, and the pause of the backfill. *)
Definition etl_events_no_key (l : Location) : list event :=
  [WeatherRequest (latitude l) (longitude l) None].

Definition backfill_events_no_key (day : Z) (l : Location) : list event :=
  [WeatherRequest (latitude l) (longitude l) (Some day); Sleep].

(** ** Definitions for the further properties *)

(** [isinstance(v, dict)] *)
Definition is_dict (v : value) : bool :=
  match v with
  | VDict _ => true
  | _ => false
  end.

(** The six pollutant fields and the three daily series. *)
Definition POLLUTANTS : list string := ["pm10"; "pm25"; "o3"; "no2"; "co"; "so2"].

Definition SERIES : list string :=
  ["temperature_2m_mean"; "precipitation_sum"; "wind_speed_10m_max"].

(** The requests of a unit of work of etl.py: the air-quality request when
    there is a key, then the weather request. *)
Definition etl_unit_events (env : environ) (l : Location) : list event :=
  (if no_key (GOOGLE_API_KEY env) then []
   else [AqiRequest (latitude l) (longitude l) None])
  ++ [WeatherRequest (latitude l) (longitude l) None].

(** The requests of a unit of work of the backfill for the day [day]. *)
Definition backfill_unit_requests (env : environ) (day : Z) (l : Location)
    : list event :=
  (if no_key (GOOGLE_API_KEY env) then []
   else [AqiRequest (latitude l) (longitude l) (Some day)])
  ++ [WeatherRequest (latitude l) (longitude l) (Some day)].

(** As [env_accepting], but every air-quality request fails. *)
Definition env_failing_aqi : environ :=
  {| GOOGLE_API_KEY := Some "key"; db_reachable := true; now := today7;
     aqi_current := fun _ _ => None;
     aqi_history := fun _ _ _ => None;
     weather_forecast := fun _ _ => Some savannah_weather;
     weather_archive := fun _ _ _ => Some savannah_weather;
     store_accepts := fun _ => true |}.

(** As [env_accepting], but the weather services answer with a list. *)
Definition env_list_weather : environ :=
  {| GOOGLE_API_KEY := Some "key"; db_reachable := true; now := today7;
     aqi_current := fun _ _ => Some savannah_aqi;
     aqi_history := fun _ _ _ => Some history_10_20_null_30;
     weather_forecast := fun _ _ => Some (VList [savannah_weather]);
     weather_archive := fun _ _ _ => Some (VList [savannah_weather]);
     store_accepts := fun _ => true |}.

(** * Properties *)

(** ** The merge functions *)

Example transform_savannah :
  etl.transform_data today7 savannah_aqi savannah_weather
  = Ret (Some (make_reading (VDate 7) (VInt 42) VNone (VFloat (81 # 10))
                 VNone VNone VNone VNone (VFloat (215 # 10)) VNone VNone)).
Proof. reflexivity. Qed.

Example transform_history_10_20_null_30 :
  historical_backfill.transform_historical_data today7
    history_10_20_null_30 savannah_weather
  = Ret (Some (make_reading (VDate 7) (VFloat 40) VNaN (VFloat 20)
                 VNaN VNaN VNaN VNaN (VFloat (215 # 10)) VNone VNone)).
Proof. reflexivity. Qed.

(** Taking a bind apart. *)
Lemma bind_Ret {A B} (m : result A) (f : A -> result B) (b : B) :
  m ≫= f = Ret b -> exists a, m = Ret a /\ f a = Ret b.
Proof. destruct m as [a|e]; simpl; [eauto | discriminate]. Qed.

Lemma bind_Raise {A B} (m : result A) (f : A -> result B) (e : exn) :
  m ≫= f = Raise e -> m = Raise e \/ exists a, m = Ret a /\ f a = Raise e.
Proof. destruct m as [a|e']; simpl; [eauto | intros [= ->]; auto]. Qed.

Lemma try_except_Exception {A} (body handler : result A) :
  try_except except_Exception body handler
  = match body with Ret a => Ret a | Raise _ => handler end.
Proof. by destruct body. Qed.

Ltac bind_inv H :=
  repeat match type of H with
         | _ ≫= _ = Ret _ =>
             let a := fresh "x" in
             let H1 := fresh "E" in
             apply bind_Ret in H as (a & H1 & H)
         end.

Lemma etl_transform_data_Some now a w r :
  etl.transform_data now a w = Ret (Some r) ->
  exists aqi pm10 pm25 o3 no2 co so2 temp precip wind,
    r = make_reading (date_of now) aqi pm10 pm25 o3 no2 co so2 temp precip wind
    /\ weather_fields w temp precip wind.
Proof.
  unfold etl.transform_data.
  destruct (negb (truthy a) || negb (truthy w)); [discriminate|].
  unfold try_except.
  match goal with |- context [match ?b with Ret _ => _ | Raise _ => _ end] =>
    destruct b as [o|e] eqn:E end.
  - intros [= ->]. bind_inv E. injection E as <-.
    do 10 eexists. split; [reflexivity|]. by exists x.
  - destruct (except_Key_Index_Type e); discriminate.
Qed.

Lemma historical_transform_Some d a w r :
  historical_backfill.transform_historical_data d a w = Ret (Some r) ->
  exists aqi pm10 pm25 o3 no2 co so2 temp precip wind,
    r = make_reading (date_of d) aqi pm10 pm25 o3 no2 co so2 temp precip wind
    /\ weather_fields w temp precip wind.
Proof.
  unfold historical_backfill.transform_historical_data.
  destruct (negb (truthy a) || negb (truthy w)); [discriminate|].
  rewrite try_except_Exception.
  match goal with |- context [match ?b with Ret _ => _ | Raise _ => _ end] =>
    destruct b as [o|e] eqn:E end; [|discriminate].
  intros [= ->]. bind_inv E.
  destruct (negb (truthy _)); [discriminate|].
  bind_inv E. injection E as <-.
  do 10 eexists. split; [reflexivity|]. by exists x.
Qed.

Lemma make_reading_complete d aqi pm10 pm25 o3 no2 co so2 temp precip wind :
  complete (make_reading d aqi pm10 pm25 o3 no2 co so2 temp precip wind).
Proof. unfold complete, READING_KEYS. repeat constructor; by eexists. Qed.

Lemma weather_fields_without_daily kvs temp precip wind :
  dict_get "daily" kvs = None ->
  weather_fields (VDict kvs) temp precip wind ->
  temp = VNone /\ precip = VNone /\ wind = VNone.
Proof.
  intros Hd (dw & E & Ht & Hp & Hw). simpl in E. rewrite Hd in E.
  injection E as <-. by injection Ht as <-; injection Hp as <-; injection Hw as <-.
Qed.

(** C5.  Whenever a merge returns a reading, its reading_date is the target
    date of the call: the date of the [datetime.now()] read by
    [transform_data] (current conditions), the date of the [date_to_fetch]
    argument of [transform_historical_data] (history); nothing of the two
    payloads enters it. *)
Theorem reading_date_is_target_date :
  (forall now aqi_data weather_data r,
     etl.transform_data now aqi_data weather_data = Ret (Some r) ->
     r !! "reading_date" = Some (VDate (dt_day now)))
  /\ (forall date_to_fetch aqi_history_data weather_data r,
        historical_backfill.transform_historical_data date_to_fetch
          aqi_history_data weather_data = Ret (Some r) ->
        r !! "reading_date" = Some (VDate (dt_day date_to_fetch))).
Proof.
  split; intros d a w r H.
  - apply etl_transform_data_Some in H
      as (? & ? & ? & ? & ? & ? & ? & ? & ? & ? & -> & _). reflexivity.
  - apply historical_transform_Some in H
      as (? & ? & ? & ? & ? & ? & ? & ? & ? & ? & -> & _). reflexivity.
Qed.

Lemma reading_date_is_target_date_witness :
  (exists r, etl.transform_data today7 savannah_aqi savannah_weather = Ret (Some r)
             /\ r !! "reading_date" = Some (VDate 7))
  /\ (exists r, historical_backfill.transform_historical_data today7
                  history_10_20_null_30 savannah_weather = Ret (Some r)
                /\ r !! "reading_date" = Some (VDate 7)).
Proof.
  split; eexists; (split; [reflexivity|]).
  - apply (proj1 reading_date_is_target_date today7 savannah_aqi savannah_weather).
    reflexivity.
  - apply (proj2 reading_date_is_target_date today7 history_10_20_null_30
             savannah_weather).
    reflexivity.
Defined.

(** C8.  The merge propagates null: a null air-quality input or a null
    weather input gives a null output in both scripts, and in the
    historical merge so does an hourly list that is empty (or absent). *)
Theorem merge_null_propagating :
  (forall now weather_data, etl.transform_data now VNone weather_data = Ret None)
  /\ (forall now aqi_data, etl.transform_data now aqi_data VNone = Ret None)
  /\ (forall d weather_data,
        historical_backfill.transform_historical_data d VNone weather_data = Ret None)
  /\ (forall d aqi_history_data,
        historical_backfill.transform_historical_data d aqi_history_data VNone = Ret None)
  /\ (forall d aqi_history_data weather_data,
        py_get aqi_history_data "hoursInfo" (VList []) = Ret (VList []) ->
        historical_backfill.transform_historical_data d aqi_history_data
          weather_data = Ret None).
Proof.
  split_and!; try done.
  - intros now a. unfold etl.transform_data. by rewrite orb_true_r.
  - intros d a. unfold historical_backfill.transform_historical_data.
    by rewrite orb_true_r.
  - intros d a w Hh. unfold historical_backfill.transform_historical_data.
    destruct (negb (truthy a) || negb (truthy w)); [done|].
    rewrite try_except_Exception, Hh.
    destruct (py_get w "daily" (VDict [])) as [dw|]; simpl; [|done].
    repeat (match goal with |- context [first_of_series ?x ?y] =>
              destruct (first_of_series x y); simpl; [|done] end).
    done.
Qed.

Lemma merge_null_propagating_witness :
  py_get (VDict [("hoursInfo", VList [])]) "hoursInfo" (VList []) = Ret (VList [])
  /\ historical_backfill.transform_historical_data today7
       (VDict [("hoursInfo", VList [])]) savannah_weather = Ret None.
Proof.
  split; [reflexivity|].
  apply (proj2 (proj2 (proj2 (proj2 merge_null_propagating)))). reflexivity.
Defined.

(** C9, the input that refutes it: a weather answer without 'daily' is
    structurally malformed, yet the merge returns a reading, with null
    weather fields. *)
Lemma malformed_input_is_merged :
  etl.transform_data today7 savannah_aqi (VDict [("elevation", VInt 3)])
  = Ret (Some (make_reading (VDate 7) (VInt 42) VNone (VFloat (81 # 10))
                 VNone VNone VNone VNone VNone VNone VNone))
  /\ etl.transform_data today7 savannah_aqi (VDict [("elevation", VInt 3)])
     <> Ret None.
Proof. split; [reflexivity | discriminate]. Qed.

(** An answer whose 'daily' is null makes [transform_data] raise: its
    handler does not list AttributeError. *)
Example transform_data_raises_AttributeError :
  etl.transform_data today7 savannah_aqi (VDict [("daily", VNone)])
  = Raise AttributeError.
Proof. reflexivity. Qed.

Example transform_historical_data_catches_all :
  historical_backfill.transform_historical_data today7 history_10_20_null_30
    (VDict [("daily", VNone)]) = Ret None.
Proof. reflexivity. Qed.

(** C9, amended.  On any input the historical merge returns (null or a
    reading) and never raises; the current-conditions merge never raises a
    KeyError, an IndexError or a TypeError.  A reading that is returned has
    all of its eleven fields.  An input that lacks an expected field is not
    refused: without 'daily' in the weather answer, a returned reading has
    null temperature, precipitation and wind. *)
Theorem malformed_input_amended :
  (forall d a w, exists o,
      historical_backfill.transform_historical_data d a w = Ret o)
  /\ (forall now a w e,
        etl.transform_data now a w = Raise e -> except_Key_Index_Type e = false)
  /\ (forall now a w r, etl.transform_data now a w = Ret (Some r) -> complete r)
  /\ (forall d a w r,
        historical_backfill.transform_historical_data d a w = Ret (Some r) ->
        complete r)
  /\ (forall now a kvs r,
        dict_get "daily" kvs = None ->
        etl.transform_data now a (VDict kvs) = Ret (Some r) ->
        r !! "temperature_celsius" = Some VNone
        /\ r !! "precipitation_mm" = Some VNone
        /\ r !! "wind_speed_kmh" = Some VNone)
  /\ (forall d a kvs r,
        dict_get "daily" kvs = None ->
        historical_backfill.transform_historical_data d a (VDict kvs)
          = Ret (Some r) ->
        r !! "temperature_celsius" = Some VNone
        /\ r !! "precipitation_mm" = Some VNone
        /\ r !! "wind_speed_kmh" = Some VNone).
Proof.
  split_and!.
  - intros d a w. unfold historical_backfill.transform_historical_data.
    destruct (negb (truthy a) || negb (truthy w)); [by eexists|].
    rewrite try_except_Exception. destruct (_ ≫= _); by eexists.
  - intros now a w e. unfold etl.transform_data.
    destruct (negb (truthy a) || negb (truthy w)); [done|].
    unfold try_except. destruct (_ ≫= _) as [o|e']; [done|].
    destruct (except_Key_Index_Type e') eqn:He; [done|]. by intros [= <-].
  - intros now a w r H.
    apply etl_transform_data_Some in H
      as (? & ? & ? & ? & ? & ? & ? & ? & ? & ? & -> & _).
    apply make_reading_complete.
  - intros d a w r H.
    apply historical_transform_Some in H
      as (? & ? & ? & ? & ? & ? & ? & ? & ? & ? & -> & _).
    apply make_reading_complete.
  - intros now a kvs r Hd H.
    apply etl_transform_data_Some in H
      as (? & ? & ? & ? & ? & ? & ? & t & p & wd & -> & Hw).
    by destruct (weather_fields_without_daily _ _ _ _ Hd Hw) as (-> & -> & ->).
  - intros d a kvs r Hd H.
    apply historical_transform_Some in H
      as (? & ? & ? & ? & ? & ? & ? & t & p & wd & -> & Hw).
    by destruct (weather_fields_without_daily _ _ _ _ Hd Hw) as (-> & -> & ->).
Qed.

Lemma malformed_input_amended_witness :
  dict_get "daily" [("elevation", VInt 3)] = None
  /\ (exists r, etl.transform_data today7 savannah_aqi
                  (VDict [("elevation", VInt 3)]) = Ret (Some r)
                /\ r !! "temperature_celsius" = Some VNone)
  /\ (exists r, historical_backfill.transform_historical_data today7
                  history_10_20_null_30 (VDict [("elevation", VInt 3)])
                = Ret (Some r)
                /\ complete r).
Proof.
  destruct malformed_input_amended as (_ & _ & _ & Hc & He & _).
  split; [reflexivity|]. split; eexists; (split; [reflexivity|]).
  - eapply (He today7 savannah_aqi [("elevation", VInt 3)]); reflexivity.
  - eapply (Hc today7 history_10_20_null_30 (VDict [("elevation", VInt 3)])).
    reflexivity.
Defined.

(** ** The daily averages of the historical merge *)

(** *** float64: sums of integers that are exact *)

Lemma round64_Qeq p q : (p == q)%Q -> round64 p = round64 q.
Proof. intros H. unfold round64. by rewrite (Qred_complete _ _ H). Qed.

Lemma Qred_inject_Z z : Qred (inject_Z z) = inject_Z z.
Proof.
  unfold Qred, inject_Z.
  pose proof (Z.ggcd_gcd z 1) as Hg.
  pose proof (Z.ggcd_correct_divisors z 1) as Hd.
  destruct (Z.ggcd z 1) as [g [a b]]. simpl in *.
  rewrite Z.gcd_1_r in Hg. subst g. destruct Hd as [Ha Hb].
  assert (a = z) as -> by lia. assert (b = 1) as -> by lia. reflexivity.
Qed.

Lemma round_half_even_1 n : round_half_even n 1 = n.
Proof.
  unfold round_half_even. rewrite Z.mod_1_r, Z.div_1_r. reflexivity.
Qed.

Lemma exponent_Z n :
  0 < n <= 2 ^ 53 -> exponent n 1 = Z.log2 n - 52 /\ 0 <= Z.log2 n <= 53.
Proof.
  intros [Hpos Hz].
  pose proof (Z.log2_spec n Hpos) as [Hlo Hhi].
  pose proof (Z.log2_nonneg n) as Hk.
  assert (Z.log2 n <= 53) as Hk53.
  { destruct (Z_le_gt_dec (Z.log2 n) 53) as [|Hgt]; [done|].
    assert (2 ^ 54 <= 2 ^ Z.log2 n) by (apply Z.pow_le_mono_r; lia). lia. }
  split; [|lia].
  unfold exponent, scale. change (Z.log2 1) with 0. rewrite Z.sub_0_r.
  destruct (Z.leb_spec 0 (Z.log2 n)) as [_|]; [|lia].
  rewrite Z.mul_1_l. destruct (Z.ltb_spec n (2 ^ Z.log2 n)) as [|_]; [lia|].
  lia.
Qed.

Lemma round64_Z z : Z.abs z <= 2 ^ 53 -> round64 (inject_Z z) = inject_Z z.
Proof.
  intros Hz. unfold round64. rewrite Qred_inject_Z. simpl Qnum. simpl Qden.
  destruct (Z.eqb_spec (Z.abs z) 0) as [H0|H0].
  { assert (z = 0) as -> by lia. reflexivity. }
  assert (0 < Z.abs z <= 2 ^ 53) as Hn by lia.
  destruct (exponent_Z _ Hn) as [-> Hk].
  pose proof (Z.log2_spec (Z.abs z) (proj1 Hn)) as [Hlo Hhi].
  unfold scale. destruct (Z.leb_spec 0 (Z.log2 (Z.abs z) - 52)) as [He|He].
  - rewrite Z.mul_1_l.
    assert (Z.log2 (Z.abs z) = 52 \/ Z.log2 (Z.abs z) = 53) as [Hl|Hl] by lia;
      rewrite Hl in *.
    + change (2 ^ (52 - 52)) with 1. rewrite round_half_even_1, Qred_inject_Z.
      f_equal. lia.
    + assert (Z.abs z = 2 ^ 53) as Hn' by lia. rewrite Hn'.
      rewrite Qred_inject_Z. f_equal.
      change (round_half_even (2 ^ 53) (2 ^ (53 - 52))) with (2 ^ 52). lia.
  - rewrite round_half_even_1.
    set (P := 2 ^ (- (Z.log2 (Z.abs z) - 52))).
    assert (0 < P) as HP by (apply Z.pow_pos_nonneg; lia).
    rewrite <- Qred_inject_Z. apply Qred_complete.
    unfold Qeq. simpl. rewrite Z2Pos.id by done. nia.
Qed.

Lemma float_add_Z a b :
  Z.abs (a + b) <= 2 ^ 53 ->
  float_add (inject_Z a) (inject_Z b) = inject_Z (a + b).
Proof.
  intros H. unfold float_add.
  rewrite <- inject_Z_plus. by apply round64_Z.
Qed.

Lemma Zsum_app a b : Zsum (a ++ b) = Zsum a + Zsum b.
Proof. induction a; simpl; lia. Qed.

Lemma Zabsum_app a b : Zabsum (a ++ b) = Zabsum a + Zabsum b.
Proof. induction a; simpl; lia. Qed.

Lemma Zabsum_bound a : Z.abs (Zsum a) <= Zabsum a.
Proof. induction a; simpl; lia. Qed.

Lemma Zabsum_nonneg a : 0 <= Zabsum a.
Proof. induction a; simpl; lia. Qed.

(** [lia] with the absolute values taken for unknowns that are not
    negative. *)
Ltac abs_lia :=
  repeat match goal with
         | |- context [Z.abs (?a + ?b)] =>
             pose proof (Z.abs_triangle a b);
             generalize dependent (Z.abs (a + b)); intros
         | _ : context [Z.abs (?a + ?b)] |- _ =>
             pose proof (Z.abs_triangle a b);
             generalize dependent (Z.abs (a + b)); intros
         end;
  repeat match goal with
         | |- context [Z.abs ?x] =>
             pose proof (Z.abs_nonneg x); generalize dependent (Z.abs x); intros
         | _ : context [Z.abs ?x] |- _ =>
             pose proof (Z.abs_nonneg x); generalize dependent (Z.abs x); intros
         end;
  lia.

Lemma add_all_Z zs : forall r,
  Z.abs r + Zabsum zs <= 2 ^ 53 ->
  add_all (inject_Z r) (map inject_Z zs) = inject_Z (r + Zsum zs).
Proof.
  induction zs as [|z zs IH]; intros r H; simpl in *.
  - by rewrite Z.add_0_r.
  - pose proof (Zabsum_bound zs).
    unfold add_all in *. simpl. rewrite float_add_Z by lia.
    rewrite IH by lia. f_equal. lia.
Qed.

Lemma sum_of_eight_Z rs :
  length rs = 8%nat -> Zabsum rs <= 2 ^ 53 ->
  sum_of_eight (map inject_Z rs) = inject_Z (Zsum rs).
Proof.
  intros Hl H.
  do 8 (destruct rs as [|? rs]; [discriminate|]).
  destruct rs; [|discriminate]. simpl in *.
  rewrite !float_add_Z by abs_lia. f_equal. clear. lia.
Qed.

Lemma accumulate_Z n : forall zs rs,
  (length zs <= n)%nat -> length rs = 8%nat ->
  Zabsum rs + Zabsum zs <= 2 ^ 53 ->
  exists rs' zs',
    accumulate (map inject_Z rs) (map inject_Z zs)
    = (map inject_Z rs', map inject_Z zs')
    /\ length rs' = 8%nat
    /\ Zsum rs' + Zsum zs' = Zsum rs + Zsum zs
    /\ Zabsum rs' + Zabsum zs' <= Zabsum rs + Zabsum zs.
Proof.
  induction n as [|n IH]; intros zs rs Hn Hl H.
  { destruct zs; [|simpl in Hn; lia]. by exists rs, []. }
  destruct zs as [|z0 [|z1 [|z2 [|z3 [|z4 [|z5 [|z6 [|z7 zs]]]]]]]];
    try (match goal with
         | |- context [accumulate _ (map inject_Z ?l)] => by exists rs, l
         end).
  destruct rs as [|r0 [|r1 [|r2 [|r3 [|r4 [|r5 [|r6 [|r7 [|]]]]]]]]];
    try discriminate.
  cbn [map accumulate zip_with]. simpl in H, Hn.
  pose proof (Zabsum_nonneg zs).
  rewrite !float_add_Z by abs_lia.
  destruct (IH zs [r0 + z0; r1 + z1; r2 + z2; r3 + z3; r4 + z4; r5 + z5;
                   r6 + z6; r7 + z7])
    as (rs' & zs' & He & Hl' & Hs & Ha); [lia | reflexivity | | ].
  { simpl. abs_lia. }
  exists rs', zs'. split; [exact He|]. split; [done|].
  simpl in Hs, Ha |- *. split; [clear -Hs; lia|]. clear He IH Hs. abs_lia.
Qed.

Lemma block_sum_Z zs :
  Zabsum zs <= 2 ^ 53 -> block_sum (map inject_Z zs) = inject_Z (Zsum zs).
Proof.
  intros H. unfold block_sum.
  destruct zs as [|z0 [|z1 [|z2 [|z3 [|z4 [|z5 [|z6 [|z7 zs]]]]]]]];
    try (match type of H with
         | Zabsum ?l <= _ => exact (add_all_Z l 0 H)
         end).
  cbn [map]. simpl in H. pose proof (Zabsum_nonneg zs) as Hzs.
  destruct (accumulate_Z (length zs) zs [z0; z1; z2; z3; z4; z5; z6; z7])
    as (rs' & zs' & He & Hl' & Hs & Ha); [lia | reflexivity | | ].
  { simpl. clear -H Hzs. abs_lia. }
  cbn [map] in He. rewrite He.
  pose proof (Zabsum_nonneg zs'). pose proof (Zabsum_nonneg rs').
  pose proof (Zabsum_bound rs').
  simpl in Ha, Hs.
  rewrite sum_of_eight_Z by (done || abs_lia).
  rewrite add_all_Z by abs_lia. f_equal. simpl. clear -Hs. lia.
Qed.

Lemma pairwise_sum_Z depth : forall zs,
  Zabsum zs <= 2 ^ 53 ->
  pairwise_sum depth (map inject_Z zs) = inject_Z (Zsum zs).
Proof.
  induction depth as [|depth IH]; intros zs H; simpl.
  - by apply block_sum_Z.
  - destruct (_ <=? _)%nat; [by apply block_sum_Z|].
    rewrite length_map. set (n2 := (_ - _)%nat).
    rewrite <- fmap_take, <- fmap_drop.
    pose proof (take_drop n2 zs) as Htd.
    pose proof (Zabsum_app (take n2 zs) (drop n2 zs)) as Ha.
    pose proof (Zsum_app (take n2 zs) (drop n2 zs)) as Hs.
    rewrite Htd in Ha, Hs.
    pose proof (Zabsum_bound (take n2 zs)). pose proof (Zabsum_bound (drop n2 zs)).
    assert (0 <= Zabsum (take n2 zs) /\ 0 <= Zabsum (drop n2 zs)) as [? ?] by lia.
    change (map inject_Z) with (fmap (M:=list) inject_Z).
    rewrite !IH by lia. rewrite float_add_Z by lia. by rewrite Hs.
Qed.

Lemma np_sum_Z zs :
  Zabsum zs <= 2 ^ 53 -> np_sum (map inject_Z zs) = inject_Z (Zsum zs).
Proof. apply pairwise_sum_Z. Qed.

(** *** The mean of a column *)

Lemma fill_missing_spec cells : forall values count,
  historical_backfill.fill_missing cells = Ret (values, count) ->
  exists xs,
    Forall2 (fun c x => historical_backfill.cell_number c = Ret x) cells xs
    /\ values = map (default 0%Q) xs
    /\ count = length (reported xs).
Proof.
  induction cells as [|c rest IH]; intros values count H; simpl in H.
  - injection H as <- <-. exists []. split; [constructor | done].
  - apply bind_Ret in H as (x & Hc & H).
    apply bind_Ret in H as ([vs n] & Hrest & H).
    destruct (IH _ _ Hrest) as (xs & HF & -> & ->).
    exists (x :: xs). split; [by constructor|].
    destruct x; by injection H as <- <-.
Qed.

Lemma mean_spec cells v :
  historical_backfill.mean cells = Ret v ->
  exists xs,
    Forall2 (fun c x => historical_backfill.cell_number c = Ret x) cells xs
    /\ v = float_mean xs.
Proof.
  unfold historical_backfill.mean. intros H.
  apply bind_Ret in H as ([values count] & Hs & H).
  apply fill_missing_spec in Hs as (xs & HF & -> & ->).
  exists xs. split; [done|]. unfold float_mean.
  destruct (reported xs) as [|q qs]; by injection H as <-.
Qed.

Lemma cell_number_float_of c x :
  historical_backfill.cell_number c = Ret x -> x = float_of c.
Proof. destruct c; simpl; congruence. Qed.

Lemma rows_of_dicts_spec data df :
  historical_backfill.rows_of_dicts data = Ret df -> data = map VDict df.
Proof.
  revert df. induction data as [|x rest IH]; intros df H; simpl in H.
  - by injection H as <-.
  - destruct x; try discriminate.
    apply bind_Ret in H as (rows & Hr & H). injection H as <-.
    simpl. f_equal. by apply IH.
Qed.

Lemma df_column_spec df col cells :
  historical_backfill.df_column df col = Ret cells ->
  cells = map (fun r => default VNaN (dict_get col r)) df
  /\ exists r, r ∈ df /\ is_Some (dict_get col r).
Proof.
  unfold historical_backfill.df_column.
  destruct (existsb _ df) eqn:Hex; [|discriminate].
  intros [= <-]. split; [done|].
  apply existsb_exists in Hex as (r & Hin & Hr).
  exists r. split; [by apply list_elem_of_In|]. by apply bool_decide_eq_true in Hr.
Qed.

(** A frame with a named column was made from a list of dicts. *)
Lemma DataFrame_column hours df col cells :
  historical_backfill.DataFrame (VList hours) = Ret df ->
  historical_backfill.df_column df col = Ret cells ->
  hours = map VDict df.
Proof.
  intros Hdf Hcol. apply df_column_spec in Hcol as (_ & r & Hin & Hr).
  destruct hours as [|h rest].
  - injection Hdf as <-. by apply elem_of_nil in Hin.
  - assert (forall l : list value,
              r ∈ map (fun _ => [] : list (string * value)) l -> r = []) as Hnil.
    { intros l Hl. by apply list_elem_of_fmap in Hl as (? & -> & _). }
    destruct h;
      try (simpl in Hdf; injection Hdf as <-;
           apply (Hnil (VNone :: rest)) in Hin; subst r;
           destruct Hr as [? Hr]; simpl in Hr; discriminate Hr).
    by apply rows_of_dicts_spec.
Qed.

Lemma apply_spec f cells ys :
  historical_backfill.apply f cells = Ret ys ->
  Forall2 (fun c y => f c = Ret y) cells ys.
Proof.
  revert ys. induction cells as [|c rest IH]; intros ys H; simpl in H.
  - injection H as <-. constructor.
  - apply bind_Ret in H as (y & Hy & H).
    apply bind_Ret in H as (ys' & Hys & H). injection H as <-.
    constructor; auto.
Qed.

Lemma pollutant_columns_spec df codes cols :
  historical_backfill.pollutant_columns df codes = Ret cols ->
  Forall2 (fun code (nc : string * list value) =>
             nc.1 = code
             /\ exists pol,
                 historical_backfill.df_column df "pollutants" = Ret pol
                 /\ historical_backfill.apply
                      (fun x => historical_backfill.get_pollutant_value x code)
                      pol = Ret nc.2)
          codes cols.
Proof.
  revert cols. induction codes as [|code rest IH]; intros cols H; simpl in H.
  - injection H as <-. constructor.
  - apply bind_Ret in H as (pol & Hpol & H).
    apply bind_Ret in H as (col & Hcol & H).
    apply bind_Ret in H as (cols' & Hcols & H). injection H as <-.
    constructor; [|by apply IH]. split; [done|]. by exists pol.
Qed.

Lemma means_spec cols : forall m,
  historical_backfill.means cols = Ret m ->
  NoDup cols.*1 ->
  forall name cells, (name, cells) ∈ cols ->
    exists v, historical_backfill.mean cells = Ret v /\ m !! name = Some v.
Proof.
  induction cols as [|[n c] rest IH]; intros m H Hnd name cells Hin.
  - by apply elem_of_nil in Hin.
  - simpl in H. apply bind_Ret in H as (v & Hv & H).
    apply bind_Ret in H as (ms & Hms & H). injection H as <-.
    apply NoDup_cons in Hnd as [Hn Hnd].
    apply elem_of_cons in Hin as [[= -> ->]|Hin].
    + exists v. split; [done|]. apply lookup_insert_eq.
    + destruct (IH ms Hms Hnd name cells Hin) as (v' & Hv' & Hl).
      exists v'. split; [done|]. rewrite lookup_insert_ne; [done|].
      intros ->. apply Hn. simpl. apply list_elem_of_fmap. by exists (name, cells).
Qed.

(** *** What the script extracts from an hour, against the layout *)

Lemma next_uaqi_aqi_reported indexes v :
  historical_backfill.next_uaqi_aqi indexes = Ret v ->
  v = match List.filter (has_code "uaqi") indexes with
      | VDict kvs :: _ => default VNone (dict_get "aqi" kvs)
      | _ => VNone
      end.
Proof.
  induction indexes as [|idx rest IH]; simpl; [congruence|].
  destruct idx as [| | | | | | | |kvs]; try discriminate. simpl.
  destruct (py_eq_str _ "uaqi"); [congruence | exact IH].
Qed.

Lemma get_aqi_reported kvs v :
  historical_backfill.get_aqi (default VNaN (dict_get "indexes" kvs)) = Ret v ->
  v = reported_value "aqi" (VDict kvs).
Proof.
  unfold reported_value, entries. simpl.
  destruct (dict_get "indexes" kvs) as [[]|]; simpl; try congruence.
  apply next_uaqi_aqi_reported.
Qed.

Lemma pollutant_items_find ps : forall items c,
  pollutant_items ps = Ret items ->
  items_find c items
  = concentration_value <$> last (List.filter (has_code c) ps).
Proof.
  induction ps as [|p rest IH]; intros items c H; simpl in H.
  - by injection H as <-.
  - destruct p as [| | | | | | | |kvs]; try discriminate. simpl in H.
    destruct (default (VDict []) (dict_get "concentration" kvs))
      as [| | | | | | | |ckvs] eqn:Hc; try discriminate.
    simpl in H. destruct (hashable _); [|discriminate].
    apply bind_Ret in H as (items' & Hrest & H). injection H as <-.
    simpl. rewrite (IH _ c Hrest).
    destruct (py_eq_str _ c) eqn:Hcode.
    + destruct (List.filter (has_code c) rest) as [|p' ps'] eqn:Hf; simpl.
      * unfold concentration_value. by rewrite Hc.
      * destruct (last (p' :: ps')) eqn:Hl; [done|].
        by apply last_None in Hl.
    + by destruct (last (List.filter (has_code c) rest)).
Qed.

Lemma get_pollutant_value_reported kvs code v :
  String.eqb code "aqi" = false ->
  historical_backfill.get_pollutant_value
    (default VNaN (dict_get "pollutants" kvs)) code = Ret v ->
  v = reported_value code (VDict kvs).
Proof.
  intros Hne. unfold reported_value, entries. rewrite Hne. simpl.
  destruct (dict_get "pollutants" kvs) as [[]|]; simpl; try congruence.
  intros H. apply bind_Ret in H as (items & Hitems & H). injection H as <-.
  unfold items_get. rewrite (pollutant_items_find _ _ code Hitems).
  by destruct (last _).
Qed.

(** An averaged column against the hourly entries it was extracted from. *)
Lemma averaged_column df (f : value -> result value) col cells ys v field :
  historical_backfill.df_column df col = Ret cells ->
  historical_backfill.apply f cells = Ret ys ->
  historical_backfill.mean ys = Ret v ->
  (forall r y, f (default VNaN (dict_get col r)) = Ret y ->
               y = reported_value field (VDict r)) ->
  v = float_mean (map (hour_value field) (map VDict df)).
Proof.
  intros Hcol Hap Hmean Hcell.
  apply mean_spec in Hmean as (xs & Hnum & ->). f_equal.
  apply df_column_spec in Hcol as (-> & _).
  apply apply_spec in Hap. apply Forall2_fmap_l in Hap.
  revert xs Hnum. induction Hap as [|r y df' ys' Hy _ IH]; intros xs Hnum.
  - by inversion Hnum.
  - inversion Hnum as [|? x ? xs' Hx Hrest]; subst. simpl.
    rewrite (IH _ Hrest). f_equal. unfold hour_value.
    rewrite <- (Hcell _ _ Hy). by apply cell_number_float_of.
Qed.

(** *** A day of the documented layout gives a reading *)

Lemma rows_of_dicts_dicts df :
  historical_backfill.rows_of_dicts (map VDict df) = Ret df.
Proof. induction df as [|r df IH]; simpl; [done|]. by rewrite IH. Qed.

Lemma hourly_entries_rows hours :
  forallb hourly_entry hours = true -> exists df, hours = map VDict df.
Proof.
  induction hours as [|h rest IH]; simpl; [by exists []|].
  intros [Hh Hrest]%andb_prop. destruct (IH Hrest) as [df ->].
  destruct h; try discriminate. by eexists (_ :: df).
Qed.

Lemma df_column_member df col :
  existsb (has_member col) (map VDict df) = true ->
  historical_backfill.df_column df col
  = Ret (map (fun r => default VNaN (dict_get col r)) df).
Proof.
  intros H. unfold historical_backfill.df_column.
  replace (existsb _ df) with true; [done|]. symmetry.
  rewrite <- H. clear H. induction df as [|r df IH]; simpl; [done|].
  by rewrite IH.
Qed.

Lemma next_uaqi_aqi_total indexes :
  forallb index_entry indexes = true ->
  exists y, historical_backfill.next_uaqi_aqi indexes = Ret y
            /\ number_or_null y = true.
Proof.
  induction indexes as [|idx rest IH]; simpl; [by exists VNone|].
  intros [Hi Hrest]%andb_prop.
  destruct idx as [| | | | | | | |kvs]; try discriminate. simpl.
  destruct (py_eq_str _ "uaqi"); [by eexists | by apply IH].
Qed.

Lemma pollutant_items_total ps :
  forallb pollutant_entry ps = true ->
  exists items, pollutant_items ps = Ret items
                /\ Forall (fun kv => number_or_null kv.2 = true) items.
Proof.
  induction ps as [|p rest IH]; simpl; [by exists []|].
  intros [Hp Hrest]%andb_prop. destruct (IH Hrest) as (items & Hitems & HF).
  destruct p as [| | | | | | | |kvs]; try discriminate. simpl in *.
  apply andb_prop in Hp as [Hcode Hconc].
  destruct (dict_get "code" kvs) as [[]|]; try discriminate.
  destruct (default (VDict []) (dict_get "concentration" kvs))
    as [| | | | | | | |ckvs]; try discriminate.
  simpl. rewrite Hitems. simpl. eexists. split; [done|]. by constructor.
Qed.

Lemma items_get_number items c :
  Forall (fun kv : value * value => number_or_null kv.2 = true) items ->
  number_or_null (items_get c items) = true.
Proof.
  unfold items_get. induction 1 as [|[k v] items Hv _ IH]; simpl; [done|].
  destruct (items_find c items); [done|]. by destruct (py_eq_str k c).
Qed.

Lemma hour_cells_total r :
  hourly_entry (VDict r) = true ->
  (exists y, historical_backfill.get_aqi (default VNaN (dict_get "indexes" r))
             = Ret y /\ number_or_null y = true)
  /\ forall c,
       exists y, historical_backfill.get_pollutant_value
                   (default VNaN (dict_get "pollutants" r)) c = Ret y
                 /\ number_or_null y = true.
Proof.
  simpl. intros [Hi Hp]%andb_prop. split.
  - destruct (dict_get "indexes" r) as [[]|]; try discriminate;
      [by apply next_uaqi_aqi_total | by exists VNone].
  - intros c. destruct (dict_get "pollutants" r) as [[]|]; try discriminate;
      [|by exists VNone].
    destruct (pollutant_items_total _ Hp) as (items & Hitems & HF). simpl.
    rewrite Hitems. eexists. split; [done|]. by apply items_get_number.
Qed.

Lemma apply_total (f : value -> result value) (P : value -> Prop) cells :
  Forall (fun c => exists y, f c = Ret y /\ P y) cells ->
  exists ys, historical_backfill.apply f cells = Ret ys /\ Forall P ys.
Proof.
  induction 1 as [|c rest (y & Hy & Py) _ (ys & Hys & HP)]; simpl.
  - by exists [].
  - rewrite Hy. simpl. rewrite Hys. eexists. split; [done|]. by constructor.
Qed.

Lemma mean_total cells :
  Forall (fun c => number_or_null c = true) cells ->
  exists v, historical_backfill.mean cells = Ret v.
Proof.
  intros H. unfold historical_backfill.mean.
  assert (exists p, historical_backfill.fill_missing cells = Ret p) as [p ->].
  { induction H as [|c rest Hc _ [[vs n] IH]]; simpl; [by eexists|].
    rewrite IH. destruct c; try discriminate; by eexists. }
  destruct p. by eexists.
Qed.

Lemma means_total cols :
  Forall (fun nc : string * list value =>
            Forall (fun c => number_or_null c = true) nc.2) cols ->
  exists m, historical_backfill.means cols = Ret m.
Proof.
  induction 1 as [|[n cells] cols Hc _ [m IH]]; simpl; [by eexists|].
  simpl in Hc. destruct (mean_total _ Hc) as [v ->]. simpl. rewrite IH.
  by eexists.
Qed.

Lemma pollutant_columns_total df codes :
  existsb (has_member "pollutants") (map VDict df) = true ->
  forallb hourly_entry (map VDict df) = true ->
  exists cols,
    historical_backfill.pollutant_columns df codes = Ret cols
    /\ Forall (fun nc : string * list value =>
                 Forall (fun c => number_or_null c = true) nc.2) cols.
Proof.
  intros Hm Hh. induction codes as [|code rest (cols & IH & HF)]; simpl.
  - by exists [].
  - rewrite (df_column_member _ _ Hm). simpl.
    destruct (apply_total
                (fun x => historical_backfill.get_pollutant_value x code)
                (fun c => number_or_null c = true)
                (map (fun r => default VNaN (dict_get "pollutants" r)) df))
      as (col & -> & Hcol).
    { apply Forall_fmap, Forall_forall. intros r Hr. simpl.
      apply hour_cells_total.
      apply forallb_forall with (x := VDict r) in Hh; [done|].
      apply in_map. by apply list_elem_of_In. }
    simpl. rewrite IH. eexists. split; [done|]. by constructor.
Qed.

Lemma historical_transform_returns d a w hours temp precip wind :
  truthy w = true ->
  weather_fields w temp precip wind ->
  py_get a "hoursInfo" (VList []) = Ret (VList hours) ->
  forallb hourly_entry hours = true ->
  existsb (has_member "indexes") hours = true ->
  existsb (has_member "pollutants") hours = true ->
  exists r, historical_backfill.transform_historical_data d a w = Ret (Some r).
Proof.
  intros Hw (dw & Hdw & Ht & Hp & Hwi) Ha Hh Hix Hpol.
  destruct (hourly_entries_rows _ Hh) as [df ->].
  assert (truthy a = true) as Hta.
  { destruct a as [| | | | | | | |kvs]; try discriminate.
    destruct kvs; [|done]. simpl in Ha. injection Ha as Ha.
    by destruct df. }
  assert (truthy (VList (map VDict df)) = true) as Hth by (by destruct df).
  assert (historical_backfill.DataFrame (VList (map VDict df)) = Ret df) as Hdf.
  { destruct df as [|r df]; [discriminate|]. simpl.
    by rewrite rows_of_dicts_dicts. }
  destruct (apply_total historical_backfill.get_aqi
              (fun c => number_or_null c = true)
              (map (fun r => default VNaN (dict_get "indexes" r)) df))
    as (aqi_col & Haqi & Hnum).
  { apply Forall_fmap, Forall_forall. intros r Hr. simpl.
    apply hour_cells_total.
    apply forallb_forall with (x := VDict r) in Hh; [done|].
    apply in_map. by apply list_elem_of_In. }
  destruct (pollutant_columns_total df ["pm10"; "pm25"; "o3"; "no2"; "co"; "so2"]
              Hpol Hh) as (p_cols & Hcols & Hpnum).
  destruct (means_total (("aqi", aqi_col) :: p_cols)) as [avg Havg];
    [by constructor|].
  unfold historical_backfill.transform_historical_data.
  rewrite Hta, Hw, Hdw. cbn [negb orb mbind result_bind].
  rewrite Ht. cbn [mbind result_bind]. rewrite Hp. cbn [mbind result_bind].
  rewrite Hwi. cbn [mbind result_bind]. rewrite Ha. cbn [mbind result_bind].
  rewrite Hth, Hdf. cbn [negb mbind result_bind].
  rewrite (df_column_member _ _ Hix). cbn [mbind result_bind].
  rewrite Haqi. cbn [mbind result_bind]. rewrite Hcols. cbn [mbind result_bind].
  rewrite Havg. by eexists.
Qed.

(** *** The float mean against the arithmetic mean *)

Lemma Qsum_inject_Z zs : (Qsum (map inject_Z zs) == inject_Z (Zsum zs))%Q.
Proof.
  induction zs as [|z zs IH]; simpl; [reflexivity|].
  rewrite IH. by rewrite inject_Z_plus.
Qed.

Lemma filled_integers xs : forall zs,
  reported xs = map inject_Z zs ->
  exists zs', map (default 0%Q) xs = map inject_Z zs'
              /\ Zsum zs' = Zsum zs /\ Zabsum zs' = Zabsum zs.
Proof.
  induction xs as [|[q|] xs IH]; intros zs H.
  - exists []. by destruct zs.
  - destruct zs as [|z zs]; [discriminate|]. injection H as -> H.
    destruct (IH _ H) as (zs' & Hm & Hs & Ha).
    exists (z :: zs'). simpl. rewrite Hm, Hs, Ha. done.
  - destruct (IH _ H) as (zs' & Hm & Hs & Ha).
    exists (0 :: zs'). simpl. rewrite Hm, Hs, Ha. done.
Qed.

Lemma float_mean_exact xs zs :
  reported xs = map inject_Z zs -> zs <> [] -> Zabsum zs <= 2 ^ 53 ->
  float_mean xs = VFloat (round64 (arithmetic_mean (reported xs))).
Proof.
  intros Hr Hne Hb. unfold float_mean.
  destruct (filled_integers _ _ Hr) as (zs' & -> & Hs & Ha).
  rewrite np_sum_Z by (by rewrite Ha).
  destruct (reported xs) as [|q qs] eqn:E; [by destruct zs|].
  f_equal. apply round64_Qeq. unfold arithmetic_mean.
  rewrite Hr, Qsum_inject_Z, Hs, <- Hr. reflexivity.
Qed.

Lemma make_reading_averaged d avg temp precip wind field :
  field ∈ AVERAGED ->
  make_reading d (historical_backfill.get avg "aqi")
    (historical_backfill.get avg "pm10") (historical_backfill.get avg "pm25")
    (historical_backfill.get avg "o3") (historical_backfill.get avg "no2")
    (historical_backfill.get avg "co") (historical_backfill.get avg "so2")
    temp precip wind !! field
  = Some (historical_backfill.get avg field).
Proof.
  unfold AVERAGED. intros H.
  repeat (apply elem_of_cons in H as [->|H]; [reflexivity|]).
  by apply elem_of_nil in H.
Qed.


(** ** load_data, in closed form *)

Ltac unfold_M :=
  unfold with_connection, select_location_id, insert_location, nextval,
    execute, insert_reading, commit, setitem, getitem, deref, lift, raise,
    emit, alloc, current, mbind, M_bind, mret, M_ret, with_db, with_conn,
    with_seq, with_heap, with_trace; simpl.

Lemma bind_reading_date params r :
  bind_reading params = Ret r -> is_Some (params !! "reading_date").
Proof.
  unfold bind_reading, param. intros H.
  apply bind_Ret in H as (x1 & _ & H). apply bind_Ret in H as (x2 & E & H).
  destruct (params !! "reading_date"); [by eexists | discriminate].
Qed.

Lemma etl_load_data_eq env engine location_info reading_data w :
  size (default ∅ (heap w !! reading_data)) <> 0%nat ->
  etl.load_data env engine location_info reading_data w
  = load_outcome env location_info reading_data w.
Proof.
  intros Hsize. unfold etl.load_data, load_outcome, resolve_location.
  unfold_M. apply Nat.eqb_neq in Hsize. rewrite Hsize.
  destruct w as [d c seq h t]; simpl in *.
  destruct (store.select_ids _ _ d) as [|i [|j rest]]; simpl; [| |done].
  - rewrite lookup_insert_eq. simpl.
    destruct (bind_reading _) as [r|e] eqn:Hb; simpl; [|done].
    destruct (store_accepts env r); simpl; [|done].
    rewrite lookup_insert_eq. simpl.
    destruct (bind_reading_date _ _ Hb) as [v Hv]. by rewrite Hv.
  - destruct (negb (Z.eqb i 0)); simpl.
    + rewrite lookup_insert_eq. simpl.
      destruct (bind_reading _) as [r|e] eqn:Hb; simpl; [|done].
      destruct (store_accepts env r); simpl; [|done].
      rewrite lookup_insert_eq. simpl.
      destruct (bind_reading_date _ _ Hb) as [v Hv]. by rewrite Hv.
    + rewrite lookup_insert_eq. simpl.
      destruct (bind_reading _) as [r|e] eqn:Hb; simpl; [|done].
      destruct (store_accepts env r); simpl; [|done].
      rewrite lookup_insert_eq. simpl.
      destruct (bind_reading_date _ _ Hb) as [v Hv]. by rewrite Hv.
Qed.

Lemma size_nonzero_lookup (d : gmap string value) k v :
  d !! k = Some v -> size d <> 0%nat.
Proof. intros H Hs. apply map_size_empty_iff in Hs. by subst. Qed.

Lemma historical_load_data_eq env engine location_info reading_data w :
  historical_backfill.load_data env engine location_info reading_data w
  = match default ∅ (heap w !! reading_data) !! "reading_date" with
    | Some _ => load_outcome env location_info reading_data w
    | None => (Raise KeyError, w)
    end.
Proof.
  unfold historical_backfill.load_data, load_outcome, resolve_location.
  unfold_M.
  destruct (default ∅ (heap w !! reading_data) !! "reading_date") as [v|] eqn:Hv;
    [|done].
  apply size_nonzero_lookup, Nat.eqb_neq in Hv as ->.
  destruct w as [d c seq h t]; simpl in *.
  destruct (store.select_ids _ _ d) as [|i [|j rest]]; simpl; [| |done].
  - rewrite lookup_insert_eq. simpl.
    destruct (bind_reading _) as [r|e] eqn:Hb; simpl; [|done].
    by destruct (store_accepts env r).
  - destruct (negb (Z.eqb i 0)); simpl.
    + rewrite lookup_insert_eq. simpl.
      destruct (bind_reading _) as [r|e] eqn:Hb; simpl; [|done].
      by destruct (store_accepts env r).
    + rewrite lookup_insert_eq. simpl.
      destruct (bind_reading _) as [r|e] eqn:Hb; simpl; [|done].
      by destruct (store_accepts env r).
Qed.

(** ** The tables *)

Section tables.
Context {A K : Type} `{EqDecision K} (f : A -> K).

(** Under a unique index, a key selects at most one row. *)
Lemma filter_unique (l : list A) (k : K) :
  NoDup (map f l) ->
  filter (fun x => f x = k) l = []
  \/ exists x, filter (fun x => f x = k) l = [x].
Proof.
  induction l as [|a l IH]; intros Hnd; [by left|].
  simpl in Hnd. apply NoDup_cons in Hnd as [Ha Hnd].
  rewrite filter_cons. destruct (decide (f a = k)) as [Hk|Hk].
  - right. exists a. f_equal.
    destruct (filter _ l) as [|b rest] eqn:Hf; [done|].
    assert (b ∈ filter (fun x => f x = k) l) as Hb by (rewrite Hf; by left).
    apply list_elem_of_filter in Hb as [Hb1 Hb2].
    exfalso. apply Ha. apply list_elem_of_fmap. exists b. by rewrite Hk, Hb1.
  - by apply IH.
Qed.

Lemma filter_none (l : list A) (k : K) :
  filter (fun x => f x = k) l = [] <-> k ∉ map f l.
Proof.
  split.
  - intros Hf Hin. apply list_elem_of_fmap in Hin as (x & -> & Hx).
    assert (x ∈ filter (fun y => f y = f x) l) as Hx'
      by (by apply list_elem_of_filter).
    rewrite Hf in Hx'. by apply elem_of_nil in Hx'.
  - intros Hin. destruct (filter _ l) as [|x rest] eqn:Hf; [done|].
    assert (x ∈ filter (fun y => f y = k) l) as Hx by (rewrite Hf; by left).
    apply list_elem_of_filter in Hx as [Hx1 Hx2].
    exfalso. apply Hin. apply list_elem_of_fmap. by exists x.
Qed.
End tables.

Lemma wf_initial_world : wf initial_world.
Proof. split; simpl; try constructor; lia. Qed.

Lemma wf_db_seq_mono d seq seq' : wf_db d seq -> seq <= seq' -> wf_db d seq'.
Proof.
  intros [] Hle. split; try done; [lia|].
  eapply Forall_impl; [done|]. simpl. lia.
Qed.

Lemma do_update_same_key (old r : store.reading_row) :
  store.key r = store.key old -> store.do_update old r = r.
Proof. destruct old, r. unfold store.key, store.do_update. simpl. by intros [= -> ->]. Qed.

Lemma insert_reading_keys r d :
  map store.key (store.daily_readings (store.insert_reading r d))
  = if existsb (store.same_key r) (store.daily_readings d)
    then map store.key (store.daily_readings d)
    else (map store.key (store.daily_readings d) ++ [store.key r])%list.
Proof.
  unfold store.insert_reading. simpl.
  destruct (existsb _ _); [|by rewrite map_app].
  rewrite map_map. apply map_ext. intros old.
  unfold store.same_key. case_bool_decide; [|done]. by rewrite do_update_same_key.
Qed.

Lemma existsb_same_key r rows :
  existsb (store.same_key r) rows = true <-> store.key r ∈ map store.key rows.
Proof.
  rewrite existsb_exists. split.
  - intros (x & Hin & Hk). apply bool_decide_eq_true in Hk. rewrite Hk.
    apply list_elem_of_fmap. exists x. split; [done|]. by apply list_elem_of_In.
  - intros Hin. apply list_elem_of_fmap in Hin as (x & Hk & Hin).
    exists x. split; [by apply list_elem_of_In|]. by apply bool_decide_eq_true.
Qed.

(** The upsert leaves one row under its key, the proposed one. *)
Lemma readings_at_insert_reading r d :
  NoDup (map store.key (store.daily_readings d)) ->
  store.readings_at (store.location_id r) (store.reading_date r)
    (store.insert_reading r d) = [r].
Proof.
  intros Hnd. unfold store.readings_at, store.insert_reading. simpl.
  change (store.location_id r, store.reading_date r) with (store.key r).
  destruct (existsb _ _) eqn:Hex.
  - apply existsb_same_key in Hex.
    set (rows := store.daily_readings d) in *. clearbody rows.
    induction rows as [|a rows IH]; [by apply elem_of_nil in Hex|].
    simpl in Hnd. apply NoDup_cons in Hnd as [Ha Hnd]. simpl.
    unfold store.same_key at 1. case_bool_decide as Hk.
    + rewrite do_update_same_key by done.
      rewrite filter_cons_True by done. f_equal.
      rewrite <- Hk in Ha. clear -Ha.
      induction rows as [|b rows IH]; [done|]. simpl.
      apply not_elem_of_cons in Ha as [Hb Ha].
      unfold store.same_key at 1. rewrite bool_decide_eq_false_2 by done.
      rewrite filter_cons_False by done. by apply IH.
    + rewrite filter_cons_False by done. apply IH; [done|].
      simpl in Hex. apply elem_of_cons in Hex as [Hex|Hex]; [done|done].
  - rewrite filter_app. simpl. rewrite filter_cons_True, filter_nil by done.
    assert (store.key r ∉ map store.key (store.daily_readings d)) as Hn.
    { intros Hin. apply existsb_same_key in Hin. congruence. }
    apply (filter_none store.key) in Hn. by rewrite Hn.
Qed.

Lemma insert_reading_wf r d seq :
  wf_db d seq ->
  store.location_id r ∈ map store.id (store.locations d) ->
  wf_db (store.insert_reading r d) seq.
Proof.
  intros [] Hr. split; try done.
  - rewrite insert_reading_keys. destruct (existsb _ _) eqn:Hex; [done|].
    apply NoDup_app. split_and!; [done| |apply NoDup_singleton].
    intros k Hk Hk'. apply list_elem_of_singleton in Hk' as ->.
    apply existsb_same_key in Hk. congruence.
  - unfold store.insert_reading. simpl. destruct (existsb _ _).
    + apply Forall_fmap. eapply Forall_impl; [done|]. simpl.
      intros old Hold. by destruct (store.same_key r old).
    + apply Forall_app. split; [done|]. by constructor.
Qed.

(** The find-or-create, whatever the content: the id it returns is the id
    of a row of that (city, country), no row is removed or changed, and no
    reading is touched. *)
Lemma resolve_location_sound location_info d seq i d' seq' :
  resolve_location location_info d seq = Ret (i, d', seq') ->
  i ∈ map store.id
        (store.locations_of (city location_info) (country location_info) d')
  /\ store.daily_readings d' = store.daily_readings d
  /\ (d' = d \/ d' = store.insert_location seq location_info d).
Proof.
  unfold resolve_location, store.select_ids, store.locations_of.
  destruct (filter _ (store.locations d)) as [|x [|y rest]] eqn:Hf; simpl;
    [| |discriminate].
  - intros [= <- <- <-]. simpl. split_and!; [|done|by right].
    rewrite filter_app, Hf. simpl. rewrite filter_cons_True by done. set_solver.
  - destruct (negb (Z.eqb (store.id x) 0)).
    + intros [= <- <- <-]. rewrite Hf. split_and!; [set_solver|done|by left].
    + intros [= <- <- <-]. simpl. split_and!; [|done|by right].
      rewrite filter_app, Hf. simpl. rewrite filter_cons_True by done. set_solver.
Qed.

(** The find-or-create on a well-formed store: it does not raise, it
    returns the id of the one row of the (city, country), and it adds a row
    only when there was none. *)
Lemma resolve_location_wf location_info d seq :
  wf_db d seq ->
  exists i d' seq' r,
    resolve_location location_info d seq = Ret (i, d', seq')
    /\ wf_db d' seq' /\ seq <= seq'
    /\ store.locations_of (city location_info) (country location_info) d' = [r]
    /\ store.id r = i
    /\ ((d' = d /\ seq' = seq)
        \/ (store.locations_of (city location_info) (country location_info) d = []
            /\ d' = store.insert_location seq location_info d
            /\ i = seq /\ seq' = seq + 1)).
Proof.
  intros Hwf. pose proof Hwf as [Hseq Hids Hnd Hpl Hk Hrefs].
  unfold resolve_location, store.select_ids, store.locations_of.
  destruct (filter_unique store.place (store.locations d)
              (city location_info, country location_info) Hpl) as [Hf|[x Hf]];
    rewrite Hf; simpl.
  - eexists _, _, _, _. split; [reflexivity|]. split_and!.
    + split; simpl; try done; [lia| | | |].
      * apply Forall_app. split; [|constructor; [simpl; lia|constructor]].
        eapply Forall_impl; [done|]. simpl. lia.
      * rewrite map_app. apply NoDup_app. split_and!; [done| |apply NoDup_singleton].
        intros j Hj Hj'. apply list_elem_of_singleton in Hj'. simpl in Hj'. subst j.
        apply list_elem_of_fmap in Hj as (y & Hy & Hin).
        rewrite Forall_forall in Hids. apply Hids in Hin. lia.
      * rewrite map_app. apply NoDup_app. split_and!; [done| |apply NoDup_singleton].
        intros p Hp Hp'. apply list_elem_of_singleton in Hp'. subst p.
        by apply (filter_none store.place) in Hf.
      * eapply Forall_impl; [done|]. simpl. intros rd Hrd.
        rewrite map_app. apply elem_of_app. by left.
    + lia.
    + unfold store.insert_location. simpl.
      rewrite filter_app, Hf. simpl. by rewrite filter_cons_True.
    + done.
    + right. done.
  - assert (x ∈ store.locations d) as Hx.
    { assert (x ∈ filter (fun r => store.place r = (city location_info, country location_info))
                (store.locations d)) as Hx by (rewrite Hf; by left).
      by apply list_elem_of_filter in Hx as [_ Hx]. }
    rewrite Forall_forall in Hids. pose proof (Hids x Hx) as Hpos.
    assert (negb (Z.eqb (store.id x) 0) = true) as ->.
    { apply negb_true_iff, Z.eqb_neq. lia. }
    eexists _, _, _, _. split; [reflexivity|]. split_and!; try done.
    by left.
Qed.

(** What [load_data] leaves of a well-formed store, whether it returns or
    raises. *)
Lemma load_outcome_wf env location_info reading_data w :
  wf w -> wf (load_outcome env location_info reading_data w).2.
Proof.
  unfold wf, load_outcome. intros Hwf.
  destruct (resolve_location_wf location_info _ _ Hwf)
    as (i & d' & seq' & r & -> & Hwf' & Hle & Hloc & Hid & _).
  assert (wf_db (db w) seq') as Hwf0 by (by eapply wf_db_seq_mono).
  destruct (bind_reading _) as [row|e] eqn:Hb; simpl; [|done].
  destruct (store_accepts env row); simpl; [|done].
  apply insert_reading_wf; [done|].
  assert (store.location_id row = i) as ->.
  { unfold bind_reading in Hb. bind_inv Hb.
    unfold param in E. rewrite lookup_insert_eq in E. injection E as <-.
    destruct x0; try discriminate. by injection Hb as <-. }
  subst i. apply list_elem_of_fmap. exists r. split; [done|].
  assert (r ∈ store.locations_of (city location_info) (country location_info) d')
    as Hr by (rewrite Hloc; by left).
  by apply list_elem_of_filter in Hr as [_ Hr].
Qed.

(** A call that returns went through the whole [with] block, unless the
    reading was empty. *)
Lemma load_data_of_Ret s env engine location_info reading_data w w' :
  load_data_of s env engine location_info reading_data w = (Ret tt, w') ->
  size (dict_at w reading_data) <> 0%nat ->
  load_outcome env location_info reading_data w = (Ret tt, w').
Proof.
  intros H Hsize. destruct s; simpl in H.
  - by rewrite etl_load_data_eq in H.
  - rewrite historical_load_data_eq in H.
    by destruct (default ∅ (heap w !! reading_data) !! "reading_date").
Qed.

(** A call either is the [with] block or leaves the world as it is. *)
Lemma load_data_of_cases s env engine location_info reading_data w :
  load_data_of s env engine location_info reading_data w
    = load_outcome env location_info reading_data w
  \/ exists r, load_data_of s env engine location_info reading_data w = (r, w).
Proof.
  destruct s; simpl.
  - destruct (decide (size (dict_at w reading_data) = 0%nat)) as [Hs|Hs].
    + right. exists (Ret tt). unfold etl.load_data. unfold_M.
      unfold dict_at in Hs. by rewrite Hs.
    + left. by apply etl_load_data_eq.
  - rewrite historical_load_data_eq.
    destruct (default ∅ (heap w !! reading_data) !! "reading_date"); eauto.
Qed.

Lemma load_outcome_Ret env location_info reading_data w w' :
  load_outcome env location_info reading_data w = (Ret tt, w') ->
  exists i d' seq' row,
    resolve_location location_info (db w) (locations_id_seq w) = Ret (i, d', seq')
    /\ bind_reading (<["location_id" := VInt i]> (dict_at w reading_data)) = Ret row
    /\ store_accepts env row = true
    /\ store.location_id row = i
    /\ db w' = store.insert_reading row d'
    /\ heap w' = <[reading_data := <["location_id" := VInt i]> (dict_at w reading_data)]> (heap w)
    /\ trace w' = trace w.
Proof.
  unfold load_outcome, dict_at.
  destruct (resolve_location _ _ _) as [[[i d'] seq']|e]; [|discriminate].
  destruct (bind_reading _) as [row|e] eqn:Hb; [|discriminate].
  destruct (store_accepts env row) eqn:Hacc; [|discriminate].
  intros [= <-]. exists i, d', seq', row. split_and!; try done.
  unfold bind_reading in Hb. bind_inv Hb.
  unfold param in E. rewrite lookup_insert_eq in E. injection E as <-.
  destruct x0; try discriminate. by injection Hb as <-.
Qed.

Lemma load_outcome_Raise env location_info reading_data w e w' :
  load_outcome env location_info reading_data w = (Raise e, w') ->
  db w' = db w /\ trace w' = trace w.
Proof.
  unfold load_outcome.
  destruct (resolve_location _ _ _) as [[[i d'] seq']|e0]; [|by intros [= <- <-]].
  destruct (bind_reading _) as [row|e0]; [|by intros [= <- <-]].
  destruct (store_accepts env row); [discriminate | by intros [= <- <-]].
Qed.

(** The columns of the row made from the bind parameters. *)
Lemma bind_reading_columns params row :
  bind_reading params = Ret row ->
  params !! "location_id" = Some (VInt (store.location_id row))
  /\ params !! "reading_date" = Some (VDate (store.reading_date row))
  /\ params !! "aqi" = Some (store.aqi row)
  /\ params !! "pm10" = Some (store.pm10 row)
  /\ params !! "pm25" = Some (store.pm25 row)
  /\ params !! "o3" = Some (store.o3 row)
  /\ params !! "no2" = Some (store.no2 row)
  /\ params !! "co" = Some (store.co row)
  /\ params !! "so2" = Some (store.so2 row)
  /\ params !! "temperature_celsius" = Some (store.temperature_celsius row)
  /\ params !! "precipitation_mm" = Some (store.precipitation_mm row)
  /\ params !! "wind_speed_kmh" = Some (store.wind_speed_kmh row).
Proof.
  unfold bind_reading, param. intros H.
  repeat match type of H with
         | _ ≫= _ = Ret _ =>
             let a := fresh "x" in
             let H1 := fresh "E" in
             apply bind_Ret in H as (a & H1 & H);
             match type of H1 with
             | match ?o with Some _ => _ | None => _ end = _ =>
                 destruct o; [injection H1 as ->|discriminate H1]
             end
         end.
  destruct x; try discriminate. destruct x0; try discriminate.
  by injection H as <-.
Qed.

Lemma insert_reading_no_dangling r d :
  no_dangling d ->
  store.location_id r ∈ map store.id (store.locations d) ->
  no_dangling (store.insert_reading r d).
Proof.
  unfold no_dangling, store.insert_reading. simpl. intros Hd Hr.
  destruct (existsb _ _).
  - apply Forall_fmap. eapply Forall_impl; [done|]. simpl.
    intros old Hold. by destruct (store.same_key r old).
  - apply Forall_app. split; [done|]. by constructor.
Qed.

Lemma insert_reading_elem r d :
  r ∈ store.daily_readings (store.insert_reading r d).
Proof.
  unfold store.insert_reading. simpl. destruct (existsb _ _) eqn:Hex.
  - apply existsb_exists in Hex as (old & Hin & Hk).
    apply list_elem_of_fmap. exists old. rewrite Hk.
    apply bool_decide_eq_true in Hk. rewrite do_update_same_key by done.
    split; [done|]. by apply list_elem_of_In.
  - apply elem_of_app. right. by left.
Qed.

(** ** load_data: the upsert, the mutation, the transaction *)

(** C3.  On a well-formed store, a call of [load_data] that returns leaves
    exactly one row under the (location_id, reading_date) of the reading,
    and each of the ten other columns of that row is the value the reading
    had for it, null included.  Upserting aqi=5 and then aqi=null for the
    same location and date leaves aqi null; upserting the same reading
    twice leaves one row. *)
Theorem upsert_replaces_row :
  (forall s env engine location_info reading_data w w',
     wf w ->
     size (dict_at w reading_data) <> 0%nat ->
     load_data_of s env engine location_info reading_data w = (Ret tt, w') ->
     exists row,
       store.readings_at (store.location_id row) (store.reading_date row) (db w')
         = [row]
       /\ dict_at w' reading_data !! "location_id"
            = Some (VInt (store.location_id row))
       /\ dict_at w reading_data !! "reading_date"
            = Some (VDate (store.reading_date row))
       /\ dict_at w reading_data !! "aqi" = Some (store.aqi row)
       /\ dict_at w reading_data !! "pm10" = Some (store.pm10 row)
       /\ dict_at w reading_data !! "pm25" = Some (store.pm25 row)
       /\ dict_at w reading_data !! "o3" = Some (store.o3 row)
       /\ dict_at w reading_data !! "no2" = Some (store.no2 row)
       /\ dict_at w reading_data !! "co" = Some (store.co row)
       /\ dict_at w reading_data !! "so2" = Some (store.so2 row)
       /\ dict_at w reading_data !! "temperature_celsius"
            = Some (store.temperature_celsius row)
       /\ dict_at w reading_data !! "precipitation_mm"
            = Some (store.precipitation_mm row)
       /\ dict_at w reading_data !! "wind_speed_kmh"
            = Some (store.wind_speed_kmh row))
  /\ (forall s,
        map store.aqi
          (store.daily_readings (db (then_load s 1 (then_load s 0 two_readings))))
        = [VNone]
        /\ map store.aqi
             (store.daily_readings (db (then_load s 0 (then_load s 0 two_readings))))
           = [VInt 5]).
Proof.
  split; [|intros []; split; reflexivity].
  intros s env engine loc ref w w' Hwf Hsize H.
  apply load_data_of_Ret in H; [|done].
  apply load_outcome_Ret in H
    as (i & d' & seq' & row & Hres & Hb & _ & Hi & Hdb & Hheap & _).
  destruct (resolve_location_wf loc _ _ Hwf)
    as (i0 & d0 & seq0 & r & Hres' & Hwf' & _).
  rewrite Hres in Hres'. injection Hres' as <- <- <-.
  pose proof (bind_reading_columns _ _ Hb) as Hc. destruct_and!.
  exists row. split_and!; try (by simplify_map_eq).
  - rewrite Hdb. apply readings_at_insert_reading. by destruct Hwf'.
  - unfold dict_at at 1. rewrite Hheap, lookup_insert_eq. simpl.
    by rewrite lookup_insert_eq, Hi.
Qed.

Lemma returns_eq {A} (out : result A * world) (a : A) :
  out.1 = Ret a -> out = (Ret a, out.2).
Proof. destruct out as [r w]. simpl. by intros ->. Qed.

Ltac returns_by_evaluation :=
  match goal with
  | |- ?out = (Ret ?a, _) => exact (returns_eq out a eq_refl)
  end.

Lemma upsert_replaces_row_witness :
  wf (then_load Current 0 two_readings)
  /\ map store.aqi (store.daily_readings (db (then_load Current 0 two_readings)))
     = [VInt 5]
  /\ exists row,
       store.readings_at (store.location_id row) (store.reading_date row)
         (db (then_load Current 1 (then_load Current 0 two_readings))) = [row]
       /\ store.aqi row = VNone.
Proof.
  assert (wf (then_load Current 0 two_readings)) as Hwf.
  { split; simpl; repeat constructor; try lia; set_solver. }
  assert (size (dict_at (then_load Current 0 two_readings) 1) <> 0%nat) as Hsize
    by (vm_compute; lia).
  assert (load_data_of Current env_accepting engine_of_url savannah 1%nat
            (then_load Current 0 two_readings)
          = (Ret tt, then_load Current 1 (then_load Current 0 two_readings)))
    as Hload by returns_by_evaluation.
  split; [exact Hwf|]. split; [reflexivity|].
  destruct (proj1 upsert_replaces_row Current env_accepting engine_of_url
              savannah 1%nat (then_load Current 0 two_readings)
              (then_load Current 1 (then_load Current 0 two_readings))
              Hwf Hsize Hload) as (row & H1 & _ & _ & H2 & _).
  assert (dict_at (then_load Current 0 two_readings) 1 !! "aqi" = Some VNone)
    as H3 by (vm_compute; reflexivity).
  exists row. split; [exact H1|]. rewrite H3 in H2. by injection H2.
Defined.

(** C10.  A call of [load_data] that returns, on a reading that is not
    empty, has changed the caller's dictionary: it now holds the id of the
    location under 'location_id' (the id of a stored row of that city and
    country), every other key has the value it had, and no other
    dictionary has changed. *)
Theorem load_data_sets_location_id :
  forall s env engine location_info reading_data w w',
    size (dict_at w reading_data) <> 0%nat ->
    load_data_of s env engine location_info reading_data w = (Ret tt, w') ->
    exists i,
      heap w' !! reading_data
        = Some (<["location_id" := VInt i]> (dict_at w reading_data))
      /\ dict_at w' reading_data !! "location_id" = Some (VInt i)
      /\ (forall k, k <> "location_id" ->
            dict_at w' reading_data !! k = dict_at w reading_data !! k)
      /\ (forall r, r <> reading_data -> heap w' !! r = heap w !! r)
      /\ i ∈ map store.id
               (store.locations_of (city location_info) (country location_info)
                  (db w')).
Proof.
  intros s env engine loc ref w w' Hsize H.
  apply load_data_of_Ret in H; [|done].
  apply load_outcome_Ret in H
    as (i & d' & seq' & row & Hres & Hb & _ & Hi & Hdb & Hheap & _).
  exists i. unfold dict_at at 2 3. rewrite Hheap. split_and!.
  - by rewrite lookup_insert_eq.
  - rewrite lookup_insert_eq. simpl. by rewrite lookup_insert_eq.
  - intros k Hk. rewrite lookup_insert_eq. simpl. by rewrite lookup_insert_ne.
  - intros r Hr. by rewrite lookup_insert_ne.
  - rewrite Hdb. by apply resolve_location_sound in Hres as (Hin & _).
Qed.

Lemma load_data_sets_location_id_witness :
  size (dict_at two_readings 0) <> 0%nat
  /\ exists i,
       heap (then_load Backfill 0 two_readings) !! 0%nat
         = Some (<["location_id" := VInt i]> (dict_at two_readings 0))
       /\ i ∈ map store.id
                (store.locations_of "Savannah" "USA"
                   (db (then_load Backfill 0 two_readings))).
Proof.
  assert (size (dict_at two_readings 0) <> 0%nat) as Hsize by (vm_compute; lia).
  split; [exact Hsize|].
  assert (load_data_of Backfill env_accepting engine_of_url savannah 0%nat
            two_readings = (Ret tt, then_load Backfill 0 two_readings)) as Hload
    by returns_by_evaluation.
  destruct (load_data_sets_location_id Backfill env_accepting engine_of_url
              savannah 0%nat two_readings (then_load Backfill 0 two_readings)
              Hsize Hload) as (i & H1 & _ & _ & _ & H2).
  exists i. split; [exact H1 | exact H2].
Defined.

(** C7.  The location find-or-create and the reading upsert of one call of
    [load_data] are committed together or not at all: after the call the
    store either is what it was, or holds both the location row and the
    reading row that points at it; a call that raises leaves the store as
    it was.  So a store without dangling readings never gets one. *)
Theorem load_data_is_atomic :
  forall s env engine location_info reading_data w,
    let out := load_data_of s env engine location_info reading_data w in
    (db out.2 = db w
     \/ (out.1 = Ret tt
         /\ exists row,
             row ∈ store.daily_readings (db out.2)
             /\ store.location_id row
                  ∈ map store.id
                      (store.locations_of (city location_info)
                         (country location_info) (db out.2))))
    /\ (forall e, out.1 = Raise e -> db out.2 = db w)
    /\ (no_dangling (db w) -> no_dangling (db out.2)).
Proof.
  intros s env engine loc ref w out. subst out.
  destruct (load_data_of_cases s env engine loc ref w) as [->|[r ->]];
    [|by split_and!; [left|..]].
  destruct (load_outcome env loc ref w) as [[[]|e] w'] eqn:H; simpl.
  - apply load_outcome_Ret in H
      as (i & d' & seq' & row & Hres & Hb & _ & Hi & Hdb & _).
    apply resolve_location_sound in Hres as (Hin & Hrd & Hd').
    split_and!; [right|done|].
    + split; [done|]. exists row. rewrite Hdb. split; [apply insert_reading_elem|].
      by rewrite Hi.
    + intros Hnd. rewrite Hdb.
      assert (i ∈ map store.id (store.locations d')) as Hi'.
      { apply list_elem_of_fmap in Hin as (x & -> & Hx).
        apply list_elem_of_filter in Hx as [_ Hx].
        apply list_elem_of_fmap. by exists x. }
      apply insert_reading_no_dangling; [|by rewrite Hi].
      destruct Hd' as [->| ->]; [done|].
      unfold no_dangling, store.insert_location. simpl.
      eapply Forall_impl; [exact Hnd|]. simpl. intros rd Hrd'.
      rewrite map_app. apply elem_of_app. by left.
  - apply load_outcome_Raise in H as [Hdb _].
    split_and!; [by left | done | by rewrite Hdb].
Qed.

Lemma load_data_is_atomic_witness :
  no_dangling (db two_readings)
  /\ no_dangling (db (then_load Current 0 two_readings)).
Proof.
  assert (no_dangling (db two_readings)) as H by constructor.
  split; [exact H|].
  exact (proj2 (proj2 (load_data_is_atomic Current env_accepting engine_of_url
                         savannah 0%nat two_readings)) H).
Defined.

(** ** Location resolution across calls *)

Lemma locations_of_insert_reading c k row d :
  store.locations_of c k (store.insert_reading row d) = store.locations_of c k d.
Proof. done. Qed.

(** A call keeps the row of a (city, country) that has one. *)
Lemma load_outcome_locations env location_info reading_data w c k r :
  wf w ->
  store.locations_of c k (db w) = [r] ->
  store.locations_of c k (db (load_outcome env location_info reading_data w).2) = [r].
Proof.
  unfold wf, load_outcome. intros Hwf Hr.
  destruct (resolve_location_wf location_info _ _ Hwf)
    as (i & d' & seq' & r' & -> & _ & _ & _ & _ & Hd').
  assert (store.locations_of c k d' = [r]) as Hr'.
  { destruct Hd' as [[-> _]|(Hnone & -> & _)]; [done|].
    unfold store.locations_of, store.insert_location in *. simpl.
    rewrite filter_app, Hr. simpl. rewrite filter_cons.
    destruct (decide _) as [Heq|]; [|by rewrite filter_nil].
    unfold store.place in Heq. simpl in Heq. injection Heq as <- <-.
    rewrite Hnone in Hr. discriminate. }
  destruct (bind_reading _) as [row|e]; simpl; [|done].
  by destruct (store_accepts env row).
Qed.

Lemma step_preserves env w w' :
  step env w w' -> wf w ->
  wf w'
  /\ forall c k r, store.locations_of c k (db w) = [r] ->
                   store.locations_of c k (db w') = [r].
Proof.
  intros [s engine loc ref w0|w0 w0' Hdb Hseq] Hwf.
  - destruct (load_data_of_cases s env engine loc ref w0) as [->|[r ->]];
      [|done].
    split; [by apply load_outcome_wf|].
    intros c k r. by apply load_outcome_locations.
  - unfold wf. rewrite Hdb, Hseq. by split.
Qed.

Lemma steps_preserve env w w' :
  rtc (step env) w w' -> wf w ->
  wf w'
  /\ forall c k r, store.locations_of c k (db w) = [r] ->
                   store.locations_of c k (db w') = [r].
Proof.
  induction 1 as [w|w w1 w2 Hstep _ IH]; intros Hwf; [done|].
  destruct (step_preserves _ _ _ Hstep Hwf) as [Hwf1 Hl1].
  destruct (IH Hwf1) as [Hwf2 Hl2]. split; [done|]. auto.
Qed.

(** A call that returns, on a well-formed store. *)
Lemma load_data_of_resolves s env engine location_info reading_data w w' :
  wf w ->
  size (dict_at w reading_data) <> 0%nat ->
  load_data_of s env engine location_info reading_data w = (Ret tt, w') ->
  exists r,
    store.locations_of (city location_info) (country location_info) (db w') = [r]
    /\ dict_at w' reading_data !! "location_id" = Some (VInt (store.id r))
    /\ (forall r0,
          store.locations_of (city location_info) (country location_info) (db w)
            = [r0] -> r0 = r)
    /\ wf w'.
Proof.
  intros Hwf Hsize H. apply load_data_of_Ret in H; [|done].
  pose proof (load_outcome_wf env location_info reading_data w Hwf) as Hwf'.
  rewrite H in Hwf'. simpl in Hwf'.
  apply load_outcome_Ret in H
    as (i & d' & seq' & row & Hres & _ & _ & _ & Hdb & Hheap & _).
  destruct (resolve_location_wf location_info _ _ Hwf)
    as (i0 & d0 & seq0 & r & Hres' & _ & _ & Hloc & Hid & Hd').
  rewrite Hres in Hres'. injection Hres' as <- <- <-.
  exists r. split_and!; [by rewrite Hdb| | |done].
  - unfold dict_at. rewrite Hheap, lookup_insert_eq. simpl.
    by rewrite lookup_insert_eq, Hid.
  - intros r0 Hr0. destruct Hd' as [[-> _]|(Hnone & _)]; [|congruence].
    rewrite Hr0 in Hloc. by injection Hloc.
Qed.

(** C4.  In a sequential run on a well-formed store, two calls of
    [load_data] (of either script, with whatever happens in between) for
    the same city and country that both return resolve to the same
    location id, that (city, country) has one row after each of them, and
    after each of them every stored reading points at a stored location. *)
Theorem location_resolution_is_stable :
  forall env s1 s2 engine1 engine2 location1 location2 reading1 reading2
         w w1 w1' w2,
    wf w ->
    city location1 = city location2 ->
    country location1 = country location2 ->
    size (dict_at w reading1) <> 0%nat ->
    load_data_of s1 env engine1 location1 reading1 w = (Ret tt, w1) ->
    rtc (step env) w1 w1' ->
    size (dict_at w1' reading2) <> 0%nat ->
    load_data_of s2 env engine2 location2 reading2 w1' = (Ret tt, w2) ->
    exists r,
      dict_at w1 reading1 !! "location_id" = Some (VInt (store.id r))
      /\ dict_at w2 reading2 !! "location_id" = Some (VInt (store.id r))
      /\ store.locations_of (city location1) (country location1) (db w1) = [r]
      /\ store.locations_of (city location1) (country location1) (db w2) = [r]
      /\ no_dangling (db w1)
      /\ no_dangling (db w2).
Proof.
  intros env s1 s2 e1 e2 l1 l2 r1 r2 w w1 w1' w2 Hwf Hc Hk Hs1 H1 Hsteps Hs2 H2.
  destruct (load_data_of_resolves _ _ _ _ _ _ _ Hwf Hs1 H1)
    as (r & Hloc1 & Hid1 & _ & Hwf1).
  destruct (steps_preserve _ _ _ Hsteps Hwf1) as [Hwf1' Hkeep].
  destruct (load_data_of_resolves _ _ _ _ _ _ _ Hwf1' Hs2 H2)
    as (r' & Hloc2 & Hid2 & Hsame & Hwf2).
  rewrite <- Hc, <- Hk in Hloc2, Hsame.
  assert (r = r') as <- by (apply Hsame, Hkeep, Hloc1).
  exists r. split_and!; try done.
  - by destruct Hwf1.
  - by destruct Hwf2.
Qed.

Lemma location_resolution_is_stable_witness :
  exists r,
    dict_at (then_load Current 0 two_readings) 0 !! "location_id"
      = Some (VInt (store.id r))
    /\ dict_at (then_load Backfill 1 (then_load Current 0 two_readings)) 1
         !! "location_id" = Some (VInt (store.id r))
    /\ store.locations_of "Savannah" "USA"
         (db (then_load Backfill 1 (then_load Current 0 two_readings))) = [r].
Proof.
  assert (wf two_readings) as Hwf by (split; simpl; try constructor; lia).
  assert (size (dict_at two_readings 0) <> 0%nat) as Hs1 by (vm_compute; lia).
  assert (size (dict_at (then_load Current 0 two_readings) 1) <> 0%nat) as Hs2
    by (vm_compute; lia).
  assert (load_data_of Current env_accepting engine_of_url savannah 0%nat
            two_readings = (Ret tt, then_load Current 0 two_readings)) as Hload1
    by returns_by_evaluation.
  assert (load_data_of Backfill env_accepting engine_of_url savannah 1%nat
            (then_load Current 0 two_readings)
          = (Ret tt, then_load Backfill 1 (then_load Current 0 two_readings)))
    as Hload2 by returns_by_evaluation.
  destruct (location_resolution_is_stable env_accepting Current Backfill
              engine_of_url engine_of_url savannah savannah 0%nat 1%nat
              two_readings (then_load Current 0 two_readings)
              (then_load Current 0 two_readings)
              (then_load Backfill 1 (then_load Current 0 two_readings))
              Hwf eq_refl eq_refl Hs1 Hload1 (rtc_refl _ _) Hs2 Hload2)
    as (r & H1 & H2 & _ & H3 & _).
  exists r. split; [exact H1|]. split; [exact H2 | exact H3].
Defined.

(** ** The run loops *)

Lemma outcome_eq {A} (out : result A * world) (r : result A) :
  out.1 = r -> out = (r, out.2).
Proof. destruct out as [r' w]. simpl. by intros ->. Qed.

Ltac by_evaluation :=
  match goal with
  | |- ?out = (?r, _) => exact (outcome_eq out r eq_refl)
  end.

Lemma for_each_app {A} (l1 l2 : list A) (body : A -> M unit) w :
  for_each (l1 ++ l2) body w
  = match for_each l1 body w with
    | (Ret _, w1) => for_each l2 body w1
    | (Raise e, w1) => (Raise e, w1)
    end.
Proof.
  revert w. induction l1 as [|x l1 IH]; intros w; simpl; [done|].
  unfold mbind, M_bind. destruct (body x w) as [[[]|e] w1]; [apply IH|done].
Qed.

(** A loop stops at the first body that raises. *)
Lemma for_each_raises {A} (before after : list A) (x : A) (body : A -> M unit)
    w w1 e w2 :
  for_each before body w = (Ret tt, w1) ->
  body x w1 = (Raise e, w2) ->
  for_each (before ++ x :: after) body w = (Raise e, w2).
Proof.
  intros H1 H2. rewrite for_each_app, H1. simpl.
  unfold mbind, M_bind. by rewrite H2.
Qed.

Lemma etl_merge_db env location w :
  db (etl_merge env location w).2 = db w.
Proof.
  unfold etl_merge, etl.fetch_air_quality_data, etl.fetch_weather_data.
  unfold_M. destruct (no_key _); simpl;
    repeat (match goal with
            | |- context [match ?x with _ => _ end] => destruct x
            end; simpl); done.
Qed.

Lemma backfill_merge_db env date_to_fetch location w :
  db (backfill_merge env date_to_fetch location w).2 = db w.
Proof.
  unfold backfill_merge, historical_backfill.fetch_historical_aqi_data,
    historical_backfill.fetch_weather_data.
  unfold_M. destruct (no_key _); simpl;
    repeat (match goal with
            | |- context [match ?x with _ => _ end] => destruct x
            end; simpl); done.
Qed.

Lemma etl_process_location_eq env engine location w :
  etl.process_location env engine location w
  = (o ← etl_merge env location;
     match o with
     | Some reading => etl.load_data env engine location reading
     | None => mret tt
     end) w.
Proof.
  unfold etl.process_location, etl_merge. unfold mbind, M_bind.
  destruct (etl.fetch_air_quality_data _ _ _ w) as [[a|e] w1]; [|done].
  destruct (etl.fetch_weather_data _ _ _ w1) as [[wd|e] w2]; [|done].
  destruct (lift _ w2) as [[[d|]|e] w3]; try done.
  destruct (Nat.eqb (size d) 0); [done|].
  by destruct (alloc d w3) as [[r|e] w4].
Qed.

Lemma backfill_process_location_eq env engine date_to_fetch location w :
  historical_backfill.process_location env engine date_to_fetch location w
  = (o ← backfill_merge env date_to_fetch location;
     match o with
     | Some reading => historical_backfill.load_data env engine location reading
     | None => mret tt
     end;;
     emit Sleep) w.
Proof.
  unfold historical_backfill.process_location, backfill_merge.
  unfold mbind, M_bind.
  destruct (historical_backfill.fetch_historical_aqi_data _ _ _ _ w)
    as [[a|e] w1]; [|done].
  destruct (historical_backfill.fetch_weather_data _ _ _ _ w1)
    as [[wd|e] w2]; [|done].
  destruct (lift _ w2) as [[[d|]|e] w3]; try done.
  destruct (Nat.eqb (size d) 0); [done|].
  by destruct (alloc d w3) as [[r|e] w4].
Qed.

Lemma load_data_of_Raise s env engine location_info reading_data w e w' :
  load_data_of s env engine location_info reading_data w = (Raise e, w') ->
  db w' = db w.
Proof.
  intros H.
  destruct (load_data_of_cases s env engine location_info reading_data w)
    as [Hc|[r Hc]]; rewrite Hc in H.
  - by apply load_outcome_Raise in H as [? _].
  - by injection H as _ <-.
Qed.

(** ** A persistence error in the run *)

(** C1, the run that refutes it: the upsert of the second of the three
    locations raises; the run ends with that error, Pooler is never
    fetched and nothing of it is stored. *)
Lemma persistence_error_stops_the_run :
  (etl.load_data env_nested engine_of_url port_wentworth 1 merged_port_wentworth).1
    = Raise DBAPIError
  /\ (etl.main env_nested initial_world).1 = Raise DBAPIError
  /\ trace (etl.main env_nested initial_world).2
     = [AqiRequest (320809 # 10000) (- (810912 # 10000)) None;
        WeatherRequest (320809 # 10000) (- (810912 # 10000)) None;
        AqiRequest (3217 # 100) (- (8117 # 100)) None;
        WeatherRequest (3217 # 100) (- (8117 # 100)) None]
  /\ map store.row_city (store.locations (db (etl.main env_nested initial_world).2))
     = ["Savannah"]
  /\ map store.location_id
       (store.daily_readings (db (etl.main env_nested initial_world).2))
     = [1]
  /\ Forall (fun ev =>
               ev <> AqiRequest (latitude pooler) (longitude pooler) None
               /\ ev <> WeatherRequest (latitude pooler) (longitude pooler) None)
       (trace (etl.main env_nested initial_world).2).
Proof.
  split_and!; try reflexivity.
  repeat constructor; discriminate.
Qed.

(** C1, amended.  An error raised inside [load_data] for one unit of work
    is not caught: the run ends with it there.  The units before it keep
    their effects, the unit itself leaves nothing in the store, and no
    later unit is fetched, merged or upserted (the world at the end is the
    world the failing call left). *)
Theorem load_error_ends_the_run :
  (forall env engine before location after w w1 reading w1' e w2,
     etl.run env engine before w = (Ret tt, w1) ->
     etl_merge env location w1 = (Ret (Some reading), w1') ->
     etl.load_data env engine location reading w1' = (Raise e, w2) ->
     etl.run env engine (before ++ location :: after) w = (Raise e, w2)
     /\ db w2 = db w1)
  /\ (forall env engine days days_before i days_after before location after
             w w0 w1 reading w1' e w2,
        historical_backfill.range_down days = days_before ++ i :: days_after ->
        for_each days_before
          (fun j => for_each (before ++ location :: after)
                      (historical_backfill.process_location env engine
                         (minus_days (now env) j))) w = (Ret tt, w0) ->
        for_each before
          (historical_backfill.process_location env engine
             (minus_days (now env) i)) w0 = (Ret tt, w1) ->
        backfill_merge env (minus_days (now env) i) location w1
          = (Ret (Some reading), w1') ->
        historical_backfill.load_data env engine location reading w1'
          = (Raise e, w2) ->
        historical_backfill.run env engine days (before ++ location :: after) w
          = (Raise e, w2)
        /\ db w2 = db w1).
Proof.
  split.
  - intros env engine before location after w w1 reading w1' e w2 Hrun Hm Hl.
    split.
    + unfold etl.run. eapply for_each_raises; [exact Hrun|].
      rewrite etl_process_location_eq. unfold mbind, M_bind. by rewrite Hm.
    + apply (load_data_of_Raise Current) in Hl. rewrite Hl.
      pose proof (etl_merge_db env location w1) as Hdb. by rewrite Hm in Hdb.
  - intros env engine days dbefore i dafter before location after
      w w0 w1 reading w1' e w2 Hdays Hout Hin Hm Hl.
    split.
    + unfold historical_backfill.run. rewrite Hdays.
      eapply for_each_raises; [exact Hout|].
      eapply for_each_raises; [exact Hin|].
      rewrite backfill_process_location_eq. unfold mbind, M_bind.
      by rewrite Hm, Hl.
    + apply (load_data_of_Raise Backfill) in Hl. rewrite Hl.
      pose proof (backfill_merge_db env (minus_days (now env) i) location w1)
        as Hdb. by rewrite Hm in Hdb.
Qed.

Lemma load_error_ends_the_run_witness :
  (etl.run env_nested engine_of_url ([savannah] ++ port_wentworth :: [pooler])
     initial_world).1 = Raise DBAPIError
  /\ db (etl.load_data env_nested engine_of_url port_wentworth 1
           merged_port_wentworth).2
     = db after_savannah.
Proof.
  assert (etl.run env_nested engine_of_url [savannah] initial_world
          = (Ret tt, after_savannah)) as H1 by by_evaluation.
  assert (etl_merge env_nested port_wentworth after_savannah
          = (Ret (Some 1%nat), merged_port_wentworth)) as H2 by by_evaluation.
  assert (etl.load_data env_nested engine_of_url port_wentworth 1
            merged_port_wentworth
          = (Raise DBAPIError,
             (etl.load_data env_nested engine_of_url port_wentworth 1
                merged_port_wentworth).2)) as H3 by by_evaluation.
  destruct (proj1 load_error_ends_the_run env_nested engine_of_url [savannah]
              port_wentworth [pooler] initial_world _ _ _ _ _ H1 H2 H3)
    as [Hrun Hdb].
  split; [by rewrite Hrun | exact Hdb].
Defined.

(** ** A run without the API key *)

(** C6, the run that refutes it: without the key the run is not halted
    before any fetch; it goes through the three locations and sends the
    weather request of each. *)
Lemma missing_key_run_still_fetches :
  GOOGLE_API_KEY env_no_key = None
  /\ (etl.main env_no_key initial_world).1 = Ret tt
  /\ trace (etl.main env_no_key initial_world).2
     = [WeatherRequest (320809 # 10000) (- (810912 # 10000)) None;
        WeatherRequest (3217 # 100) (- (8117 # 100)) None;
        WeatherRequest (3211 # 100) (- (8125 # 100)) None]
  /\ db (etl.main env_no_key initial_world).2 = store.empty.
Proof. split_and!; reflexivity. Qed.

Lemma with_trace_with_trace t1 t2 w :
  with_trace t2 (with_trace t1 w) = with_trace t2 w.
Proof. done. Qed.

Lemma with_trace_id w : with_trace (trace w ++ []) w = w.
Proof. destruct w. unfold with_trace. simpl. by rewrite app_nil_r. Qed.

Lemma etl_process_location_no_key env engine location w :
  no_key (GOOGLE_API_KEY env) = true ->
  etl.process_location env engine location w
  = (Ret tt, with_trace (trace w ++ etl_events_no_key location) w).
Proof.
  intros Hk. unfold etl.process_location, etl.fetch_air_quality_data,
    etl.fetch_weather_data. rewrite Hk. by unfold_M.
Qed.

Lemma backfill_process_location_no_key env engine d location w :
  no_key (GOOGLE_API_KEY env) = true ->
  historical_backfill.process_location env engine d location w
  = (Ret tt,
     with_trace (trace w ++ backfill_events_no_key (dt_day d) location) w).
Proof.
  intros Hk. unfold historical_backfill.process_location,
    historical_backfill.fetch_historical_aqi_data,
    historical_backfill.fetch_weather_data. rewrite Hk. unfold_M.
  by rewrite <- app_assoc.
Qed.

(** A loop whose bodies only add events. *)
Lemma for_each_events {A} (l : list A) (body : A -> M unit)
    (events : A -> list event) :
  (forall x w, body x w = (Ret tt, with_trace (trace w ++ events x) w)) ->
  forall w, for_each l body w
            = (Ret tt, with_trace (trace w ++ flat_map events l) w).
Proof.
  intros Hbody. induction l as [|x l IH]; intros w; simpl.
  - unfold mret, M_ret. by rewrite with_trace_id.
  - unfold mbind, M_bind. rewrite Hbody, IH. simpl.
    by rewrite with_trace_with_trace, <- app_assoc.
Qed.

(** C6, amended.  Without the API key the run is not halted: every unit of
    work is visited and the run ends normally.  No unit sends an
    air-quality request or upserts anything (the merge gets a null and
    returns null), but each unit still sends its weather request: the world
    at the end differs from the world at the start by those requests only,
    and by the pauses of the backfill. *)
Theorem missing_key_skips_every_upsert :
  (forall env engine locations w,
     no_key (GOOGLE_API_KEY env) = true ->
     etl.run env engine locations w
     = (Ret tt,
        with_trace (trace w ++ flat_map etl_events_no_key locations) w))
  /\ (forall env engine days locations w,
        no_key (GOOGLE_API_KEY env) = true ->
        historical_backfill.run env engine days locations w
        = (Ret tt,
           with_trace
             (trace w ++
              flat_map (fun i => flat_map
                                   (backfill_events_no_key (dt_day (now env) - i))
                                   locations)
                (historical_backfill.range_down days)) w)).
Proof.
  split.
  - intros env engine locations w Hk. unfold etl.run.
    apply for_each_events. intros l w'. by apply etl_process_location_no_key.
  - intros env engine days locations w Hk. unfold historical_backfill.run.
    apply (for_each_events _ _
             (fun i => flat_map (backfill_events_no_key (dt_day (now env) - i))
                         locations)).
    intros i w'. apply for_each_events. intros l w''.
    by apply backfill_process_location_no_key.
Qed.

Lemma missing_key_skips_every_upsert_witness :
  no_key (GOOGLE_API_KEY env_no_key) = true
  /\ etl.run env_no_key engine_of_url LOCATIONS initial_world
     = (Ret tt,
        with_trace (trace initial_world ++ flat_map etl_events_no_key LOCATIONS)
          initial_world)
  /\ historical_backfill.run env_no_key engine_of_url 2 [savannah] initial_world
     = (Ret tt,
        with_trace
          (trace initial_world ++
           [WeatherRequest (320809 # 10000) (- (810912 # 10000)) (Some 5); Sleep;
            WeatherRequest (320809 # 10000) (- (810912 # 10000)) (Some 6); Sleep])
          initial_world).
Proof.
  assert (no_key (GOOGLE_API_KEY env_no_key) = true) as Hk by reflexivity.
  split; [exact Hk|]. split.
  - exact (proj1 missing_key_skips_every_upsert env_no_key engine_of_url
             LOCATIONS initial_world Hk).
  - exact (proj2 missing_key_skips_every_upsert env_no_key engine_of_url
             2%nat [savannah] initial_world Hk).
Defined.




(** * Further properties of the scripts *)

(** ** The current-conditions merge, field by field *)

(** Everything [transform_data] computed for a reading it returns. *)
Lemma etl_transform_data_inv now a w r :
  etl.transform_data now a w = Ret (Some r) ->
  exists index_items aqi_index aqi p_items pollutants temp precip wind,
    (py_get a "indexes" (VList []) ≫= py_iter) = Ret index_items
    /\ etl.next_uaqi index_items = Ret aqi_index
    /\ py_get aqi_index "aqi" VNone = Ret aqi
    /\ (py_get a "pollutants" (VList []) ≫= py_iter) = Ret p_items
    /\ pollutant_items p_items = Ret pollutants
    /\ weather_fields w temp precip wind
    /\ r = make_reading (date_of now) aqi
             (items_get "pm10" pollutants) (items_get "pm25" pollutants)
             (items_get "o3" pollutants) (items_get "no2" pollutants)
             (items_get "co" pollutants) (items_get "so2" pollutants)
             temp precip wind.
Proof.
  unfold etl.transform_data.
  destruct (negb (truthy a) || negb (truthy w)); [discriminate|].
  unfold try_except.
  match goal with |- context [match ?b with Ret _ => _ | Raise _ => _ end] =>
    destruct b as [o|e] eqn:E end;
    [|destruct (except_Key_Index_Type e); discriminate].
  intros [= ->].
  apply bind_Ret in E as (dw & Hdw & E).
  apply bind_Ret in E as (temp & Ht & E).
  apply bind_Ret in E as (precip & Hp & E).
  apply bind_Ret in E as (wind & Hw & E).
  apply bind_Ret in E as (indexes & Hix & E).
  apply bind_Ret in E as (index_items & Hii & E).
  apply bind_Ret in E as (aqi_index & Hai & E).
  apply bind_Ret in E as (aqi & Haqi & E).
  apply bind_Ret in E as (ps & Hps & E).
  apply bind_Ret in E as (p_items & Hpi & E).
  apply bind_Ret in E as (pollutants & Hpol & E).
  injection E as <-.
  exists index_items, aqi_index, aqi, p_items, pollutants, temp, precip, wind.
  split_and!; try done.
  - by rewrite Hix.
  - by rewrite Hps.
  - by exists dw.
Qed.

Lemma next_uaqi_first before item_kvs after :
  Forall (fun i => is_dict i = true /\ has_code "uaqi" i = false) before ->
  has_code "uaqi" (VDict item_kvs) = true ->
  etl.next_uaqi (before ++ VDict item_kvs :: after) = Ret (VDict item_kvs).
Proof.
  intros Hb Hi. induction Hb as [|i before [Hd Hc] _ IH]; simpl.
  - simpl in Hi. by rewrite Hi.
  - destruct i; try discriminate. simpl in *. by rewrite Hc.
Qed.

Lemma next_uaqi_none items :
  Forall (fun i => is_dict i = true /\ has_code "uaqi" i = false) items ->
  etl.next_uaqi items = Ret (VDict []).
Proof.
  induction 1 as [|i items [Hd Hc] _ IH]; simpl; [done|].
  destruct i; try discriminate. simpl in *. by rewrite Hc.
Qed.

(** X1.  The aqi of a reading of [transform_data] is the 'aqi' of the first
    entry of 'indexes' whose code is 'uaqi' (null if that entry has none):
    the entries after it are not looked at, whatever they are.  When no
    entry has that code, or 'indexes' is absent, the aqi is null. *)
Theorem etl_aqi_is_first_uaqi :
  (forall now akvs w r before item_kvs after,
     dict_get "indexes" akvs = Some (VList (before ++ VDict item_kvs :: after)) ->
     Forall (fun i => is_dict i = true /\ has_code "uaqi" i = false) before ->
     has_code "uaqi" (VDict item_kvs) = true ->
     etl.transform_data now (VDict akvs) w = Ret (Some r) ->
     r !! "aqi" = Some (default VNone (dict_get "aqi" item_kvs)))
  /\ (forall now akvs w r items,
        default (VList []) (dict_get "indexes" akvs) = VList items ->
        Forall (fun i => is_dict i = true /\ has_code "uaqi" i = false) items ->
        etl.transform_data now (VDict akvs) w = Ret (Some r) ->
        r !! "aqi" = Some VNone).
Proof.
  split.
  - intros now akvs w r before item_kvs after Hix Hb Hi H.
    apply etl_transform_data_inv in H
      as (ii & ai & aqi & pi & pol & t & p & wd & Hii & Hn & Ha & _ & _ & _ & ->).
    simpl in Hii. rewrite Hix in Hii. injection Hii as <-.
    rewrite (next_uaqi_first _ _ _ Hb Hi) in Hn. injection Hn as <-.
    injection Ha as <-. reflexivity.
  - intros now akvs w r items Hix Hb H.
    apply etl_transform_data_inv in H
      as (ii & ai & aqi & pi & pol & t & p & wd & Hii & Hn & Ha & _ & _ & _ & ->).
    simpl in Hii. rewrite Hix in Hii. injection Hii as <-.
    rewrite (next_uaqi_none _ Hb) in Hn. injection Hn as <-.
    injection Ha as <-. reflexivity.
Qed.

Lemma etl_aqi_is_first_uaqi_witness :
  exists r,
    etl.transform_data today7
      (VDict [("indexes",
               VList ([VDict [("code", VStr "usa_epa"); ("aqi", VInt 30)]]
                      ++ VDict [("code", VStr "uaqi"); ("aqi", VInt 42)]
                         :: [VInt 5]))])
      savannah_weather = Ret (Some r)
    /\ r !! "aqi" = Some (VInt 42).
Proof.
  eexists. split; [reflexivity|].
  apply (proj1 etl_aqi_is_first_uaqi today7
           [("indexes",
             VList ([VDict [("code", VStr "usa_epa"); ("aqi", VInt 30)]]
                    ++ VDict [("code", VStr "uaqi"); ("aqi", VInt 42)]
                       :: [VInt 5]))]
           savannah_weather _
           [VDict [("code", VStr "usa_epa"); ("aqi", VInt 30)]]
           [("code", VStr "uaqi"); ("aqi", VInt 42)] [VInt 5]).
  - reflexivity.
  - repeat constructor.
  - reflexivity.
  - reflexivity.
Defined.

Lemma items_find_app c l1 l2 :
  items_find c (l1 ++ l2)
  = match items_find c l2 with
    | Some v => Some v
    | None => items_find c l1
    end.
Proof.
  induction l1 as [|[k v] l1 IH]; simpl; [by destruct (items_find c l2)|].
  rewrite IH. by destruct (items_find c l2).
Qed.

Lemma pollutant_items_cons p back items :
  pollutant_items (p :: back) = Ret items ->
  exists rest,
    pollutant_items back = Ret rest
    /\ is_dict p = true
    /\ forall c,
         items_find c items
         = match items_find c rest with
           | Some v => Some v
           | None => if has_code c p then Some (concentration_value p) else None
           end.
Proof.
  simpl. intros H.
  apply bind_Ret in H as (code & Hcode & H).
  apply bind_Ret in H as (conc & Hconc & H).
  apply bind_Ret in H as (v & Hv & H).
  destruct (hashable code); [|discriminate].
  apply bind_Ret in H as (rest & Hrest & H). injection H as <-.
  exists rest. destruct p; try discriminate. simpl in Hcode, Hconc.
  injection Hcode as <-. injection Hconc as <-.
  split_and!; try done. intros c. simpl.
  destruct (default (VDict []) (dict_get "concentration" kvs)); try discriminate.
  simpl in Hv. by injection Hv as <-.
Qed.

Lemma pollutant_items_without c ps items :
  pollutant_items ps = Ret items ->
  Forall (fun q => has_code c q = false) ps ->
  items_find c items = None.
Proof.
  revert items. induction ps as [|p ps IH]; intros items H Hf.
  - by injection H as <-.
  - apply Forall_cons in Hf as [Hp Hf].
    apply pollutant_items_cons in H as (rest & Hrest & _ & Hfind).
    by rewrite Hfind, (IH rest Hrest Hf), Hp.
Qed.

Lemma pollutant_items_last c front p back items :
  pollutant_items (front ++ p :: back) = Ret items ->
  has_code c p = true ->
  Forall (fun q => has_code c q = false) back ->
  items_find c items = Some (concentration_value p).
Proof.
  revert items. induction front as [|q front IH]; intros items H Hp Hb.
  - apply pollutant_items_cons in H as (rest & Hrest & _ & Hfind).
    by rewrite Hfind, (pollutant_items_without _ _ _ Hrest Hb), Hp.
  - change ((q :: front) ++ p :: back) with (q :: (front ++ p :: back)) in H.
    apply pollutant_items_cons in H as (rest & Hrest & _ & Hfind).
    by rewrite Hfind, (IH rest Hrest Hp Hb).
Qed.

Lemma make_reading_pollutant d aqi f temp precip wind c :
  c ∈ POLLUTANTS ->
  make_reading d aqi (f "pm10") (f "pm25") (f "o3") (f "no2") (f "co") (f "so2")
    temp precip wind !! c = Some (f c).
Proof.
  unfold POLLUTANTS. intros H.
  repeat (apply elem_of_cons in H as [->|H]; [reflexivity|]).
  by apply elem_of_nil in H.
Qed.

(** X2.  In a reading of [transform_data], a pollutant is the concentration
    value of the last entry of 'pollutants' with its code: a later entry
    replaces an earlier one with the same code.  A pollutant that no entry
    has is null. *)
Theorem etl_pollutant_is_last_entry :
  (forall now akvs w r front p back c,
     dict_get "pollutants" akvs = Some (VList (front ++ p :: back)) ->
     c ∈ POLLUTANTS ->
     has_code c p = true ->
     Forall (fun q => has_code c q = false) back ->
     etl.transform_data now (VDict akvs) w = Ret (Some r) ->
     r !! c = Some (concentration_value p))
  /\ (forall now akvs w r ps c,
        default (VList []) (dict_get "pollutants" akvs) = VList ps ->
        c ∈ POLLUTANTS ->
        Forall (fun q => has_code c q = false) ps ->
        etl.transform_data now (VDict akvs) w = Ret (Some r) ->
        r !! c = Some VNone).
Proof.
  split.
  - intros now akvs w r front p back c Hps Hc Hp Hb H.
    apply etl_transform_data_inv in H
      as (ii & ai & aqi & pi & pol & t & pr & wd & _ & _ & _ & Hpi & Hpol & _ & ->).
    simpl in Hpi. rewrite Hps in Hpi. injection Hpi as <-.
    rewrite (make_reading_pollutant _ _ (fun c => items_get c pol)) by done.
    unfold items_get. by rewrite (pollutant_items_last _ _ _ _ _ Hpol Hp Hb).
  - intros now akvs w r ps c Hps Hc Hb H.
    apply etl_transform_data_inv in H
      as (ii & ai & aqi & pi & pol & t & pr & wd & _ & _ & _ & Hpi & Hpol & _ & ->).
    simpl in Hpi. rewrite Hps in Hpi. injection Hpi as <-.
    rewrite (make_reading_pollutant _ _ (fun c => items_get c pol)) by done.
    unfold items_get. by rewrite (pollutant_items_without _ _ _ Hpol Hb).
Qed.

Lemma etl_pollutant_is_last_entry_witness :
  exists r,
    etl.transform_data today7
      (VDict [("pollutants",
               VList ([VDict [("code", VStr "pm25");
                              ("concentration", VDict [("value", VInt 1)])]]
                      ++ VDict [("code", VStr "pm25");
                                ("concentration", VDict [("value", VInt 2)])]
                         :: [VDict [("code", VStr "o3")]]))])
      savannah_weather = Ret (Some r)
    /\ r !! "pm25" = Some (VInt 2).
Proof.
  eexists. split; [reflexivity|].
  apply (proj1 etl_pollutant_is_last_entry today7
           [("pollutants",
             VList ([VDict [("code", VStr "pm25");
                            ("concentration", VDict [("value", VInt 1)])]]
                    ++ VDict [("code", VStr "pm25");
                              ("concentration", VDict [("value", VInt 2)])]
                       :: [VDict [("code", VStr "o3")]]))]
           savannah_weather _
           [VDict [("code", VStr "pm25");
                   ("concentration", VDict [("value", VInt 1)])]]
           (VDict [("code", VStr "pm25");
                   ("concentration", VDict [("value", VInt 2)])])
           [VDict [("code", VStr "o3")]] "pm25").
  - reflexivity.
  - unfold POLLUTANTS. repeat constructor.
  - reflexivity.
  - repeat constructor.
  - reflexivity.
Defined.

(** ** The weather fields of both merges *)

Lemma first_of_series_dict dkvs s :
  match first_of_series (VDict dkvs) s with
  | Ret v => py_index0 (default (VList [VNone]) (dict_get s dkvs)) = Ret v
  | Raise e => py_index0 (default (VList [VNone]) (dict_get s dkvs)) = Raise e
               /\ except_Key_Index_Type e = true
  end.
Proof.
  unfold first_of_series. simpl.
  destruct (default (VList [VNone]) (dict_get s dkvs)) as [| | | | |str| |l|];
    simpl; try done.
  - by destruct str.
  - by destruct l.
Qed.

Lemma historical_transform_total d a w :
  exists o, historical_backfill.transform_historical_data d a w = Ret o.
Proof.
  unfold historical_backfill.transform_historical_data.
  destruct (negb (truthy a) || negb (truthy w)); [by eexists|].
  rewrite try_except_Exception. destruct (_ ≫= _); by eexists.
Qed.

(** X3.  A daily series that is present but has no first element (an empty
    list, a number, null, an object) does not give a reading with a null
    field: both merges return null for the whole unit. *)
Theorem bad_series_drops_the_unit :
  forall now d a wkvs dkvs s x e,
    truthy a = true ->
    dict_get "daily" wkvs = Some (VDict dkvs) ->
    s ∈ SERIES ->
    dict_get s dkvs = Some x ->
    py_index0 x = Raise e ->
    etl.transform_data now a (VDict wkvs) = Ret None
    /\ historical_backfill.transform_historical_data d a (VDict wkvs) = Ret None.
Proof.
  intros now d a wkvs dkvs s x e Ha Hd Hs Hx He.
  assert (truthy (VDict wkvs) = true) as Hw by (by destruct wkvs).
  assert (exists e', first_of_series (VDict dkvs) s = Raise e'
                     /\ except_Key_Index_Type e' = true) as (e' & Hr & Hc).
  { pose proof (first_of_series_dict dkvs s) as Hf. rewrite Hx in Hf. simpl in Hf.
    destruct (first_of_series (VDict dkvs) s) as [v|e'].
    - rewrite He in Hf. discriminate.
    - exists e'. by destruct Hf. }
  assert (forall s', match first_of_series (VDict dkvs) s' with
                     | Ret _ => True
                     | Raise e' => except_Key_Index_Type e' = true
                     end) as Hall.
  { intros s'. pose proof (first_of_series_dict dkvs s') as Hf.
    destruct (first_of_series (VDict dkvs) s'); [done | by destruct Hf]. }
  split.
  - unfold etl.transform_data. rewrite Ha, Hw. simpl. rewrite Hd. simpl.
    unfold SERIES in Hs.
    pose proof (Hall "temperature_2m_mean") as H1.
    pose proof (Hall "precipitation_sum") as H2.
    pose proof (Hall "wind_speed_10m_max") as H3.
    repeat (apply elem_of_cons in Hs as [->|Hs]);
      [..|by apply elem_of_nil in Hs];
      repeat (match goal with
              | |- context [first_of_series ?x ?y] =>
                  destruct (first_of_series x y) eqn:?; simpl
              end);
      try discriminate; try done;
      repeat match goal with
             | H : except_Key_Index_Type _ = true |- _ => rewrite H
             end; done.
  - destruct (historical_transform_total d a (VDict wkvs)) as [[r|] Ho]; [|done].
    apply historical_transform_Some in Ho
      as (? & ? & ? & ? & ? & ? & ? & t & p & wd & _ & dw & Hdw & Ht & Hp & Hwd).
    simpl in Hdw. rewrite Hd in Hdw. injection Hdw as <-.
    unfold SERIES in Hs.
    repeat (apply elem_of_cons in Hs as [->|Hs]);
      [..|by apply elem_of_nil in Hs]; congruence.
Qed.

Lemma bad_series_drops_the_unit_witness :
  etl.transform_data today7 savannah_aqi
    (VDict [("daily", VDict [("precipitation_sum", VList [])])]) = Ret None
  /\ historical_backfill.transform_historical_data today7 history_10_20_null_30
       (VDict [("daily", VDict [("precipitation_sum", VList [])])]) = Ret None.
Proof.
  split.
  - apply (proj1 (bad_series_drops_the_unit today7 today7 savannah_aqi
                    [("daily", VDict [("precipitation_sum", VList [])])]
                    [("precipitation_sum", VList [])] "precipitation_sum"
                    (VList []) IndexError eq_refl eq_refl
                    ltac:(unfold SERIES; repeat constructor) eq_refl eq_refl)).
  - apply (proj2 (bad_series_drops_the_unit today7 today7 history_10_20_null_30
                    [("daily", VDict [("precipitation_sum", VList [])])]
                    [("precipitation_sum", VList [])] "precipitation_sum"
                    (VList []) IndexError eq_refl eq_refl
                    ltac:(unfold SERIES; repeat constructor) eq_refl eq_refl)).
Defined.

Lemma weather_fields_daily wkvs dkvs temp precip wind :
  dict_get "daily" wkvs = Some (VDict dkvs) ->
  weather_fields (VDict wkvs) temp precip wind ->
  py_index0 (default (VList [VNone]) (dict_get "temperature_2m_mean" dkvs)) = Ret temp
  /\ py_index0 (default (VList [VNone]) (dict_get "precipitation_sum" dkvs)) = Ret precip
  /\ py_index0 (default (VList [VNone]) (dict_get "wind_speed_10m_max" dkvs)) = Ret wind.
Proof.
  intros Hd (dw & Hdw & Ht & Hp & Hw). simpl in Hdw. rewrite Hd in Hdw.
  injection Hdw as <-.
  pose proof (first_of_series_dict dkvs "temperature_2m_mean") as H1.
  pose proof (first_of_series_dict dkvs "precipitation_sum") as H2.
  pose proof (first_of_series_dict dkvs "wind_speed_10m_max") as H3.
  rewrite Ht in H1. rewrite Hp in H2. by rewrite Hw in H3.
Qed.

(** X4.  The weather fields of a reading are the first elements of the
    three daily series, as they come: temperature_2m_mean gives
    temperature_celsius, precipitation_sum gives precipitation_mm and
    wind_speed_10m_max gives wind_speed_kmh, without conversion, and the
    other elements of a series are not used; a series that is absent gives
    null.  This holds for both merges. *)
Theorem weather_fields_are_first_elements :
  forall r wkvs dkvs,
    ((exists now a, etl.transform_data now a (VDict wkvs) = Ret (Some r))
     \/ (exists d a, historical_backfill.transform_historical_data d a
                       (VDict wkvs) = Ret (Some r))) ->
    dict_get "daily" wkvs = Some (VDict dkvs) ->
    (forall v rest, dict_get "temperature_2m_mean" dkvs = Some (VList (v :: rest)) ->
                    r !! "temperature_celsius" = Some v)
    /\ (forall v rest, dict_get "precipitation_sum" dkvs = Some (VList (v :: rest)) ->
                       r !! "precipitation_mm" = Some v)
    /\ (forall v rest, dict_get "wind_speed_10m_max" dkvs = Some (VList (v :: rest)) ->
                       r !! "wind_speed_kmh" = Some v)
    /\ (dict_get "temperature_2m_mean" dkvs = None ->
        r !! "temperature_celsius" = Some VNone)
    /\ (dict_get "precipitation_sum" dkvs = None ->
        r !! "precipitation_mm" = Some VNone)
    /\ (dict_get "wind_speed_10m_max" dkvs = None ->
        r !! "wind_speed_kmh" = Some VNone).
Proof.
  intros r wkvs dkvs Hr Hd.
  assert (exists rd aqi pm10 pm25 o3 no2 co so2 temp precip wind,
            r = make_reading rd aqi pm10 pm25 o3 no2 co so2 temp precip wind
            /\ weather_fields (VDict wkvs) temp precip wind)
    as (rd & aqi & pm10 & pm25 & o3 & no2 & co & so2 & t & p & wd & -> & Hw).
  { destruct Hr as [(now & a & H)|(d & a & H)].
    - apply etl_transform_data_Some in H
        as (? & ? & ? & ? & ? & ? & ? & ? & ? & ? & -> & Hw).
      do 11 eexists. split; [reflexivity | exact Hw].
    - apply historical_transform_Some in H
        as (? & ? & ? & ? & ? & ? & ? & ? & ? & ? & -> & Hw).
      do 11 eexists. split; [reflexivity | exact Hw]. }
  destruct (weather_fields_daily _ _ _ _ _ Hd Hw) as (Ht & Hp & Hwd).
  split_and!.
  - intros v rest Hs. rewrite Hs in Ht. by injection Ht as <-.
  - intros v rest Hs. rewrite Hs in Hp. by injection Hp as <-.
  - intros v rest Hs. rewrite Hs in Hwd. by injection Hwd as <-.
  - intros Hs. rewrite Hs in Ht. by injection Ht as <-.
  - intros Hs. rewrite Hs in Hp. by injection Hp as <-.
  - intros Hs. rewrite Hs in Hwd. by injection Hwd as <-.
Qed.

Lemma weather_fields_are_first_elements_witness :
  exists r,
    historical_backfill.transform_historical_data today7 history_10_20_null_30
      savannah_weather = Ret (Some r)
    /\ r !! "temperature_celsius" = Some (VFloat (215 # 10))
    /\ r !! "wind_speed_kmh" = Some VNone.
Proof.
  eexists. split; [reflexivity|].
  destruct (weather_fields_are_first_elements _
              [("daily", VDict [("temperature_2m_mean", VList [VFloat (215 # 10)])])]
              [("temperature_2m_mean", VList [VFloat (215 # 10)])]
              (or_intror (ex_intro _ today7
                            (ex_intro _ history_10_20_null_30 eq_refl)))
              eq_refl) as (H1 & _ & _ & _ & _ & H2).
  split; [exact (H1 _ [] eq_refl) | exact (H2 eq_refl)].
Defined.

(** ** The frame of the historical merge *)

(** The frame and the two columns behind a reading of the historical
    merge. *)
Lemma historical_transform_frame d a w r :
  historical_backfill.transform_historical_data d a w = Ret (Some r) ->
  exists hourly_readings df indexes pollutants,
    py_get a "hoursInfo" (VList []) = Ret hourly_readings
    /\ truthy hourly_readings = true
    /\ historical_backfill.DataFrame hourly_readings = Ret df
    /\ historical_backfill.df_column df "indexes" = Ret indexes
    /\ historical_backfill.df_column df "pollutants" = Ret pollutants.
Proof.
  unfold historical_backfill.transform_historical_data.
  destruct (negb (truthy a) || negb (truthy w)); [discriminate|].
  rewrite try_except_Exception.
  destruct (_ ≫= _) as [o|] eqn:E; [|discriminate].
  intros [= ->].
  apply bind_Ret in E as (dw & _ & E).
  apply bind_Ret in E as (temp & _ & E).
  apply bind_Ret in E as (precip & _ & E).
  apply bind_Ret in E as (wind & _ & E).
  apply bind_Ret in E as (hr & Hhr & E).
  destruct (truthy hr) eqn:Htr; [|discriminate]. simpl in E.
  apply bind_Ret in E as (df & Hdf & E).
  apply bind_Ret in E as (indexes & Hix & E).
  apply bind_Ret in E as (aqi_col & _ & E).
  apply bind_Ret in E as (p_cols & Hp & E).
  change (historical_backfill.pollutant_columns df
            ("pm10" :: ["pm25"; "o3"; "no2"; "co"; "so2"]) = Ret p_cols) in Hp.
  cbn [historical_backfill.pollutant_columns] in Hp.
  apply bind_Ret in Hp as (pol & Hpol & _).
  by exists hr, df, indexes, pol.
Qed.

(** X5.  The historical merge needs both 'indexes' and 'pollutants' in the
    hours: when no hourly entry has one of the two keys, the whole unit is
    dropped (null), whatever the hours report under the other key. *)
Theorem hours_without_a_column_drop_the_unit :
  forall d a w hours col,
    py_get a "hoursInfo" (VList []) = Ret (VList hours) ->
    col = "indexes" \/ col = "pollutants" ->
    Forall (fun h => forall kvs, h = VDict kvs -> dict_get col kvs = None) hours ->
    historical_backfill.transform_historical_data d a w = Ret None.
Proof.
  intros d a w hours col Hh Hcol Hnone.
  destruct (historical_transform_total d a w) as [[r|] Ho]; [|done].
  exfalso.
  apply historical_transform_frame in Ho
    as (hr & df & indexes & pol & Hhr & _ & Hdf & Hix & Hpol).
  rewrite Hh in Hhr. injection Hhr as <-.
  pose proof (DataFrame_column _ _ _ _ Hdf Hix) as ->.
  assert (exists cells, historical_backfill.df_column df col = Ret cells)
    as [cells Hc] by (destruct Hcol as [-> | ->]; eauto).
  apply df_column_spec in Hc as (_ & r0 & Hin & [v Hv]).
  rewrite Forall_forall in Hnone.
  assert (VDict r0 ∈ map VDict df) as Hin'
    by (apply list_elem_of_fmap; by exists r0).
  rewrite (Hnone _ Hin' r0 eq_refl) in Hv. discriminate.
Qed.

Lemma hours_without_a_column_drop_the_unit_witness :
  historical_backfill.transform_historical_data today7
    (VDict [("hoursInfo",
             VList [VDict [("indexes",
                            VList [VDict [("code", VStr "uaqi"); ("aqi", VInt 40)]])]])])
    savannah_weather = Ret None.
Proof.
  apply (hours_without_a_column_drop_the_unit today7
           (VDict [("hoursInfo",
                    VList [VDict [("indexes",
                                   VList [VDict [("code", VStr "uaqi");
                                                 ("aqi", VInt 40)]])]])])
           savannah_weather
           [VDict [("indexes",
                    VList [VDict [("code", VStr "uaqi"); ("aqi", VInt 40)]])]]
           "pollutants" eq_refl (or_intror eq_refl)).
  repeat constructor. by intros kvs [= <-].
Defined.

(** ** Units of work that are skipped, and one that is not *)

Lemma transform_data_falsy now a w :
  truthy a = false \/ truthy w = false ->
  etl.transform_data now a w = Ret None.
Proof.
  unfold etl.transform_data. intros [-> | ->]; [done|]. by rewrite orb_true_r.
Qed.

Lemma transform_historical_data_falsy d a w :
  truthy a = false \/ truthy w = false ->
  historical_backfill.transform_historical_data d a w = Ret None.
Proof.
  unfold historical_backfill.transform_historical_data.
  intros [-> | ->]; [done|]. by rewrite orb_true_r.
Qed.



Lemma transform_data_not_a_dict now a w :
  truthy a = true -> truthy w = true -> is_dict w = false ->
  etl.transform_data now a w = Raise AttributeError.
Proof.
  intros Ha Hw Hd. unfold etl.transform_data. rewrite Ha, Hw. simpl.
  by destruct w.
Qed.

Lemma transform_historical_data_not_a_dict d a w :
  is_dict w = false ->
  historical_backfill.transform_historical_data d a w = Ret None.
Proof.
  intros Hd. destruct (historical_transform_total d a w) as [[r|] Ho]; [|done].
  apply historical_transform_Some in Ho
    as (? & ? & ? & ? & ? & ? & ? & ? & ? & ? & _ & dw & Hdw & _).
  by destruct w.
Qed.

(** X7.  In etl.py a weather answer that is not a JSON object (a list, a
    string, a number) is not skipped: [transform_data] raises an
    AttributeError that nothing catches, and the run ends there, after the
    two requests of that location and before any later location.  The
    backfill skips a unit with the same kind of answer and goes on. *)
Theorem non_object_weather_ends_the_etl_run :
  (forall env engine before l after w w1 a wd,
     no_key (GOOGLE_API_KEY env) = false ->
     etl.run env engine before w = (Ret tt, w1) ->
     aqi_current env (latitude l) (longitude l) = Some a ->
     truthy a = true ->
     weather_forecast env (latitude l) (longitude l) = Some wd ->
     truthy wd = true ->
     is_dict wd = false ->
     etl.run env engine (before ++ l :: after) w
     = (Raise AttributeError, with_trace (trace w1 ++ etl_unit_events env l) w1))
  /\ (forall env engine d l w wd,
        weather_archive env (latitude l) (longitude l) (dt_day d) = Some wd ->
        is_dict wd = false ->
        historical_backfill.process_location env engine d l w
        = (Ret tt,
           with_trace (trace w ++ backfill_unit_requests env (dt_day d) l ++ [Sleep])
             w)).
Proof.
  split.
  - intros env engine before l after w w1 a wd Hk Hrun Ha Hta Hwd Htw Hd.
    unfold etl.run. eapply for_each_raises; [exact Hrun|].
    unfold etl.process_location, etl.fetch_air_quality_data,
      etl.fetch_weather_data, etl_unit_events.
    rewrite Hk. unfold_M. rewrite Ha, Hwd. simpl.
    rewrite (transform_data_not_a_dict _ _ _ Hta Htw Hd). simpl.
    by rewrite <- app_assoc.
  - intros env engine d l w wd Hwd Hd.
    unfold historical_backfill.process_location,
      historical_backfill.fetch_historical_aqi_data,
      historical_backfill.fetch_weather_data, backfill_unit_requests.
    destruct (no_key (GOOGLE_API_KEY env)) eqn:Hk; unfold_M.
    + by rewrite <- app_assoc.
    + rewrite Hwd. simpl.
      rewrite (transform_historical_data_not_a_dict _ _ _ Hd). simpl.
      by rewrite <- !app_assoc.
Qed.

Lemma non_object_weather_ends_the_etl_run_witness :
  etl.run env_list_weather engine_of_url ([] ++ savannah :: [port_wentworth; pooler])
    initial_world
  = (Raise AttributeError,
     with_trace (trace initial_world ++ etl_unit_events env_list_weather savannah)
       initial_world).
Proof.
  apply (proj1 non_object_weather_ends_the_etl_run env_list_weather engine_of_url
           [] savannah [port_wentworth; pooler] initial_world initial_world
           savannah_aqi (VList [savannah_weather]));
    reflexivity.
Defined.

(** X8.  When the store cannot be reached at start, neither script does
    anything: no request is sent, nothing is stored, no dictionary is
    built, and the script ends normally. *)
Theorem unreachable_store_does_nothing :
  forall env w,
    db_reachable env = false ->
    etl.main env w = (Ret tt, w)
    /\ historical_backfill.main env w = (Ret tt, w).
Proof.
  intros env w H. unfold etl.main, historical_backfill.main, get_db_engine.
  rewrite H. by unfold_M.
Qed.

Lemma unreachable_store_does_nothing_witness :
  etl.main
    {| GOOGLE_API_KEY := Some "key"; db_reachable := false; now := today7;
       aqi_current := fun _ _ => Some savannah_aqi;
       aqi_history := fun _ _ _ => Some history_10_20_null_30;
       weather_forecast := fun _ _ => Some savannah_weather;
       weather_archive := fun _ _ _ => Some savannah_weather;
       store_accepts := fun _ => true |} initial_world
  = (Ret tt, initial_world).
Proof.
  apply (unreachable_store_does_nothing
           {| GOOGLE_API_KEY := Some "key"; db_reachable := false; now := today7;
              aqi_current := fun _ _ => Some savannah_aqi;
              aqi_history := fun _ _ _ => Some history_10_20_null_30;
              weather_forecast := fun _ _ => Some savannah_weather;
              weather_archive := fun _ _ _ => Some savannah_weather;
              store_accepts := fun _ => true |} initial_world eq_refl).
Defined.

(** ** The days of the backfill *)

Lemma range_down_spec n :
  historical_backfill.range_down n
  = map (fun k => Z.of_nat n - Z.of_nat k) (seq 0 n).
Proof.
  induction n as [|n IH]; [done|].
  cbn [historical_backfill.range_down seq map].
  apply (f_equal2 cons); [lia|].
  rewrite IH, <- seq_shift, map_map. apply map_ext. intros k. lia.
Qed.

(** ** What a run sends, in which order *)

Lemma load_data_of_trace s env engine l r w :
  trace (load_data_of s env engine l r w).2 = trace w.
Proof.
  destruct (load_data_of_cases s env engine l r w) as [->|[o ->]]; [|done].
  destruct (load_outcome env l r w) as [[[]|e] w'] eqn:H; simpl.
  - by apply load_outcome_Ret in H as (? & ? & ? & ? & _ & _ & _ & _ & _ & _ & ?).
  - by apply load_outcome_Raise in H as [_ ?].
Qed.

Lemma etl_merge_frame env l w :
  db (etl_merge env l w).2 = db w
  /\ locations_id_seq (etl_merge env l w).2 = locations_id_seq w
  /\ trace (etl_merge env l w).2 = trace w ++ etl_unit_events env l.
Proof.
  unfold etl_merge, etl.fetch_air_quality_data, etl.fetch_weather_data,
    etl_unit_events.
  unfold_M. destruct (no_key _); simpl;
    repeat (match goal with
            | |- context [match ?x with _ => _ end] => destruct x
            end; simpl); rewrite <- ?app_assoc; done.
Qed.

Lemma backfill_merge_frame env d l w :
  db (backfill_merge env d l w).2 = db w
  /\ locations_id_seq (backfill_merge env d l w).2 = locations_id_seq w
  /\ trace (backfill_merge env d l w).2
     = trace w ++ backfill_unit_requests env (dt_day d) l.
Proof.
  unfold backfill_merge, historical_backfill.fetch_historical_aqi_data,
    historical_backfill.fetch_weather_data, backfill_unit_requests.
  unfold_M. destruct (no_key _); simpl;
    repeat (match goal with
            | |- context [match ?x with _ => _ end] => destruct x
            end; simpl); rewrite <- ?app_assoc; done.
Qed.

Lemma etl_process_location_trace env engine l w :
  trace (etl.process_location env engine l w).2 = trace w ++ etl_unit_events env l.
Proof.
  rewrite etl_process_location_eq. unfold mbind, M_bind.
  pose proof (etl_merge_frame env l w) as (_ & _ & Ht).
  destruct (etl_merge env l w) as [[[r|]|e] w1]; simpl in *; try done.
  by rewrite (load_data_of_trace Current).
Qed.

Lemma backfill_process_location_trace env engine d l w :
  (historical_backfill.process_location env engine d l w).1 = Ret tt ->
  trace (historical_backfill.process_location env engine d l w).2
  = trace w ++ backfill_unit_requests env (dt_day d) l ++ [Sleep].
Proof.
  rewrite backfill_process_location_eq. unfold mbind, M_bind.
  pose proof (backfill_merge_frame env d l w) as (_ & _ & Ht).
  destruct (backfill_merge env d l w) as [[[r|]|e] w1]; simpl in *; try done.
  - pose proof (load_data_of_trace Backfill env engine l r w1) as Hl.
    simpl in Hl.
    destruct (historical_backfill.load_data env engine l r w1) as [[[]|e] w2];
      simpl in *; [|done].
    intros _. by rewrite Hl, Ht, <- app_assoc.
  - intros _. by rewrite Ht, <- app_assoc.
Qed.

Lemma for_each_trace {A} (l : list A) (body : A -> M unit)
    (events : A -> list event) :
  (forall x w, (body x w).1 = Ret tt -> trace (body x w).2 = trace w ++ events x) ->
  forall w, (for_each l body w).1 = Ret tt ->
            trace (for_each l body w).2 = trace w ++ flat_map events l.
Proof.
  intros Hbody. induction l as [|x l IH]; intros w; simpl.
  - intros _. by rewrite app_nil_r.
  - unfold mbind, M_bind. pose proof (Hbody x w) as Hx.
    destruct (body x w) as [[[]|e] w1]; simpl in *; [|done].
    intros Hrest. by rewrite (IH w1 Hrest), Hx, <- app_assoc.
Qed.

(** X10.  A run that returns has sent, unit after unit in the order of the
    loops, the air-quality request of the unit (when there is a key) and
    then its weather request, whatever the answers were and whether or not
    the unit was stored; the backfill has paused once after every unit,
    days outermost, oldest day first. *)
Theorem requests_of_a_run :
  (forall env engine locations w,
     (etl.run env engine locations w).1 = Ret tt ->
     trace (etl.run env engine locations w).2
     = trace w ++ flat_map (etl_unit_events env) locations)
  /\ (forall env engine days locations w,
        (historical_backfill.run env engine days locations w).1 = Ret tt ->
        trace (historical_backfill.run env engine days locations w).2
        = trace w ++
          flat_map
            (fun i => flat_map
                        (fun l => backfill_unit_requests env (dt_day (now env) - i) l
                                  ++ [Sleep])
                        locations)
            (historical_backfill.range_down days)).
Proof.
  split.
  - intros env engine locations w. unfold etl.run.
    apply for_each_trace. intros l w' _. apply etl_process_location_trace.
  - intros env engine days locations w. unfold historical_backfill.run.
    apply (for_each_trace _ _
             (fun i => flat_map
                         (fun l => backfill_unit_requests env (dt_day (now env) - i) l
                                   ++ [Sleep]) locations)).
    intros i w'. apply for_each_trace. intros l w''.
    apply backfill_process_location_trace.
Qed.

Lemma requests_of_a_run_witness :
  trace (historical_backfill.run env_accepting engine_of_url 2 [savannah; pooler]
           initial_world).2
  = trace initial_world ++
    flat_map
      (fun i => flat_map
                  (fun l => backfill_unit_requests env_accepting
                              (dt_day (now env_accepting) - i) l ++ [Sleep])
                  [savannah; pooler])
      (historical_backfill.range_down 2).
Proof.
  apply (proj2 requests_of_a_run env_accepting engine_of_url 2%nat
           [savannah; pooler] initial_world).
  reflexivity.
Defined.

(** ** The days a run of the backfill asks for *)

Lemma backfill_run_trace env engine days locations w :
  (historical_backfill.run env engine days locations w).1 = Ret tt ->
  trace (historical_backfill.run env engine days locations w).2
  = trace w ++
    flat_map
      (fun i => flat_map
                  (fun l => backfill_unit_requests env (dt_day (now env) - i) l
                            ++ [Sleep])
                  locations)
      (historical_backfill.range_down days).
Proof.
  unfold historical_backfill.run.
  apply (for_each_trace _ _
           (fun i => flat_map
                       (fun l => backfill_unit_requests env (dt_day (now env) - i) l
                                 ++ [Sleep]) locations)).
  intros i w'. apply for_each_trace. intros l w''.
  apply backfill_process_location_trace.
Qed.

Lemma weather_days_app a b :
  weather_days (a ++ b) = weather_days a ++ weather_days b.
Proof. apply omap_app. Qed.

Lemma weather_days_of_a_day env day locations :
  weather_days
    (flat_map (fun l => backfill_unit_requests env day l ++ [Sleep]) locations)
  = replicate (length locations) day.
Proof.
  induction locations as [|l locations IH]; simpl; [done|].
  rewrite weather_days_app, IH. unfold backfill_unit_requests.
  by destruct (no_key _).
Qed.

(** X9.  A run of the backfill over [n] days that returns has asked the
    weather service for the [n] days before today and for no other: today
    - n first, then today - n + 1, ..., today - 1 last, each of them once
    for every location, and never today. *)
Theorem backfill_days_are_the_last_n :
  forall env engine (n : nat) locations w,
    (historical_backfill.run env engine n locations w).1 = Ret tt ->
    exists events,
      trace (historical_backfill.run env engine n locations w).2
      = trace w ++ events
      /\ weather_days events
         = flat_map
             (fun k => replicate (length locations)
                         (dt_day (now env) - Z.of_nat n + Z.of_nat k))
             (seq 0 n)
      /\ Forall (fun d => dt_day (now env) - Z.of_nat n <= d < dt_day (now env))
                (weather_days events).
Proof.
  intros env engine n locations w Hret.
  eexists. split; [by apply backfill_run_trace|].
  assert (forall l : list Z,
            weather_days
              (flat_map
                 (fun i => flat_map
                             (fun l => backfill_unit_requests env
                                         (dt_day (now env) - i) l ++ [Sleep])
                             locations) l)
            = flat_map (fun i => replicate (length locations)
                                   (dt_day (now env) - i)) l) as Hdays.
  { induction l as [|i l IH]; simpl; [done|].
    by rewrite weather_days_app, weather_days_of_a_day, IH. }
  rewrite Hdays, range_down_spec. clear Hdays Hret.
  assert (flat_map (fun i => replicate (length locations) (dt_day (now env) - i))
            (map (fun k => Z.of_nat n - Z.of_nat k) (seq 0 n))
          = flat_map (fun k => replicate (length locations)
                                 (dt_day (now env) - Z.of_nat n + Z.of_nat k))
              (seq 0 n)) as ->.
  { rewrite flat_map_concat_map, map_map, <- flat_map_concat_map.
    apply flat_map_ext. intros k. f_equal. lia. }
  split; [done|].
  apply Forall_forall. intros d Hd.
  apply list_elem_of_In, in_flat_map in Hd as (k & Hk & Hd).
  apply in_seq in Hk. apply list_elem_of_In, elem_of_replicate in Hd as [-> _].
  lia.
Qed.

Lemma backfill_days_are_the_last_n_witness :
  exists events,
    trace (historical_backfill.run env_accepting engine_of_url 2
             [savannah; pooler] initial_world).2
    = trace initial_world ++ events
    /\ weather_days events = [5; 5; 6; 6].
Proof.
  destruct (backfill_days_are_the_last_n env_accepting engine_of_url 2%nat
              [savannah; pooler] initial_world eq_refl)
    as (events & Htrace & Hdays & _).
  exists events. split; [exact Htrace | exact Hdays].
Defined.

(** ** What a run keeps of the store *)

Lemma etl_process_location_steps env engine l w :
  rtc (step env) w (etl.process_location env engine l w).2.
Proof.
  rewrite etl_process_location_eq. unfold mbind, M_bind.
  pose proof (etl_merge_frame env l w) as (Hdb & Hseq & _).
  destruct (etl_merge env l w) as [[[r|]|e] w1]; simpl in *;
    try (apply rtc_once; by apply step_other).
  eapply rtc_l; [by apply step_other|].
  apply rtc_once. apply (step_load env Current).
Qed.

Lemma backfill_process_location_steps env engine d l w :
  rtc (step env) w (historical_backfill.process_location env engine d l w).2.
Proof.
  rewrite backfill_process_location_eq. unfold mbind, M_bind.
  pose proof (backfill_merge_frame env d l w) as (Hdb & Hseq & _).
  destruct (backfill_merge env d l w) as [[[r|]|e] w1]; simpl in *;
    try (apply rtc_once; by apply step_other).
  eapply rtc_l; [by apply (step_other env w w1)|].
  pose proof (step_load env Backfill engine l r w1) as Hl. simpl in Hl.
  destruct (historical_backfill.load_data env engine l r w1) as [[[]|e] w2];
    simpl in *; [|by apply rtc_once].
  eapply rtc_l; [exact Hl|]. apply rtc_once. by apply step_other.
Qed.

Lemma for_each_steps {A} env (l : list A) (body : A -> M unit) :
  (forall x w, rtc (step env) w (body x w).2) ->
  forall w, rtc (step env) w (for_each l body w).2.
Proof.
  intros Hbody. induction l as [|x l IH]; intros w; simpl; [done|].
  unfold mbind, M_bind. pose proof (Hbody x w) as Hx.
  destruct (body x w) as [[[]|e] w1]; simpl in *; [|done].
  by etrans.
Qed.

Lemma main_steps env w :
  rtc (step env) w (etl.main env w).2
  /\ rtc (step env) w (historical_backfill.main env w).2.
Proof.
  unfold etl.main, historical_backfill.main, get_db_engine.
  unfold mbind, M_bind, mret, M_ret. destruct (db_reachable env); [|done].
  split.
  - apply for_each_steps. intros l w'. apply etl_process_location_steps.
  - apply for_each_steps. intros i w'. apply for_each_steps. intros l w''.
    apply backfill_process_location_steps.
Qed.

(** X11.  Either script, run on a well-formed store, leaves a well-formed
    store, also when it ends with an error: a sequence that is ahead of
    every id, one row per (city, country), one row per (location_id,
    reading_date), and no reading without its location.  A (city, country)
    that had its row keeps that row. *)
Theorem scripts_keep_the_store_well_formed :
  forall env w,
    wf w ->
    (wf (etl.main env w).2
     /\ forall c k r, store.locations_of c k (db w) = [r] ->
                      store.locations_of c k (db (etl.main env w).2) = [r])
    /\ (wf (historical_backfill.main env w).2
        /\ forall c k r, store.locations_of c k (db w) = [r] ->
                         store.locations_of c k
                           (db (historical_backfill.main env w).2) = [r]).
Proof.
  intros env w Hwf. destruct (main_steps env w) as [He Hb].
  split; by eapply steps_preserve.
Qed.

Lemma scripts_keep_the_store_well_formed_witness :
  wf (etl.main env_nested initial_world).2
  /\ wf (historical_backfill.main env_accepting initial_world).2.
Proof.
  assert (wf initial_world) as Hwf by (split; simpl; try constructor; lia).
  split.
  - exact (proj1 (proj1 (scripts_keep_the_store_well_formed env_nested
                           initial_world Hwf))).
  - exact (proj1 (proj2 (scripts_keep_the_store_well_formed env_accepting
                           initial_world Hwf))).
Defined.

Lemma load_outcome_db env l r w :
  db (load_outcome env l r w).2 = db w
  \/ exists row d',
       (load_outcome env l r w).1 = Ret tt
       /\ bind_reading (<["location_id" := VInt (store.location_id row)]> (dict_at w r))
          = Ret row
       /\ (d' = db w \/ d' = store.insert_location (locations_id_seq w) l (db w))
       /\ db (load_outcome env l r w).2 = store.insert_reading row d'.
Proof.
  destruct (load_outcome env l r w) as [[[]|e] w'] eqn:H; simpl.
  - right. apply load_outcome_Ret in H
      as (i & d' & seq' & row & Hres & Hb & _ & Hi & Hdb & _).
    apply resolve_location_sound in Hres as (_ & _ & Hd').
    exists row, d'. by rewrite Hi.
  - left. by apply load_outcome_Raise in H as [? _].
Qed.

(** The store grows at the end of its tables only. *)
Lemma step_grows env w w' :
  step env w w' ->
  store.locations (db w) `prefix_of` store.locations (db w')
  /\ map store.key (store.daily_readings (db w))
       `prefix_of` map store.key (store.daily_readings (db w')).
Proof.
  intros [s engine l r w0|w0 w0' -> _]; [|done].
  destruct (load_data_of_cases s env engine l r w0) as [->|[o ->]]; [|done].
  destruct (load_outcome_db env l r w0) as [->|(row & d' & _ & _ & Hd' & ->)];
    [done|].
  assert (store.locations (db w0) `prefix_of` store.locations d'
          /\ store.daily_readings d' = store.daily_readings (db w0)) as [Hl Hr].
  { destruct Hd' as [-> | ->]; [done|]. split; [|done]. by apply prefix_app_r. }
  split; [done|].
  rewrite insert_reading_keys, Hr. destruct (existsb _ _); [done|].
  by apply prefix_app_r.
Qed.

(** X12.  Neither script ever removes or moves a row: after a run, the
    locations table starts with the rows it had, unchanged, and the
    readings table has the keys it had, in the same places; rows are only
    added at the end, or overwritten under their own key. *)
Theorem scripts_only_append :
  forall env w,
    (store.locations (db w) `prefix_of` store.locations (db (etl.main env w).2)
     /\ map store.key (store.daily_readings (db w))
          `prefix_of` map store.key (store.daily_readings (db (etl.main env w).2)))
    /\ (store.locations (db w)
          `prefix_of` store.locations (db (historical_backfill.main env w).2)
        /\ map store.key (store.daily_readings (db w))
             `prefix_of`
             map store.key
               (store.daily_readings (db (historical_backfill.main env w).2))).
Proof.
  intros env w.
  assert (forall w', rtc (step env) w w' ->
            store.locations (db w) `prefix_of` store.locations (db w')
            /\ map store.key (store.daily_readings (db w))
                 `prefix_of` map store.key (store.daily_readings (db w')))
    as Hsteps.
  { induction 1 as [|w0 w1 w2 Hs _ IH]; [done|].
    destruct (step_grows _ _ _ Hs) as [H1 H2]. destruct IH as [H3 H4].
    split; by etrans. }
  destruct (main_steps env w) as [He Hb]. split; by apply Hsteps.
Qed.

Lemma readings_at_insert_reading_other loc day r d :
  (loc, day) <> store.key r ->
  store.readings_at loc day (store.insert_reading r d) = store.readings_at loc day d.
Proof.
  intros Hk. unfold store.readings_at, store.insert_reading. simpl.
  destruct (existsb _ _).
  - induction (store.daily_readings d) as [|old rows IH]; [done|]. simpl.
    unfold store.same_key at 1. case_bool_decide as Hs.
    + rewrite !filter_cons_False; [done| |].
      * intros Ho. by rewrite <- Hs in Ho.
      * rewrite do_update_same_key by done. by intros Ho.
    + rewrite !filter_cons, IH. done.
  - rewrite filter_app. simpl.
    rewrite (filter_cons_False _ r) by (by intros Ho). by rewrite app_nil_r.
Qed.

(** X13.  A call of [load_data] that returns has touched one key of the
    readings and one (city, country) of the locations: the rows under every
    other (location_id, reading_date) and the rows of every other (city,
    country) are what they were. *)
Theorem upsert_leaves_other_rows :
  forall s env engine l reading_data w w',
    size (dict_at w reading_data) <> 0%nat ->
    load_data_of s env engine l reading_data w = (Ret tt, w') ->
    exists row,
      bind_reading (dict_at w' reading_data) = Ret row
      /\ (forall loc day,
            (loc, day) <> store.key row ->
            store.readings_at loc day (db w') = store.readings_at loc day (db w))
      /\ (forall c k,
            (c, k) <> (city l, country l) ->
            store.locations_of c k (db w') = store.locations_of c k (db w)).
Proof.
  intros s env engine l ref w w' Hsize H.
  apply load_data_of_Ret in H; [|done].
  apply load_outcome_Ret in H
    as (i & d' & seq' & row & Hres & Hb & _ & Hi & Hdb & Hheap & _).
  apply resolve_location_sound in Hres as (_ & Hrd & Hd').
  exists row. split_and!.
  - unfold dict_at at 1. by rewrite Hheap, lookup_insert_eq.
  - intros loc day Hk. rewrite Hdb, readings_at_insert_reading_other by done.
    unfold store.readings_at. by rewrite Hrd.
  - intros c k Hp. rewrite Hdb, locations_of_insert_reading.
    destruct Hd' as [-> | ->]; [done|].
    unfold store.locations_of, store.insert_location. simpl.
    rewrite filter_app. simpl. rewrite filter_cons_False, filter_nil.
    + by rewrite app_nil_r.
    + unfold store.place. simpl. congruence.
Qed.

(** The reading of Savannah for day 7 is stored; a reading of the same day is
    then loaded for Port Wentworth.  The row of Savannah and its location are
    what they were. *)
Lemma upsert_leaves_other_rows_witness :
  store.readings_at 1 7
    (db (load_data_of Backfill env_accepting engine_of_url port_wentworth 1%nat
           (then_load Current 0 two_readings)).2)
  = store.readings_at 1 7 (db (then_load Current 0 two_readings))
  /\ store.aqi <$> store.readings_at 1 7 (db (then_load Current 0 two_readings))
     = [VInt 5]
  /\ store.locations_of "Savannah" "USA"
       (db (load_data_of Backfill env_accepting engine_of_url port_wentworth 1%nat
              (then_load Current 0 two_readings)).2)
     = store.locations_of "Savannah" "USA" (db (then_load Current 0 two_readings))
  /\ length (store.locations_of "Savannah" "USA"
               (db (then_load Current 0 two_readings))) = 1%nat.
Proof.
  assert (size (dict_at (then_load Current 0 two_readings) 1) <> 0%nat) as Hsize
    by (vm_compute; lia).
  assert (load_data_of Backfill env_accepting engine_of_url port_wentworth 1%nat
            (then_load Current 0 two_readings)
          = (Ret tt,
             (load_data_of Backfill env_accepting engine_of_url port_wentworth
                1%nat (then_load Current 0 two_readings)).2))
    as Hload by returns_by_evaluation.
  destruct (upsert_leaves_other_rows Backfill env_accepting engine_of_url
              port_wentworth 1%nat (then_load Current 0 two_readings)
              (load_data_of Backfill env_accepting engine_of_url port_wentworth
                 1%nat (then_load Current 0 two_readings)).2
              Hsize Hload) as (row & Hb & Hr & Hl).
  split_and!.
  - apply Hr.
    pose proof (bind_reading_columns _ _ Hb) as (Hid & _).
    assert (dict_at (load_data_of Backfill env_accepting engine_of_url
                       port_wentworth 1%nat
                       (then_load Current 0 two_readings)).2 1
              !! "location_id" = Some (VInt 2)) as Hid'
      by (vm_compute; reflexivity).
    rewrite Hid' in Hid. injection Hid as Hid. unfold store.key. rewrite <- Hid.
    intros [= ?]; lia.
  - vm_compute. reflexivity.
  - apply Hl. discriminate.
  - vm_compute. reflexivity.
Defined.

Lemma load_data_of_bindable s env engine l r w :
  is_Some (dict_at w r !! "reading_date") ->
  load_data_of s env engine l r w = load_outcome env l r w.
Proof.
  intros [v Hv]. destruct s; simpl.
  - apply etl_load_data_eq. by eapply size_nonzero_lookup.
  - rewrite historical_load_data_eq. unfold dict_at in Hv. by rewrite Hv.
Qed.

Lemma resolve_location_existing l d seq r :
  wf_db d seq ->
  store.locations_of (city l) (country l) d = [r] ->
  resolve_location l d seq = Ret (store.id r, d, seq).
Proof.
  intros Hwf Hr.
  destruct (resolve_location_wf l d seq Hwf)
    as (i & d' & seq' & r' & -> & _ & _ & Hloc & Hid & [[-> ->]|(Hnone & _)]).
  - rewrite Hr in Hloc. injection Hloc as <-. by rewrite Hid.
  - rewrite Hr in Hnone. discriminate.
Qed.

Lemma insert_reading_idempotent r d :
  store.insert_reading r (store.insert_reading r d) = store.insert_reading r d.
Proof.
  assert (store.same_key r r = true) as Hrr by (by apply bool_decide_eq_true).
  assert (forall old,
            (fun old => if store.same_key r old then store.do_update old r else old)
              (if store.same_key r old then store.do_update old r else old)
            = (if store.same_key r old then store.do_update old r else old))
    as Hupd.
  { intros old. destruct (store.same_key r old) eqn:Hs.
    - apply bool_decide_eq_true in Hs. rewrite do_update_same_key by done.
      by rewrite Hrr, do_update_same_key.
    - by rewrite Hs. }
  assert (existsb (store.same_key r)
            (store.daily_readings (store.insert_reading r d)) = true) as Hin.
  { apply existsb_exists. exists r. split; [|done].
    apply list_elem_of_In, insert_reading_elem. }
  set (d1 := store.insert_reading r d) in *.
  unfold store.insert_reading at 1. rewrite Hin.
  subst d1. unfold store.insert_reading. simpl. f_equal.
  destruct (existsb _ (store.daily_readings d)) eqn:Hex.
  - rewrite map_map. apply map_ext. intros old. apply Hupd.
  - rewrite map_app. simpl. rewrite Hrr, do_update_same_key by done. f_equal.
    rewrite <- (map_id (store.daily_readings d)) at 2.
    apply map_ext_in. intros old Hold.
    destruct (store.same_key r old) eqn:Hs; [|done].
    assert (existsb (store.same_key r) (store.daily_readings d) = true)
      by (apply existsb_exists; by exists old).
    congruence.
Qed.

(** X14.  Loading is idempotent: after a call of [load_data] that returned,
    on a well-formed store, a second call with the same dictionary for the
    same location (by either script) returns too and leaves the store and
    the dictionaries exactly as the first call left them. *)
Theorem load_data_twice_is_load_data_once :
  forall s1 s2 env engine l reading_data w w1,
    wf w ->
    size (dict_at w reading_data) <> 0%nat ->
    load_data_of s1 env engine l reading_data w = (Ret tt, w1) ->
    exists w2,
      load_data_of s2 env engine l reading_data w1 = (Ret tt, w2)
      /\ db w2 = db w1
      /\ heap w2 = heap w1
      /\ locations_id_seq w2 = locations_id_seq w1.
Proof.
  intros s1 s2 env engine l ref w w1 Hwf Hsize H.
  apply load_data_of_Ret in H; [|done].
  pose proof (load_outcome_wf env l ref w Hwf) as Hwf1.
  rewrite H in Hwf1. simpl in Hwf1.
  apply load_outcome_Ret in H
    as (i & d' & seq' & row & Hres & Hb & Hacc & Hi & Hdb & Hheap & _).
  destruct (resolve_location_wf l _ _ Hwf)
    as (i0 & d0 & seq0 & r & Hres' & _ & _ & Hloc & Hid & _).
  rewrite Hres in Hres'. injection Hres' as <- <- <-.
  assert (dict_at w1 ref = <["location_id" := VInt i]> (dict_at w ref)) as Hd1.
  { unfold dict_at at 1. by rewrite Hheap, lookup_insert_eq. }
  assert (store.locations_of (city l) (country l) (db w1) = [r]) as Hloc1
    by (by rewrite Hdb).
  rewrite load_data_of_bindable
    by (rewrite Hd1; by eapply bind_reading_date).
  unfold load_outcome. fold (dict_at w1 ref).
  rewrite (resolve_location_existing _ _ _ _ Hwf1 Hloc1), Hid, Hd1.
  rewrite insert_insert_eq, Hb, Hacc.
  eexists. split; [reflexivity|]. simpl. split_and!; [|  |done].
  - rewrite Hdb. apply insert_reading_idempotent.
  - apply insert_id. unfold dict_at in Hd1.
    destruct (heap w1 !! ref) as [x|] eqn:Hx; simpl in Hd1; [by rewrite Hd1|].
    exfalso. assert (∅ !! "location_id" = Some (VInt i)) as Hne
      by (rewrite Hd1; apply lookup_insert_eq).
    by rewrite lookup_empty in Hne.
Qed.

Lemma load_data_twice_is_load_data_once_witness :
  exists w2,
    load_data_of Backfill env_accepting engine_of_url savannah 0%nat
      (then_load Current 0 two_readings) = (Ret tt, w2)
    /\ db w2 = db (then_load Current 0 two_readings).
Proof.
  assert (wf two_readings) as Hwf by (split; simpl; try constructor; lia).
  assert (size (dict_at two_readings 0) <> 0%nat) as Hsize by (vm_compute; lia).
  assert (load_data_of Current env_accepting engine_of_url savannah 0%nat
            two_readings = (Ret tt, then_load Current 0 two_readings)) as Hload
    by returns_by_evaluation.
  destruct (load_data_twice_is_load_data_once Current Backfill env_accepting
              engine_of_url savannah 0%nat two_readings
              (then_load Current 0 two_readings) Hwf Hsize Hload)
    as (w2 & H1 & H2 & _).
  exists w2. split; [exact H1 | exact H2].
Defined.

(** ** From the merge to the store *)

Lemma bind_reading_make_reading i d aqi pm10 pm25 o3 no2 co so2 temp precip wind :
  bind_reading (<["location_id" := VInt i]>
                  (make_reading (VDate d) aqi pm10 pm25 o3 no2 co so2
                     temp precip wind))
  = Ret {| store.location_id := i; store.reading_date := d;
           store.aqi := aqi; store.pm10 := pm10; store.pm25 := pm25;
           store.o3 := o3; store.no2 := no2; store.co := co; store.so2 := so2;
           store.temperature_celsius := temp;
           store.precipitation_mm := precip;
           store.wind_speed_kmh := wind |}.
Proof. reflexivity. Qed.

(** X15.  A reading returned by either merge has every bind parameter of
    the insert, and a date: on a well-formed store, [load_data] for it can
    fail in one way only, the store refusing the row.  It returns when the
    store accepts the row, whose columns are the fields of the reading, and
    raises the store's error otherwise. *)
Theorem merged_reading_loads :
  forall s env engine l reading_data w r,
    wf w ->
    heap w !! reading_data = Some r ->
    ((exists now a wd, etl.transform_data now a wd = Ret (Some r))
     \/ (exists d a wd,
           historical_backfill.transform_historical_data d a wd = Ret (Some r))) ->
    exists row,
      r !! "aqi" = Some (store.aqi row)
      /\ r !! "reading_date" = Some (VDate (store.reading_date row))
      /\ (load_data_of s env engine l reading_data w).1
         = (if store_accepts env row then Ret tt else Raise DBAPIError).
Proof.
  intros s env engine l ref w r Hwf Hr Hm.
  assert (exists day aqi pm10 pm25 o3 no2 co so2 temp precip wind,
            r = make_reading (VDate day) aqi pm10 pm25 o3 no2 co so2
                  temp precip wind)
    as (day & aqi & pm10 & pm25 & o3 & no2 & co & so2 & t & p & wd & ->).
  { destruct Hm as [(now & a & x & H)|(d & a & x & H)].
    - apply etl_transform_data_Some in H
        as (? & ? & ? & ? & ? & ? & ? & ? & ? & ? & -> & _).
      by do 11 eexists.
    - apply historical_transform_Some in H
        as (? & ? & ? & ? & ? & ? & ? & ? & ? & ? & -> & _).
      by do 11 eexists. }
  assert (dict_at w ref
          = make_reading (VDate day) aqi pm10 pm25 o3 no2 co so2 t p wd) as Hd
    by (unfold dict_at; by rewrite Hr).
  rewrite load_data_of_bindable by (rewrite Hd; eexists; reflexivity).
  unfold load_outcome. fold (dict_at w ref). rewrite Hd.
  destruct (resolve_location_wf l _ _ Hwf)
    as (i & d' & seq' & x & -> & _).
  rewrite bind_reading_make_reading.
  exists {| store.location_id := i; store.reading_date := day;
            store.aqi := aqi; store.pm10 := pm10; store.pm25 := pm25;
            store.o3 := o3; store.no2 := no2; store.co := co; store.so2 := so2;
            store.temperature_celsius := t; store.precipitation_mm := p;
            store.wind_speed_kmh := wd |}.
  split_and!; [reflexivity | reflexivity |].
  by destruct (store_accepts env _).
Qed.

Lemma merged_reading_loads_witness :
  exists row,
    reading_aqi (VInt 42) !! "aqi" = Some (store.aqi row)
    /\ (load_data_of Current env_nested engine_of_url savannah 0%nat
          (with_heap (<[0%nat := make_reading (VDate 7) (VInt 42) VNone
                                   (VFloat (81 # 10)) VNone VNone VNone VNone
                                   (VFloat (215 # 10)) VNone VNone]> ∅)
             initial_world)).1
       = (if store_accepts env_nested row then Ret tt else Raise DBAPIError).
Proof.
  assert (wf (with_heap (<[0%nat := make_reading (VDate 7) (VInt 42) VNone
                                      (VFloat (81 # 10)) VNone VNone VNone VNone
                                      (VFloat (215 # 10)) VNone VNone]> ∅)
                initial_world)) as Hwf
    by (split; simpl; try constructor; lia).
  destruct (merged_reading_loads Current env_nested engine_of_url savannah 0%nat
              _ _ Hwf (lookup_insert_eq _ _ _)
              (or_introl (ex_intro _ today7
                            (ex_intro _ savannah_aqi
                               (ex_intro _ savannah_weather eq_refl)))))
    as (row & H1 & _ & H2).
  exists row. split; [exact H1 | exact H2].
Defined.

(** X16.  The dictionary is changed before the row is proposed to the
    store: a call of [load_data] that raises because the store refuses the
    row (or a bind parameter is missing) has left the store as it was, but
    the caller's dictionary holds the 'location_id' all the same. *)
Theorem failed_load_still_sets_location_id :
  forall s env engine l reading_data w w' e,
    wf w ->
    is_Some (dict_at w reading_data !! "reading_date") ->
    load_data_of s env engine l reading_data w = (Raise e, w') ->
    db w' = db w
    /\ exists i,
         heap w' !! reading_data
         = Some (<["location_id" := VInt i]> (dict_at w reading_data)).
Proof.
  intros s env engine l ref w w' e Hwf Hd H.
  rewrite load_data_of_bindable in H by done.
  split; [by apply load_outcome_Raise in H as [? _]|].
  unfold load_outcome in H. fold (dict_at w ref) in H.
  destruct (resolve_location_wf l _ _ Hwf) as (i & d' & seq' & r & Hres & _).
  rewrite Hres in H. exists i.
  destruct (bind_reading _) as [row|e0].
  - destruct (store_accepts env row); [discriminate|].
    injection H as _ <-. simpl. by rewrite lookup_insert_eq.
  - injection H as _ <-. simpl. by rewrite lookup_insert_eq.
Qed.

Lemma failed_load_still_sets_location_id_witness :
  db (etl.load_data env_nested engine_of_url port_wentworth 1
        merged_port_wentworth).2 = db merged_port_wentworth
  /\ exists i,
       heap (etl.load_data env_nested engine_of_url port_wentworth 1
               merged_port_wentworth).2 !! 1%nat
       = Some (<["location_id" := VInt i]> (dict_at merged_port_wentworth 1)).
Proof.
  assert (wf merged_port_wentworth) as Hwf.
  { split; simpl; repeat constructor; try lia; set_solver. }
  assert (is_Some (dict_at merged_port_wentworth 1 !! "reading_date")) as Hd
    by (eexists; vm_compute; reflexivity).
  assert (load_data_of Current env_nested engine_of_url port_wentworth 1%nat
            merged_port_wentworth
          = (Raise DBAPIError,
             (etl.load_data env_nested engine_of_url port_wentworth 1
                merged_port_wentworth).2)) as Hload by by_evaluation.
  exact (failed_load_still_sets_location_id Current env_nested engine_of_url
           port_wentworth 1%nat merged_port_wentworth _ DBAPIError Hwf Hd Hload).
Defined.

(** ** From a returning run to the store *)

Lemma steps_grow env w w' :
  rtc (step env) w w' ->
  store.locations (db w) `prefix_of` store.locations (db w')
  /\ map store.key (store.daily_readings (db w))
       `prefix_of` map store.key (store.daily_readings (db w')).
Proof.
  induction 1 as [|w0 w1 w2 Hs _ IH]; [done|].
  destruct (step_grows _ _ _ Hs) as [H1 H2]. destruct IH as [H3 H4].
  split; by etrans.
Qed.

(** A reading that has been loaded is in the store, under its location and
    its date. *)
Lemma loaded_reading_is_stored s env engine l ref w0 w1
    day aqi pm10 pm25 o3 no2 co so2 temp precip wind :
  wf w0 ->
  dict_at w0 ref
    = make_reading (VDate day) aqi pm10 pm25 o3 no2 co so2 temp precip wind ->
  load_data_of s env engine l ref w0 = (Ret tt, w1) ->
  wf w1
  /\ exists r,
       store.locations_of (city l) (country l) (db w1) = [r]
       /\ (store.id r, day) ∈ map store.key (store.daily_readings (db w1)).
Proof.
  intros Hwf Hd H.
  rewrite load_data_of_bindable in H by (rewrite Hd; eexists; reflexivity).
  pose proof (load_outcome_wf env l ref w0 Hwf) as Hwf1.
  rewrite H in Hwf1. simpl in Hwf1. split; [done|].
  apply load_outcome_Ret in H
    as (i & d' & seq' & row & Hres & Hb & _ & _ & Hdb & _).
  destruct (resolve_location_wf l _ _ Hwf)
    as (i0 & d0 & seq0 & r & Hres' & _ & _ & Hloc & Hid & _).
  rewrite Hres in Hres'. injection Hres' as <- <- <-.
  rewrite Hd, bind_reading_make_reading in Hb. injection Hb as <-.
  exists r. split; [by rewrite Hdb|].
  rewrite Hdb, Hid. apply list_elem_of_fmap.
  eexists. split; [|apply insert_reading_elem]. reflexivity.
Qed.

(** What is stored stays stored. *)
Lemma stored_stays env w1 w2 c k r day :
  wf w1 ->
  rtc (step env) w1 w2 ->
  store.locations_of c k (db w1) = [r] ->
  (store.id r, day) ∈ map store.key (store.daily_readings (db w1)) ->
  store.locations_of c k (db w2) = [r]
  /\ exists row, store.readings_at (store.id r) day (db w2) = [row].
Proof.
  intros Hwf Hsteps Hloc Hkey.
  destruct (steps_preserve _ _ _ Hsteps Hwf) as [Hwf2 Hkeep].
  destruct (steps_grow _ _ _ Hsteps) as [_ Hkeys].
  split; [by apply Hkeep|].
  pose proof (elem_of_prefix _ _ _ Hkey Hkeys) as Hkey2.
  destruct (filter_unique store.key (store.daily_readings (db w2))
              (store.id r, day) (wf_keys _ _ Hwf2)) as [Hnone|[row Hrow]].
  - by apply (filter_none store.key) in Hnone.
  - by exists row.
Qed.

Lemma for_each_unit {A} env (l : list A) (body : A -> M unit) x w :
  (forall y w', rtc (step env) w' (body y w').2) ->
  (for_each l body w).1 = Ret tt ->
  x ∈ l ->
  exists w0,
    rtc (step env) w w0
    /\ (body x w0).1 = Ret tt
    /\ rtc (step env) (body x w0).2 (for_each l body w).2.
Proof.
  intros Hbody Hret Hx.
  apply list_elem_of_split in Hx as (before & after & ->).
  rewrite for_each_app in Hret |- *.
  pose proof (for_each_steps env before body Hbody w) as Hb.
  destruct (for_each before body w) as [[[]|e] w0]; simpl in *; [|done].
  exists w0. split; [done|].
  unfold mbind, M_bind in Hret |- *.
  pose proof (for_each_steps env after body Hbody) as Ha.
  destruct (body x w0) as [[[]|e] w1]; simpl in *; [|done].
  split; [done|]. apply Ha.
Qed.

Lemma make_reading_size d aqi pm10 pm25 o3 no2 co so2 temp precip wind :
  size (make_reading d aqi pm10 pm25 o3 no2 co so2 temp precip wind) <> 0%nat.
Proof. apply (size_nonzero_lookup _ "aqi" aqi). reflexivity. Qed.

Lemma etl_merge_Some env l w d :
  no_key (GOOGLE_API_KEY env) = false ->
  etl.transform_data (now env)
    (default VNone (aqi_current env (latitude l) (longitude l)))
    (default VNone (weather_forecast env (latitude l) (longitude l)))
    = Ret (Some d) ->
  size d <> 0%nat ->
  exists ref w',
    etl_merge env l w = (Ret (Some ref), w')
    /\ heap w' !! ref = Some d
    /\ db w' = db w
    /\ locations_id_seq w' = locations_id_seq w.
Proof.
  intros Hk Ht Hs. unfold etl_merge, etl.fetch_air_quality_data,
    etl.fetch_weather_data. rewrite Hk. unfold_M. rewrite Ht. simpl.
  apply Nat.eqb_neq in Hs. rewrite Hs.
  eexists _, _. split; [reflexivity|]. simpl. by rewrite lookup_insert_eq.
Qed.

Lemma backfill_merge_Some env date l w d :
  no_key (GOOGLE_API_KEY env) = false ->
  historical_backfill.transform_historical_data date
    (default VNone (aqi_history env (latitude l) (longitude l) (dt_day date)))
    (default VNone (weather_archive env (latitude l) (longitude l) (dt_day date)))
    = Ret (Some d) ->
  size d <> 0%nat ->
  exists ref w',
    backfill_merge env date l w = (Ret (Some ref), w')
    /\ heap w' !! ref = Some d
    /\ db w' = db w
    /\ locations_id_seq w' = locations_id_seq w.
Proof.
  intros Hk Ht Hs. unfold backfill_merge,
    historical_backfill.fetch_historical_aqi_data,
    historical_backfill.fetch_weather_data. rewrite Hk. unfold_M. rewrite Ht.
  simpl. apply Nat.eqb_neq in Hs. rewrite Hs.
  eexists _, _. split; [reflexivity|]. simpl. by rewrite lookup_insert_eq.
Qed.

Lemma etl_unit_stored env engine l w0 d :
  wf w0 ->
  no_key (GOOGLE_API_KEY env) = false ->
  etl.transform_data (now env)
    (default VNone (aqi_current env (latitude l) (longitude l)))
    (default VNone (weather_forecast env (latitude l) (longitude l)))
    = Ret (Some d) ->
  (etl.process_location env engine l w0).1 = Ret tt ->
  wf (etl.process_location env engine l w0).2
  /\ exists r,
       store.locations_of (city l) (country l)
         (db (etl.process_location env engine l w0).2) = [r]
       /\ (store.id r, dt_day (now env))
            ∈ map store.key
                (store.daily_readings (db (etl.process_location env engine l w0).2)).
Proof.
  intros Hwf Hk Ht. pose proof Ht as Hform.
  apply etl_transform_data_Some in Hform
    as (aqi & pm10 & pm25 & o3 & no2 & co & so2 & t & p & wd & Hd & _).
  assert (size d <> 0%nat) as Hs by (rewrite Hd; apply make_reading_size).
  destruct (etl_merge_Some env l w0 d Hk Ht Hs)
    as (ref & w0' & Hm & Hh & Hdb & Hseq).
  rewrite etl_process_location_eq. unfold mbind, M_bind. rewrite Hm.
  intros Hret.
  apply (loaded_reading_is_stored Current env engine l ref w0' _
           (dt_day (now env)) aqi pm10 pm25 o3 no2 co so2 t p wd).
  - unfold wf. by rewrite Hdb, Hseq.
  - unfold dict_at. by rewrite Hh.
  - by apply outcome_eq.
Qed.

Lemma backfill_unit_stored env engine date l w0 d :
  wf w0 ->
  no_key (GOOGLE_API_KEY env) = false ->
  historical_backfill.transform_historical_data date
    (default VNone (aqi_history env (latitude l) (longitude l) (dt_day date)))
    (default VNone (weather_archive env (latitude l) (longitude l) (dt_day date)))
    = Ret (Some d) ->
  (historical_backfill.process_location env engine date l w0).1 = Ret tt ->
  wf (historical_backfill.process_location env engine date l w0).2
  /\ exists r,
       store.locations_of (city l) (country l)
         (db (historical_backfill.process_location env engine date l w0).2) = [r]
       /\ (store.id r, dt_day date)
            ∈ map store.key
                (store.daily_readings
                   (db (historical_backfill.process_location env engine date l w0).2)).
Proof.
  intros Hwf Hk Ht. pose proof Ht as Hform.
  apply historical_transform_Some in Hform
    as (aqi & pm10 & pm25 & o3 & no2 & co & so2 & t & p & wd & Hd & _).
  assert (size d <> 0%nat) as Hs by (rewrite Hd; apply make_reading_size).
  destruct (backfill_merge_Some env date l w0 d Hk Ht Hs)
    as (ref & w0' & Hm & Hh & Hdb & Hseq).
  rewrite backfill_process_location_eq. unfold mbind, M_bind. rewrite Hm.
  destruct (historical_backfill.load_data env engine l ref w0')
    as [[[]|e] w1] eqn:Hl; simpl; [|done].
  intros _.
  destruct (loaded_reading_is_stored Backfill env engine l ref w0' w1
              (dt_day date) aqi pm10 pm25 o3 no2 co so2 t p wd)
    as (Hwf1 & r & Hloc & Hkey).
  - unfold wf. by rewrite Hdb, Hseq.
  - unfold dict_at. by rewrite Hh.
  - exact Hl.
  - split; [exact Hwf1|]. by exists r.
Qed.

(** X17.  After a run that returns, on a store that was well-formed, every
    unit of work whose merge gave a reading is in the store: the city and
    country of the unit have their one location row, and there is exactly
    one reading row under that location and the date of the unit (today for
    etl.py, the day of the unit for the backfill). *)
Theorem merged_units_are_stored :
  (forall env engine locations w l d,
     wf w ->
     no_key (GOOGLE_API_KEY env) = false ->
     (etl.run env engine locations w).1 = Ret tt ->
     l ∈ locations ->
     etl.transform_data (now env)
       (default VNone (aqi_current env (latitude l) (longitude l)))
       (default VNone (weather_forecast env (latitude l) (longitude l)))
       = Ret (Some d) ->
     exists r row,
       store.locations_of (city l) (country l)
         (db (etl.run env engine locations w).2) = [r]
       /\ store.readings_at (store.id r) (dt_day (now env))
            (db (etl.run env engine locations w).2) = [row])
  /\ (forall env engine days locations w i l d,
        wf w ->
        no_key (GOOGLE_API_KEY env) = false ->
        (historical_backfill.run env engine days locations w).1 = Ret tt ->
        i ∈ historical_backfill.range_down days ->
        l ∈ locations ->
        historical_backfill.transform_historical_data (minus_days (now env) i)
          (default VNone
             (aqi_history env (latitude l) (longitude l) (dt_day (now env) - i)))
          (default VNone
             (weather_archive env (latitude l) (longitude l) (dt_day (now env) - i)))
          = Ret (Some d) ->
        exists r row,
          store.locations_of (city l) (country l)
            (db (historical_backfill.run env engine days locations w).2) = [r]
          /\ store.readings_at (store.id r) (dt_day (now env) - i)
               (db (historical_backfill.run env engine days locations w).2)
             = [row]).
Proof.
  split.
  - intros env engine locations w l d Hwf Hk Hret Hl Ht. unfold etl.run in *.
    destruct (for_each_unit env locations (etl.process_location env engine) l w
                (etl_process_location_steps env engine) Hret Hl)
      as (w0 & Hsteps0 & Hret0 & Hsteps1).
    destruct (steps_preserve _ _ _ Hsteps0 Hwf) as [Hwf0 _].
    destruct (etl_unit_stored env engine l w0 d Hwf0 Hk Ht Hret0)
      as (Hwf1 & r & Hloc & Hkey).
    destruct (stored_stays _ _ _ _ _ _ _ Hwf1 Hsteps1 Hloc Hkey) as [H1 [row H2]].
    by exists r, row.
  - intros env engine days locations w i l d Hwf Hk Hret Hi Hl Ht.
    unfold historical_backfill.run in *.
    assert (forall j w',
              rtc (step env) w'
                (for_each locations
                   (historical_backfill.process_location env engine
                      (minus_days (now env) j)) w').2) as Hinner.
    { intros j w'. apply for_each_steps. intros y w''.
      apply backfill_process_location_steps. }
    destruct (for_each_unit env (historical_backfill.range_down days) _ i w
                Hinner Hret Hi) as (w0 & Hsteps0 & Hret0 & Hsteps1).
    destruct (for_each_unit env locations _ l w0
                (backfill_process_location_steps env engine
                   (minus_days (now env) i)) Hret0 Hl)
      as (w0' & Hsteps0' & Hret0' & Hsteps1').
    destruct (steps_preserve _ _ _ Hsteps0 Hwf) as [Hwf0 _].
    destruct (steps_preserve _ _ _ Hsteps0' Hwf0) as [Hwf0' _].
    destruct (backfill_unit_stored env engine _ l w0' d Hwf0' Hk Ht Hret0')
      as (Hwf1 & r & Hloc & Hkey).
    assert (rtc (step env)
              (historical_backfill.process_location env engine
                 (minus_days (now env) i) l w0').2
              (for_each (historical_backfill.range_down days)
                 (fun j => for_each locations
                             (historical_backfill.process_location env engine
                                (minus_days (now env) j))) w).2) as Hsteps
      by (by etrans).
    destruct (stored_stays _ _ _ _ _ _ _ Hwf1 Hsteps Hloc Hkey) as [H1 [row H2]].
    by exists r, row.
Qed.

Lemma merged_units_are_stored_witness :
  exists r row,
    store.locations_of "Pooler" "USA"
      (db (etl.run env_accepting engine_of_url LOCATIONS initial_world).2) = [r]
    /\ store.readings_at (store.id r) 7
         (db (etl.run env_accepting engine_of_url LOCATIONS initial_world).2)
       = [row].
Proof.
  assert (wf initial_world) as Hwf by (split; simpl; try constructor; lia).
  assert (pooler ∈ LOCATIONS) as Hin by (unfold LOCATIONS; repeat constructor).
  exact (proj1 merged_units_are_stored env_accepting engine_of_url LOCATIONS
           initial_world pooler _ Hwf eq_refl eq_refl Hin eq_refl).
Defined.

(** ** What an hour reports, in the historical merge *)

Lemma next_uaqi_aqi_first before item_kvs after :
  Forall (fun i => is_dict i = true /\ has_code "uaqi" i = false) before ->
  has_code "uaqi" (VDict item_kvs) = true ->
  historical_backfill.next_uaqi_aqi (before ++ VDict item_kvs :: after)
  = Ret (default VNone (dict_get "aqi" item_kvs)).
Proof.
  intros Hb Hi. induction Hb as [|i before [Hd Hc] _ IH]; simpl.
  - simpl in Hi. by rewrite Hi.
  - destruct i; try discriminate. simpl in *. by rewrite Hc.
Qed.

(** X18.  What the historical merge takes from one hourly entry.  For the
    aqi: the 'aqi' of the first index whose code is 'uaqi', the indexes
    after it not being looked at; nothing (None) when 'indexes' is not a
    list.  For a pollutant: the concentration value of the last pollutant
    entry with the code, None when no entry has it or 'pollutants' is not a
    list. *)
Theorem hour_extraction :
  (forall before item_kvs after,
     Forall (fun i => is_dict i = true /\ has_code "uaqi" i = false) before ->
     has_code "uaqi" (VDict item_kvs) = true ->
     historical_backfill.get_aqi (VList (before ++ VDict item_kvs :: after))
     = Ret (default VNone (dict_get "aqi" item_kvs)))
  /\ (forall v, is_list v = false ->
                historical_backfill.get_aqi v = Ret VNone
                /\ forall c, historical_backfill.get_pollutant_value v c = Ret VNone)
  /\ (forall front p back c v,
        has_code c p = true ->
        Forall (fun q => has_code c q = false) back ->
        historical_backfill.get_pollutant_value (VList (front ++ p :: back)) c
          = Ret v ->
        v = concentration_value p)
  /\ (forall ps c v,
        Forall (fun q => has_code c q = false) ps ->
        historical_backfill.get_pollutant_value (VList ps) c = Ret v ->
        v = VNone).
Proof.
  split_and!.
  - intros before item_kvs after Hb Hi. by apply next_uaqi_aqi_first.
  - intros v Hv. by destruct v.
  - intros front p back c v Hp Hb H. simpl in H.
    apply bind_Ret in H as (items & Hitems & H). injection H as <-.
    unfold items_get. by rewrite (pollutant_items_last _ _ _ _ _ Hitems Hp Hb).
  - intros ps c v Hb H. simpl in H.
    apply bind_Ret in H as (items & Hitems & H). injection H as <-.
    unfold items_get. by rewrite (pollutant_items_without _ _ _ Hitems Hb).
Qed.

Lemma hour_extraction_witness :
  historical_backfill.get_aqi
    (VList ([VDict [("code", VStr "usa_epa"); ("aqi", VInt 30)]]
            ++ VDict [("code", VStr "uaqi"); ("aqi", VInt 42)] :: [VInt 5]))
  = Ret (VInt 42).
Proof.
  apply (proj1 hour_extraction
           [VDict [("code", VStr "usa_epa"); ("aqi", VInt 30)]]
           [("code", VStr "uaqi"); ("aqi", VInt 42)] [VInt 5]).
  - repeat constructor.
  - reflexivity.
Defined.
